(** * musashi-go: the 68000 core, embedded from the Go sources

    The definitions follow [musashi.go] (CPU struct, Reset, Execute, the
    interrupt path, register access, contexts, virtual interrupt lines),
    [flags.go] (condition codes), [addressing.go] (effective addresses),
    [instructions.go] (the instruction handlers) and [opcodes.go] (the
    decoder and the handlers next to it).

    Conventions.
    - A Go [uintN] is a [Z] in [0, 2^N); every operation that can leave
      that range is followed by its wrap-around ([uint8], [uint16],
      [uint32]).  Go's [int] is two's complement on 32 or 64 bits,
      depending on the target ([IntSize], [int]).
    - A method on [*CPU] is a computation in the monad [M]: it receives
      the CPU and returns a value and the new CPU, or [None] when the Go
      code panics (array index out of range, call on a nil interface, a
      panic inside the memory handler).
    - The memory handler is an interface in Go; here it is the class
      [MemoryHandler] over the type of the handler's state.
    - The callback slots hold closures over the CPU; they are kept in a
      record of their own, [Callbacks], next to the CPU state. *)

From Stdlib Require Import ZArith Bool Lia List.
Import ListNotations.
Local Open Scope Z_scope.

(** ** Machine integers *)

Definition uint8 (x : Z) : Z := x mod 2 ^ 8.
Definition uint16 (x : Z) : Z := x mod 2 ^ 16.
Definition uint32 (x : Z) : Z := x mod 2 ^ 32.

(** The width of Go's [int]: 32 bits on 32-bit targets, 64 bits on
    64-bit targets. *)
Class IntSize : Type := {
  intBits : Z;
  intBits_32_or_64 : intBits = 32 \/ intBits = 64
}.

Definition int32 : IntSize :=
  {| intBits := 32; intBits_32_or_64 := or_introl eq_refl |}.

#[export] Instance int64 : IntSize :=
  {| intBits := 64; intBits_32_or_64 := or_intror eq_refl |}.

Definition maxInt {IS : IntSize} : Z := 2 ^ (intBits - 1) - 1.
Definition minInt {IS : IntSize} : Z := - 2 ^ (intBits - 1).

(** Two's complement wrap-around of Go's [int]. *)
Definition int {IS : IntSize} (x : Z) : Z :=
  (x + 2 ^ (intBits - 1)) mod 2 ^ intBits - 2 ^ (intBits - 1).

(** Go's [x != 0] on an unsigned value. *)
Definition nonzero (x : Z) : bool := negb (x =? 0).

(** ** Fixed arrays of eight elements ([[8]uint32], [[8]bool]) *)

Record Array8 (A : Type) : Type := mkArray8 {
  e0 : A; e1 : A; e2 : A; e3 : A; e4 : A; e5 : A; e6 : A; e7 : A
}.
Arguments mkArray8 {A}.
Arguments e0 {A}. Arguments e1 {A}. Arguments e2 {A}. Arguments e3 {A}.
Arguments e4 {A}. Arguments e5 {A}. Arguments e6 {A}. Arguments e7 {A}.

Definition fill8 {A : Type} (x : A) : Array8 A := mkArray8 x x x x x x x x.

(** [arr[i]]: [None] is Go's index-out-of-range panic. *)
Definition index {A : Type} (r : Array8 A) (i : Z) : option A :=
  match i with
  | 0 => Some (e0 r) | 1 => Some (e1 r) | 2 => Some (e2 r) | 3 => Some (e3 r)
  | 4 => Some (e4 r) | 5 => Some (e5 r) | 6 => Some (e6 r) | 7 => Some (e7 r)
  | _ => None
  end.

(** [arr[i] = v]. *)
Definition store {A : Type} (r : Array8 A) (i : Z) (v : A) : option (Array8 A) :=
  match i with
  | 0 => Some (mkArray8 v (e1 r) (e2 r) (e3 r) (e4 r) (e5 r) (e6 r) (e7 r))
  | 1 => Some (mkArray8 (e0 r) v (e2 r) (e3 r) (e4 r) (e5 r) (e6 r) (e7 r))
  | 2 => Some (mkArray8 (e0 r) (e1 r) v (e3 r) (e4 r) (e5 r) (e6 r) (e7 r))
  | 3 => Some (mkArray8 (e0 r) (e1 r) (e2 r) v (e4 r) (e5 r) (e6 r) (e7 r))
  | 4 => Some (mkArray8 (e0 r) (e1 r) (e2 r) (e3 r) v (e5 r) (e6 r) (e7 r))
  | 5 => Some (mkArray8 (e0 r) (e1 r) (e2 r) (e3 r) (e4 r) v (e6 r) (e7 r))
  | 6 => Some (mkArray8 (e0 r) (e1 r) (e2 r) (e3 r) (e4 r) (e5 r) v (e7 r))
  | 7 => Some (mkArray8 (e0 r) (e1 r) (e2 r) (e3 r) (e4 r) (e5 r) (e6 r) v)
  | _ => None
  end.

(** ** CPU types, condition-code bits, interrupt acknowledge values *)

Definition CPUInvalid : Z := 0.
Definition CPU68000 : Z := 1.
Definition CPU68010 : Z := 2.
Definition CPU68EC020 : Z := 3.
Definition CPU68020 : Z := 4.
Definition CPU68EC030 : Z := 5.
Definition CPU68030 : Z := 6.
Definition CPU68EC040 : Z := 7.
Definition CPU68LC040 : Z := 8.
Definition CPU68040 : Z := 9.
Definition CPUSCC68070 : Z := 10.

Definition FlagC : Z := 0x01.
Definition FlagV : Z := 0x02.
Definition FlagZ : Z := 0x04.
Definition FlagN : Z := 0x08.
Definition FlagX : Z := 0x10.

Definition CondT : Z := 0.
Definition CondF : Z := 1.
Definition CondHI : Z := 2.
Definition CondLS : Z := 3.
Definition CondCC : Z := 4.
Definition CondCS : Z := 5.
Definition CondNE : Z := 6.
Definition CondEQ : Z := 7.
Definition CondVC : Z := 8.
Definition CondVS : Z := 9.
Definition CondPL : Z := 10.
Definition CondMI : Z := 11.
Definition CondGE : Z := 12.
Definition CondLT : Z := 13.
Definition CondGT : Z := 14.
Definition CondLE : Z := 15.

Definition IntAckAutovector : Z := 0xFFFFFFFF.
Definition IntAckSpurious : Z := 0xFFFFFFFE.

(** ** The memory handler interface *)

(** [MemoryHandler]: the six accessors of the Go interface over a handler
    state [H].  A read returns the value, a write the new handler state;
    [None] is a panic raised by the handler. *)
Class MemoryHandler (H : Type) : Type := {
  Read8 : H -> Z -> option Z;
  Read16 : H -> Z -> option Z;
  Read32 : H -> Z -> option Z;
  Write8 : H -> Z -> Z -> option H;
  Write16 : H -> Z -> Z -> option H;
  Write32 : H -> Z -> Z -> option H
}.

(** ** SimpleMemory: the 1 MB RAM of the tests and of the example *)

Module SimpleMemory.

(** [ram [1024 * 1024]byte], zero when allocated. *)
Definition t : Type := Z -> Z.

Definition size : Z := 1024 * 1024.

Definition empty : t := fun _ => 0.

Definition get (m : t) (i : Z) : option Z :=
  if (0 <=? i) && (i <? size) then Some (m i) else None.

Definition set (m : t) (i v : Z) : option t :=
  if (0 <=? i) && (i <? size)
  then Some (fun j => if j =? i then v else m j)
  else None.

Definition Read8 (m : t) (address : Z) : option Z :=
  get m (Z.land address 0xFFFFF).

Definition Read16 (m : t) (address : Z) : option Z :=
  let addr := Z.land address 0xFFFFF in
  match get m addr, get m (addr + 1) with
  | Some b0, Some b1 => Some (Z.lor (uint16 (Z.shiftl b0 8)) b1)
  | _, _ => None
  end.

Definition Read32 (m : t) (address : Z) : option Z :=
  let addr := Z.land address 0xFFFFF in
  match get m addr, get m (addr + 1),
        get m (addr + 2), get m (addr + 3) with
  | Some b0, Some b1, Some b2, Some b3 =>
      Some (Z.lor (Z.lor (Z.lor (uint32 (Z.shiftl b0 24)) (uint32 (Z.shiftl b1 16)))
                         (uint32 (Z.shiftl b2 8))) b3)
  | _, _, _, _ => None
  end.

Definition Write8 (m : t) (address value : Z) : option t :=
  set m (Z.land address 0xFFFFF) value.

Definition Write16 (m : t) (address value : Z) : option t :=
  let addr := Z.land address 0xFFFFF in
  match set m addr (uint8 (Z.shiftr value 8)) with
  | Some m1 => set m1 (addr + 1) (uint8 value)
  | None => None
  end.

Definition Write32 (m : t) (address value : Z) : option t :=
  let addr := Z.land address 0xFFFFF in
  match set m addr (uint8 (Z.shiftr value 24)) with
  | Some m1 =>
    match set m1 (addr + 1) (uint8 (Z.shiftr value 16)) with
    | Some m2 =>
      match set m2 (addr + 2) (uint8 (Z.shiftr value 8)) with
      | Some m3 => set m3 (addr + 3) (uint8 value)
      | None => None
      end
    | None => None
    end
  | None => None
  end.

End SimpleMemory.

#[export] Instance SimpleMemory_handler : MemoryHandler SimpleMemory.t := {
  Read8 := SimpleMemory.Read8;
  Read16 := SimpleMemory.Read16;
  Read32 := SimpleMemory.Read32;
  Write8 := SimpleMemory.Write8;
  Write16 := SimpleMemory.Write16;
  Write32 := SimpleMemory.Write32
}.

(** ** The CPU *)

Section Core.

Context {H : Type} {MH : MemoryHandler H} {IS : IntSize}.

(** The fields of the Go struct [CPU], callbacks apart.  [memory] is the
    handler's state, [None] for a nil interface. *)
Record CPU : Type := mkCPU {
  cpuType : Z;
  d : Array8 Z;
  a : Array8 Z;
  pc : Z;
  sr : Z;
  usp : Z;
  isp : Z;
  msp : Z;
  sfc : Z;
  dfc : Z;
  vbr : Z;
  cacr : Z;
  caar : Z;
  stopped : bool;
  halted : bool;
  cyclesRun : Z;
  cyclesRemain : Z;
  irqLevel : Z;
  virq : Array8 bool;
  prefetchAddr : Z;
  prefetchData : Z;
  ppc : Z;
  ir : Z;
  memory : option H
}.

(** Field assignment [cpu.f = v], one function per field. *)

Definition set_cpuType (v : Z) (c : CPU) : CPU :=
  mkCPU v (d c) (a c) (pc c) (sr c) (usp c) (isp c) (msp c) (sfc c) (dfc c) (vbr c)
    (cacr c) (caar c) (stopped c) (halted c) (cyclesRun c) (cyclesRemain c) (irqLevel c)
    (virq c) (prefetchAddr c) (prefetchData c) (ppc c) (ir c) (memory c).

Definition set_d (v : Array8 Z) (c : CPU) : CPU :=
  mkCPU (cpuType c) v (a c) (pc c) (sr c) (usp c) (isp c) (msp c) (sfc c) (dfc c) (vbr c)
    (cacr c) (caar c) (stopped c) (halted c) (cyclesRun c) (cyclesRemain c) (irqLevel c)
    (virq c) (prefetchAddr c) (prefetchData c) (ppc c) (ir c) (memory c).

Definition set_a (v : Array8 Z) (c : CPU) : CPU :=
  mkCPU (cpuType c) (d c) v (pc c) (sr c) (usp c) (isp c) (msp c) (sfc c) (dfc c) (vbr c)
    (cacr c) (caar c) (stopped c) (halted c) (cyclesRun c) (cyclesRemain c) (irqLevel c)
    (virq c) (prefetchAddr c) (prefetchData c) (ppc c) (ir c) (memory c).

Definition set_pc (v : Z) (c : CPU) : CPU :=
  mkCPU (cpuType c) (d c) (a c) v (sr c) (usp c) (isp c) (msp c) (sfc c) (dfc c) (vbr c)
    (cacr c) (caar c) (stopped c) (halted c) (cyclesRun c) (cyclesRemain c) (irqLevel c)
    (virq c) (prefetchAddr c) (prefetchData c) (ppc c) (ir c) (memory c).

Definition set_sr (v : Z) (c : CPU) : CPU :=
  mkCPU (cpuType c) (d c) (a c) (pc c) v (usp c) (isp c) (msp c) (sfc c) (dfc c) (vbr c)
    (cacr c) (caar c) (stopped c) (halted c) (cyclesRun c) (cyclesRemain c) (irqLevel c)
    (virq c) (prefetchAddr c) (prefetchData c) (ppc c) (ir c) (memory c).

Definition set_usp (v : Z) (c : CPU) : CPU :=
  mkCPU (cpuType c) (d c) (a c) (pc c) (sr c) v (isp c) (msp c) (sfc c) (dfc c) (vbr c)
    (cacr c) (caar c) (stopped c) (halted c) (cyclesRun c) (cyclesRemain c) (irqLevel c)
    (virq c) (prefetchAddr c) (prefetchData c) (ppc c) (ir c) (memory c).

Definition set_isp (v : Z) (c : CPU) : CPU :=
  mkCPU (cpuType c) (d c) (a c) (pc c) (sr c) (usp c) v (msp c) (sfc c) (dfc c) (vbr c)
    (cacr c) (caar c) (stopped c) (halted c) (cyclesRun c) (cyclesRemain c) (irqLevel c)
    (virq c) (prefetchAddr c) (prefetchData c) (ppc c) (ir c) (memory c).

Definition set_msp (v : Z) (c : CPU) : CPU :=
  mkCPU (cpuType c) (d c) (a c) (pc c) (sr c) (usp c) (isp c) v (sfc c) (dfc c) (vbr c)
    (cacr c) (caar c) (stopped c) (halted c) (cyclesRun c) (cyclesRemain c) (irqLevel c)
    (virq c) (prefetchAddr c) (prefetchData c) (ppc c) (ir c) (memory c).

Definition set_sfc (v : Z) (c : CPU) : CPU :=
  mkCPU (cpuType c) (d c) (a c) (pc c) (sr c) (usp c) (isp c) (msp c) v (dfc c) (vbr c)
    (cacr c) (caar c) (stopped c) (halted c) (cyclesRun c) (cyclesRemain c) (irqLevel c)
    (virq c) (prefetchAddr c) (prefetchData c) (ppc c) (ir c) (memory c).

Definition set_dfc (v : Z) (c : CPU) : CPU :=
  mkCPU (cpuType c) (d c) (a c) (pc c) (sr c) (usp c) (isp c) (msp c) (sfc c) v (vbr c)
    (cacr c) (caar c) (stopped c) (halted c) (cyclesRun c) (cyclesRemain c) (irqLevel c)
    (virq c) (prefetchAddr c) (prefetchData c) (ppc c) (ir c) (memory c).

Definition set_vbr (v : Z) (c : CPU) : CPU :=
  mkCPU (cpuType c) (d c) (a c) (pc c) (sr c) (usp c) (isp c) (msp c) (sfc c) (dfc c) v
    (cacr c) (caar c) (stopped c) (halted c) (cyclesRun c) (cyclesRemain c) (irqLevel c)
    (virq c) (prefetchAddr c) (prefetchData c) (ppc c) (ir c) (memory c).

Definition set_cacr (v : Z) (c : CPU) : CPU :=
  mkCPU (cpuType c) (d c) (a c) (pc c) (sr c) (usp c) (isp c) (msp c) (sfc c) (dfc c)
    (vbr c) v (caar c) (stopped c) (halted c) (cyclesRun c) (cyclesRemain c) (irqLevel c)
    (virq c) (prefetchAddr c) (prefetchData c) (ppc c) (ir c) (memory c).

Definition set_caar (v : Z) (c : CPU) : CPU :=
  mkCPU (cpuType c) (d c) (a c) (pc c) (sr c) (usp c) (isp c) (msp c) (sfc c) (dfc c)
    (vbr c) (cacr c) v (stopped c) (halted c) (cyclesRun c) (cyclesRemain c) (irqLevel c)
    (virq c) (prefetchAddr c) (prefetchData c) (ppc c) (ir c) (memory c).

Definition set_stopped (v : bool) (c : CPU) : CPU :=
  mkCPU (cpuType c) (d c) (a c) (pc c) (sr c) (usp c) (isp c) (msp c) (sfc c) (dfc c)
    (vbr c) (cacr c) (caar c) v (halted c) (cyclesRun c) (cyclesRemain c) (irqLevel c)
    (virq c) (prefetchAddr c) (prefetchData c) (ppc c) (ir c) (memory c).

Definition set_halted (v : bool) (c : CPU) : CPU :=
  mkCPU (cpuType c) (d c) (a c) (pc c) (sr c) (usp c) (isp c) (msp c) (sfc c) (dfc c)
    (vbr c) (cacr c) (caar c) (stopped c) v (cyclesRun c) (cyclesRemain c) (irqLevel c)
    (virq c) (prefetchAddr c) (prefetchData c) (ppc c) (ir c) (memory c).

Definition set_cyclesRun (v : Z) (c : CPU) : CPU :=
  mkCPU (cpuType c) (d c) (a c) (pc c) (sr c) (usp c) (isp c) (msp c) (sfc c) (dfc c)
    (vbr c) (cacr c) (caar c) (stopped c) (halted c) v (cyclesRemain c) (irqLevel c)
    (virq c) (prefetchAddr c) (prefetchData c) (ppc c) (ir c) (memory c).

Definition set_cyclesRemain (v : Z) (c : CPU) : CPU :=
  mkCPU (cpuType c) (d c) (a c) (pc c) (sr c) (usp c) (isp c) (msp c) (sfc c) (dfc c)
    (vbr c) (cacr c) (caar c) (stopped c) (halted c) (cyclesRun c) v (irqLevel c) (virq c)
    (prefetchAddr c) (prefetchData c) (ppc c) (ir c) (memory c).

Definition set_irqLevel (v : Z) (c : CPU) : CPU :=
  mkCPU (cpuType c) (d c) (a c) (pc c) (sr c) (usp c) (isp c) (msp c) (sfc c) (dfc c)
    (vbr c) (cacr c) (caar c) (stopped c) (halted c) (cyclesRun c) (cyclesRemain c) v
    (virq c) (prefetchAddr c) (prefetchData c) (ppc c) (ir c) (memory c).

Definition set_virq (v : Array8 bool) (c : CPU) : CPU :=
  mkCPU (cpuType c) (d c) (a c) (pc c) (sr c) (usp c) (isp c) (msp c) (sfc c) (dfc c)
    (vbr c) (cacr c) (caar c) (stopped c) (halted c) (cyclesRun c) (cyclesRemain c)
    (irqLevel c) v (prefetchAddr c) (prefetchData c) (ppc c) (ir c) (memory c).

Definition set_prefetchAddr (v : Z) (c : CPU) : CPU :=
  mkCPU (cpuType c) (d c) (a c) (pc c) (sr c) (usp c) (isp c) (msp c) (sfc c) (dfc c)
    (vbr c) (cacr c) (caar c) (stopped c) (halted c) (cyclesRun c) (cyclesRemain c)
    (irqLevel c) (virq c) v (prefetchData c) (ppc c) (ir c) (memory c).

Definition set_prefetchData (v : Z) (c : CPU) : CPU :=
  mkCPU (cpuType c) (d c) (a c) (pc c) (sr c) (usp c) (isp c) (msp c) (sfc c) (dfc c)
    (vbr c) (cacr c) (caar c) (stopped c) (halted c) (cyclesRun c) (cyclesRemain c)
    (irqLevel c) (virq c) (prefetchAddr c) v (ppc c) (ir c) (memory c).

Definition set_ppc (v : Z) (c : CPU) : CPU :=
  mkCPU (cpuType c) (d c) (a c) (pc c) (sr c) (usp c) (isp c) (msp c) (sfc c) (dfc c)
    (vbr c) (cacr c) (caar c) (stopped c) (halted c) (cyclesRun c) (cyclesRemain c)
    (irqLevel c) (virq c) (prefetchAddr c) (prefetchData c) v (ir c) (memory c).

Definition set_ir (v : Z) (c : CPU) : CPU :=
  mkCPU (cpuType c) (d c) (a c) (pc c) (sr c) (usp c) (isp c) (msp c) (sfc c) (dfc c)
    (vbr c) (cacr c) (caar c) (stopped c) (halted c) (cyclesRun c) (cyclesRemain c)
    (irqLevel c) (virq c) (prefetchAddr c) (prefetchData c) (ppc c) v (memory c).

Definition set_memory (v : option H) (c : CPU) : CPU :=
  mkCPU (cpuType c) (d c) (a c) (pc c) (sr c) (usp c) (isp c) (msp c) (sfc c) (dfc c)
    (vbr c) (cacr c) (caar c) (stopped c) (halted c) (cyclesRun c) (cyclesRemain c)
    (irqLevel c) (virq c) (prefetchAddr c) (prefetchData c) (ppc c) (ir c) v.

(** The callback slots read by the functions below.  [intAckCallback]
    is given by the vector it returns for a level; the two others, which
    return nothing, by what they do to the CPU. *)
Record Callbacks : Type := mkCallbacks {
  intAckCallback : option (Z -> Z);
  resetCallback : option (CPU -> CPU);
  instrHookCallback : option (Z -> CPU -> CPU)
}.

Definition noCallbacks : Callbacks := mkCallbacks None None None.

(** ** The monad of CPU methods *)

Definition M (A : Type) : Type := CPU -> option (A * CPU).

Definition ret {A : Type} (x : A) : M A := fun cpu => Some (x, cpu).

Definition bind {A B : Type} (m : M A) (k : A -> M B) : M B :=
  fun cpu => match m cpu with
             | Some (x, cpu') => k x cpu'
             | None => None
             end.

Definition panic {A : Type} : M A := fun _ => None.

Definition gets {A : Type} (f : CPU -> A) : M A := fun cpu => Some (f cpu, cpu).

Definition modify (f : CPU -> CPU) : M unit := fun cpu => Some (tt, f cpu).

Definition lift {A : Type} (o : option A) : M A :=
  match o with
  | Some x => ret x
  | None => panic
  end.

Notation "x <- m ;; k" := (bind m (fun x => k))
  (at level 61, m at next level, right associativity).
Notation "m ;; k" := (bind m (fun _ => k))
  (at level 61, right associativity).

(** [cpu.d[reg]], [cpu.a[reg]] and their assignments. *)
Definition getD (reg : Z) : M Z := r <- gets d ;; lift (index r reg).
Definition getA (reg : Z) : M Z := r <- gets a ;; lift (index r reg).
Definition setD (reg v : Z) : M unit :=
  r <- gets d ;; r' <- lift (store r reg v) ;; modify (set_d r').
Definition setA (reg v : Z) : M unit :=
  r <- gets a ;; r' <- lift (store r reg v) ;; modify (set_a r').

(** Calls through [cpu.memory]; on a nil interface the call panics. *)
Definition memRead (rd : H -> Z -> option Z) (address : Z) : M Z :=
  mem <- gets memory ;;
  match mem with
  | Some h => lift (rd h address)
  | None => panic
  end.

Definition memWrite (wr : H -> Z -> Z -> option H) (address value : Z) : M unit :=
  mem <- gets memory ;;
  match mem with
  | Some h => h' <- lift (wr h address value) ;; modify (set_memory (Some h'))
  | None => panic
  end.

(** ** flags.go *)

(** [setFlagsLogical]: [&^=] is [Z.ldiff], [|=] is [Z.lor]. *)
Definition setFlagsLogical (result size : Z) : M unit :=
  modify (fun cpu => set_sr (Z.ldiff (sr cpu) (Z.lor FlagV FlagC)) cpu) ;;
  match size with
  | 8 =>
    (if nonzero (Z.land result 0x80)
     then modify (fun cpu => set_sr (Z.lor (sr cpu) FlagN) cpu)
     else modify (fun cpu => set_sr (Z.ldiff (sr cpu) FlagN) cpu)) ;;
    (if Z.land result 0xFF =? 0
     then modify (fun cpu => set_sr (Z.lor (sr cpu) FlagZ) cpu)
     else modify (fun cpu => set_sr (Z.ldiff (sr cpu) FlagZ) cpu))
  | 16 =>
    (if nonzero (Z.land result 0x8000)
     then modify (fun cpu => set_sr (Z.lor (sr cpu) FlagN) cpu)
     else modify (fun cpu => set_sr (Z.ldiff (sr cpu) FlagN) cpu)) ;;
    (if Z.land result 0xFFFF =? 0
     then modify (fun cpu => set_sr (Z.lor (sr cpu) FlagZ) cpu)
     else modify (fun cpu => set_sr (Z.ldiff (sr cpu) FlagZ) cpu))
  | 32 =>
    (if nonzero (Z.land result 0x80000000)
     then modify (fun cpu => set_sr (Z.lor (sr cpu) FlagN) cpu)
     else modify (fun cpu => set_sr (Z.ldiff (sr cpu) FlagN) cpu)) ;;
    (if result =? 0
     then modify (fun cpu => set_sr (Z.lor (sr cpu) FlagZ) cpu)
     else modify (fun cpu => set_sr (Z.ldiff (sr cpu) FlagZ) cpu))
  | _ => ret tt
  end.

(** [setFlagsAdd].  In the case 32 the carry is read from the sum of the
    operands in [uint64]. *)
Definition setFlagsAdd (dest src result size : Z) : M unit :=
  smdmrm <-
    match size with
    | 8 =>
      let sm := nonzero (Z.land src 0x80) in
      let dm := nonzero (Z.land dest 0x80) in
      let rm := nonzero (Z.land result 0x80) in
      (if nonzero (Z.land result 0x100)
       then modify (fun cpu => set_sr (Z.lor (sr cpu) (Z.lor FlagC FlagX)) cpu)
       else modify (fun cpu => set_sr (Z.ldiff (sr cpu) (Z.lor FlagC FlagX)) cpu)) ;;
      ret (sm, dm, rm)
    | 16 =>
      let sm := nonzero (Z.land src 0x8000) in
      let dm := nonzero (Z.land dest 0x8000) in
      let rm := nonzero (Z.land result 0x8000) in
      (if nonzero (Z.land result 0x10000)
       then modify (fun cpu => set_sr (Z.lor (sr cpu) (Z.lor FlagC FlagX)) cpu)
       else modify (fun cpu => set_sr (Z.ldiff (sr cpu) (Z.lor FlagC FlagX)) cpu)) ;;
      ret (sm, dm, rm)
    | 32 =>
      let sm := nonzero (Z.land src 0x80000000) in
      let dm := nonzero (Z.land dest 0x80000000) in
      let rm := nonzero (Z.land result 0x80000000) in
      (if 0xFFFFFFFF <? (src + dest) mod 2 ^ 64
       then modify (fun cpu => set_sr (Z.lor (sr cpu) (Z.lor FlagC FlagX)) cpu)
       else modify (fun cpu => set_sr (Z.ldiff (sr cpu) (Z.lor FlagC FlagX)) cpu)) ;;
      ret (sm, dm, rm)
    | _ => ret (false, false, false)
    end ;;
  let '(sm, dm, rm) := smdmrm in
  (if (sm && dm && negb rm) || (negb sm && negb dm && rm)
   then modify (fun cpu => set_sr (Z.lor (sr cpu) FlagV) cpu)
   else modify (fun cpu => set_sr (Z.ldiff (sr cpu) FlagV) cpu)) ;;
  setFlagsLogical result size.

(** [setFlagsSub].  In the case 32 the borrow is [src > dest]. *)
Definition setFlagsSub (dest src result size : Z) : M unit :=
  smdmrm <-
    match size with
    | 8 =>
      let sm := nonzero (Z.land src 0x80) in
      let dm := nonzero (Z.land dest 0x80) in
      let rm := nonzero (Z.land result 0x80) in
      (if nonzero (Z.land result 0x100)
       then modify (fun cpu => set_sr (Z.lor (sr cpu) (Z.lor FlagC FlagX)) cpu)
       else modify (fun cpu => set_sr (Z.ldiff (sr cpu) (Z.lor FlagC FlagX)) cpu)) ;;
      ret (sm, dm, rm)
    | 16 =>
      let sm := nonzero (Z.land src 0x8000) in
      let dm := nonzero (Z.land dest 0x8000) in
      let rm := nonzero (Z.land result 0x8000) in
      (if nonzero (Z.land result 0x10000)
       then modify (fun cpu => set_sr (Z.lor (sr cpu) (Z.lor FlagC FlagX)) cpu)
       else modify (fun cpu => set_sr (Z.ldiff (sr cpu) (Z.lor FlagC FlagX)) cpu)) ;;
      ret (sm, dm, rm)
    | 32 =>
      let sm := nonzero (Z.land src 0x80000000) in
      let dm := nonzero (Z.land dest 0x80000000) in
      let rm := nonzero (Z.land result 0x80000000) in
      (if dest <? src
       then modify (fun cpu => set_sr (Z.lor (sr cpu) (Z.lor FlagC FlagX)) cpu)
       else modify (fun cpu => set_sr (Z.ldiff (sr cpu) (Z.lor FlagC FlagX)) cpu)) ;;
      ret (sm, dm, rm)
    | _ => ret (false, false, false)
    end ;;
  let '(sm, dm, rm) := smdmrm in
  (if (negb sm && dm && negb rm) || (sm && negb dm && rm)
   then modify (fun cpu => set_sr (Z.lor (sr cpu) FlagV) cpu)
   else modify (fun cpu => set_sr (Z.ldiff (sr cpu) FlagV) cpu)) ;;
  setFlagsLogical result size.

Definition testCondition (cond : Z) : M bool :=
  s <- gets sr ;;
  let c := nonzero (Z.land s FlagC) in
  let v := nonzero (Z.land s FlagV) in
  let z := nonzero (Z.land s FlagZ) in
  let n := nonzero (Z.land s FlagN) in
  ret match cond with
      | 0 => true
      | 1 => false
      | 2 => negb c && negb z
      | 3 => c || z
      | 4 => negb c
      | 5 => c
      | 6 => negb z
      | 7 => z
      | 8 => negb v
      | 9 => v
      | 10 => negb n
      | 11 => n
      | 12 => (n && v) || (negb n && negb v)
      | 13 => (n && negb v) || (negb n && v)
      | 14 => (n && v && negb z) || (negb n && negb v && negb z)
      | 15 => z || (n && negb v) || (negb n && v)
      | _ => false
      end.

Definition signExtend8 (value : Z) : Z :=
  if nonzero (Z.land value 0x80) then Z.lor value 0xFFFFFF00 else Z.land value 0xFF.

Definition signExtend16 (value : Z) : Z :=
  if nonzero (Z.land value 0x8000) then Z.lor value 0xFFFF0000 else Z.land value 0xFFFF.

Definition maskValue (value size : Z) : Z :=
  match size with
  | 8 => Z.land value 0xFF
  | 16 => Z.land value 0xFFFF
  | 32 => value
  | _ => value
  end.

(** ** musashi.go *)

Definition NewCPU (ty : Z) : CPU :=
  mkCPU ty (fill8 0) (fill8 0) 0 0 0 0 0 0 0 0 0 0 false false 0 0 0 (fill8 false)
    0 0 0 0 None.

Definition SetMemoryHandler (handler : option H) : M unit :=
  modify (set_memory handler).

Definition Reset : M unit :=
  modify (set_d (fill8 0)) ;;
  modify (set_a (fill8 0)) ;;
  modify (set_sr 0x2700) ;;
  modify (set_sfc 0) ;;
  modify (set_dfc 0) ;;
  modify (set_vbr 0) ;;
  modify (set_cacr 0) ;;
  modify (set_caar 0) ;;
  modify (set_stopped false) ;;
  modify (set_halted false) ;;
  modify (set_cyclesRun 0) ;;
  modify (set_cyclesRemain 0) ;;
  modify (set_irqLevel 0) ;;
  mem <- gets memory ;;
  match mem with
  | Some _ =>
    ssp <- memRead Read32 0 ;; setA 7 ssp ;;
    newpc <- memRead Read32 4 ;; modify (set_pc newpc)
  | None =>
    setA 7 0 ;; modify (set_pc 0)
  end ;;
  modify (set_usp 0) ;;
  modify (set_isp 0) ;;
  modify (set_msp 0) ;;
  modify (set_prefetchAddr 0) ;;
  modify (set_prefetchData 0) ;;
  p <- gets pc ;; modify (set_ppc p) ;;
  modify (set_ir 0).

Definition useCycles (cycles : Z) : M unit :=
  modify (fun cpu => set_cyclesRun (int (cyclesRun cpu + cycles)) cpu) ;;
  modify (fun cpu => set_cyclesRemain (int (cyclesRemain cpu - cycles)) cpu).

Definition pushWord (value : Z) : M unit :=
  sp <- getA 7 ;; setA 7 (uint32 (sp - 2)) ;;
  mem <- gets memory ;;
  match mem with
  | Some _ => sp' <- getA 7 ;; memWrite Write16 sp' value
  | None => ret tt
  end.

Definition pushLong (value : Z) : M unit :=
  sp <- getA 7 ;; setA 7 (uint32 (sp - 4)) ;;
  mem <- gets memory ;;
  match mem with
  | Some _ => sp' <- getA 7 ;; memWrite Write32 sp' value
  | None => ret tt
  end.

Definition popWord : M Z :=
  mem <- gets memory ;;
  match mem with
  | None => ret 0
  | Some _ =>
    sp <- getA 7 ;; value <- memRead Read16 sp ;;
    sp' <- getA 7 ;; setA 7 (uint32 (sp' + 2)) ;;
    ret value
  end.

Definition popLong : M Z :=
  mem <- gets memory ;;
  match mem with
  | None => ret 0
  | Some _ =>
    sp <- getA 7 ;; value <- memRead Read32 sp ;;
    sp' <- getA 7 ;; setA 7 (uint32 (sp' + 4)) ;;
    ret value
  end.

(** [executeInstruction], as it stands in musashi.go: fetch, charge four
    cycles, and a switch whose only effect is the reset callback. *)
Definition executeInstruction (cb : Callbacks) : M unit :=
  p <- gets pc ;; w <- memRead Read16 p ;; modify (set_ir w) ;;
  modify (fun cpu => set_pc (uint32 (pc cpu + 2)) cpu) ;;
  useCycles 4 ;;
  w' <- gets ir ;;
  match w' with
  | 0x4E71 => ret tt
  | 0x4E70 =>
    match resetCallback cb with
    | Some f => modify f
    | None => ret tt
    end
  | _ => ret tt
  end.

Definition handleInterrupt (cb : Callbacks) (level : Z) : M unit :=
  let vector :=
    match intAckCallback cb with
    | Some f => f level
    | None => IntAckAutovector
    end in
  let vector :=
    if vector =? IntAckAutovector then uint32 (0x18 + level)
    else if vector =? IntAckSpurious then 0x18
    else vector in
  oldSR <- gets sr ;;
  modify (fun cpu => set_sr (Z.lor (sr cpu) 0x2000) cpu) ;;
  modify (fun cpu =>
            set_sr (Z.lor (Z.land (sr cpu) 0xF8FF) (uint16 (Z.shiftl level 8))) cpu) ;;
  p <- gets pc ;; pushLong p ;;
  pushWord oldSR ;;
  ty <- gets cpuType ;;
  base <- gets vbr ;;
  let vectorAddr :=
    if CPU68010 <=? ty then uint32 (base + uint32 (vector * 4))
    else uint32 (vector * 4) in
  newpc <- memRead Read32 vectorAddr ;; modify (set_pc newpc) ;;
  useCycles 44.

Definition checkInterrupts (cb : Callbacks) : M unit :=
  lvl <- gets irqLevel ;;
  if lvl =? 0 then ret tt
  else
    s <- gets sr ;;
    let intMask := uint8 (Z.land (Z.shiftr s 8) 0x07) in
    if (lvl =? 7) || (intMask <? lvl) then handleInterrupt cb lvl else ret tt.

(** The three ways a call of [Execute] can end in the model. *)
Inductive outcome (A : Type) : Type :=
| Returned (x : A) (cpu : CPU)
| Panicked
| OutOfFuel.
Arguments Returned {A}.
Arguments Panicked {A}.
Arguments OutOfFuel {A}.

(** The loop condition and the loop body of [Execute]. *)
Definition running (cpu : CPU) : bool :=
  (0 <? cyclesRemain cpu) && negb (stopped cpu) && negb (halted cpu).

Definition loopBody (cb : Callbacks) : M unit :=
  checkInterrupts cb ;;
  match instrHookCallback cb with
  | Some f => modify (fun cpu => f (pc cpu) cpu)
  | None => ret tt
  end ;;
  modify (fun cpu => set_ppc (pc cpu) cpu) ;;
  executeInstruction cb.

Fixpoint executeLoop (fuel : nat) (cb : Callbacks) (cpu : CPU) : outcome unit :=
  if running cpu then
    match fuel with
    | O => OutOfFuel
    | S fuel' =>
      match loopBody cb cpu with
      | Some (_, cpu') => executeLoop fuel' cb cpu'
      | None => Panicked
      end
    end
  else Returned tt cpu.

Definition Execute (fuel : nat) (cb : Callbacks) (cycles : Z) (cpu : CPU) : outcome Z :=
  match memory cpu with
  | None => Returned 0 cpu
  | Some _ =>
    match executeLoop fuel cb (set_cyclesRun 0 (set_cyclesRemain cycles cpu)) with
    | Returned _ cpu' => Returned (cyclesRun cpu') cpu'
    | Panicked => Panicked
    | OutOfFuel => OutOfFuel
    end
  end.

Definition SetIRQ (level : Z) : M unit :=
  let level := if (level <? 0) || (7 <? level) then 0 else level in
  modify (set_irqLevel (uint8 level)).

(** Register identifiers ([Register], an [iota] enumeration). *)
Definition RegD0 : Z := 0.
Definition RegD7 : Z := 7.
Definition RegA0 : Z := 8.
Definition RegA7 : Z := 15.
Definition RegPC : Z := 16.
Definition RegSR : Z := 17.
Definition RegSP : Z := 18.
Definition RegUSP : Z := 19.
Definition RegISP : Z := 20.
Definition RegMSP : Z := 21.
Definition RegSFC : Z := 22.
Definition RegDFC : Z := 23.
Definition RegVBR : Z := 24.
Definition RegCACR : Z := 25.
Definition RegCAAR : Z := 26.
Definition RegPrefAddr : Z := 27.
Definition RegPrefData : Z := 28.
Definition RegPPC : Z := 29.
Definition RegIR : Z := 30.
Definition RegCPUType : Z := 31.

Definition GetRegister (reg : Z) : M Z :=
  match reg with
  | 0 | 1 | 2 | 3 | 4 | 5 | 6 | 7 => getD (reg - RegD0)
  | 8 | 9 | 10 | 11 | 12 | 13 | 14 | 15 => getA (reg - RegA0)
  | 16 => gets pc
  | 17 => gets sr
  | 18 =>
    s <- gets sr ;;
    if nonzero (Z.land s 0x2000) then getA 7 else gets usp
  | 19 => gets usp
  | 20 => gets isp
  | 21 => gets msp
  | 22 => gets sfc
  | 23 => gets dfc
  | 24 => gets vbr
  | 25 => gets cacr
  | 26 => gets caar
  | 27 => gets prefetchAddr
  | 28 => gets prefetchData
  | 29 => gets ppc
  | 30 => gets ir
  | 31 => ty <- gets cpuType ;; ret (uint32 ty)
  | _ => ret 0
  end.

Definition GetSP : M Z :=
  s <- gets sr ;;
  if nonzero (Z.land s 0x2000) then getA 7 else gets usp.

Definition SetSP (address : Z) : M unit :=
  s <- gets sr ;;
  if nonzero (Z.land s 0x2000) then setA 7 address else modify (set_usp address).

Definition GetSR : M Z := gets sr.

Definition SetSR (value : Z) : M unit := modify (set_sr value).

(** [Context], the saved registers. *)
Record Context : Type := mkContext {
  ctx_cpuType : Z;
  ctx_d : Array8 Z;
  ctx_a : Array8 Z;
  ctx_pc : Z;
  ctx_sr : Z;
  ctx_usp : Z;
  ctx_isp : Z;
  ctx_msp : Z;
  ctx_sfc : Z;
  ctx_dfc : Z;
  ctx_vbr : Z;
  ctx_cacr : Z;
  ctx_caar : Z
}.

(** [copy(dst[:], src[:])] on two arrays of eight elements. *)
Definition copy8 {A : Type} (dst src : Array8 A) : Array8 A :=
  mkArray8 (e0 src) (e1 src) (e2 src) (e3 src) (e4 src) (e5 src) (e6 src) (e7 src).

Definition GetContext : M Context :=
  cpu <- gets (fun cpu => cpu) ;;
  let ctx := mkContext (cpuType cpu) (fill8 0) (fill8 0) (pc cpu) (sr cpu) (usp cpu)
               (isp cpu) (msp cpu) (sfc cpu) (dfc cpu) (vbr cpu) (cacr cpu) (caar cpu) in
  let ctx := mkContext (ctx_cpuType ctx) (copy8 (ctx_d ctx) (d cpu)) (ctx_a ctx)
               (ctx_pc ctx) (ctx_sr ctx) (ctx_usp ctx) (ctx_isp ctx) (ctx_msp ctx)
               (ctx_sfc ctx) (ctx_dfc ctx) (ctx_vbr ctx) (ctx_cacr ctx) (ctx_caar ctx) in
  let ctx := mkContext (ctx_cpuType ctx) (ctx_d ctx) (copy8 (ctx_a ctx) (a cpu))
               (ctx_pc ctx) (ctx_sr ctx) (ctx_usp ctx) (ctx_isp ctx) (ctx_msp ctx)
               (ctx_sfc ctx) (ctx_dfc ctx) (ctx_vbr ctx) (ctx_cacr ctx) (ctx_caar ctx) in
  ret ctx.

Definition SetContext (ctx : Context) : M unit :=
  modify (set_cpuType (ctx_cpuType ctx)) ;;
  modify (set_pc (ctx_pc ctx)) ;;
  modify (set_sr (ctx_sr ctx)) ;;
  modify (set_usp (ctx_usp ctx)) ;;
  modify (set_isp (ctx_isp ctx)) ;;
  modify (set_msp (ctx_msp ctx)) ;;
  modify (set_sfc (ctx_sfc ctx)) ;;
  modify (set_dfc (ctx_dfc ctx)) ;;
  modify (set_vbr (ctx_vbr ctx)) ;;
  modify (set_cacr (ctx_cacr ctx)) ;;
  modify (set_caar (ctx_caar ctx)) ;;
  modify (fun cpu => set_d (copy8 (d cpu) (ctx_d ctx)) cpu) ;;
  modify (fun cpu => set_a (copy8 (a cpu) (ctx_a ctx)) cpu).

(** ** addressing.go *)

Definition readMem (address size : Z) : M Z :=
  mem <- gets memory ;;
  match mem with
  | None => ret 0
  | Some _ =>
    match size with
    | 8 => memRead Read8 address
    | 16 => memRead Read16 address
    | 32 => memRead Read32 address
    | _ => ret 0
    end
  end.

Definition writeMem (address value size : Z) : M unit :=
  mem <- gets memory ;;
  match mem with
  | None => ret tt
  | Some _ =>
    match size with
    | 8 => memWrite Write8 address (uint8 value)
    | 16 => memWrite Write16 address (uint16 value)
    | 32 => memWrite Write32 address value
    | _ => ret tt
    end
  end.

Definition readImmediate16 : M Z :=
  mem <- gets memory ;;
  match mem with
  | None => ret 0
  | Some _ =>
    p <- gets pc ;; value <- memRead Read16 p ;;
    modify (fun cpu => set_pc (uint32 (pc cpu + 2)) cpu) ;;
    ret value
  end.

Definition readImmediate32 : M Z :=
  mem <- gets memory ;;
  match mem with
  | None => ret 0
  | Some _ =>
    p <- gets pc ;; value <- memRead Read32 p ;;
    modify (fun cpu => set_pc (uint32 (pc cpu + 4)) cpu) ;;
    ret value
  end.

(** The step of the modes (An)+ and -(An): [uint32(size / 8)], and 2 for
    a byte access through A7. *)
Definition eaStep (reg size : Z) : Z :=
  if (size =? 8) && (reg =? 7) then 2 else uint32 (Z.quot size 8).

(** The index register of the modes 6 and 7/3, from the extension word. *)
Definition eaIndex (ext : Z) : M Z :=
  let xn := Z.land (Z.shiftr ext 12) 0x0F in
  index0 <- (if nonzero (Z.land ext 0x8000)
             then getA (Z.land xn 7)
             else getD (Z.land xn 7)) ;;
  ret (if Z.land ext 0x800 =? 0 then signExtend16 index0 else index0).

Definition readEA (mode reg size : Z) : M Z :=
  match mode with
  | 0 => v <- getD reg ;; ret (maskValue v size)
  | 1 => getA reg
  | 2 => addr <- getA reg ;; readMem addr size
  | 3 =>
    addr <- getA reg ;;
    val <- readMem addr size ;;
    let inc := eaStep reg size in
    cur <- getA reg ;; setA reg (uint32 (cur + inc)) ;;
    ret val
  | 4 =>
    let dec := eaStep reg size in
    cur <- getA reg ;; setA reg (uint32 (cur - dec)) ;;
    addr <- getA reg ;; readMem addr size
  | 5 =>
    w <- readImmediate16 ;;
    let disp := signExtend16 w in
    base <- getA reg ;;
    readMem (uint32 (base + disp)) size
  | 6 =>
    ext <- readImmediate16 ;;
    let disp := signExtend8 (Z.land ext 0xFF) in
    idx <- eaIndex ext ;;
    base <- getA reg ;;
    readMem (uint32 (base + disp + idx)) size
  | 7 =>
    match reg with
    | 0 => w <- readImmediate16 ;; readMem (signExtend16 w) size
    | 1 => addr <- readImmediate32 ;; readMem addr size
    | 2 =>
      oldPC <- gets pc ;;
      w <- readImmediate16 ;;
      readMem (uint32 (oldPC + signExtend16 w)) size
    | 3 =>
      oldPC <- gets pc ;;
      ext <- readImmediate16 ;;
      let disp := signExtend8 (Z.land ext 0xFF) in
      idx <- eaIndex ext ;;
      readMem (uint32 (oldPC + disp + idx)) size
    | 4 =>
      match size with
      | 8 => w <- readImmediate16 ;; ret (Z.land w 0xFF)
      | 16 => readImmediate16
      | 32 => readImmediate32
      | _ => ret 0
      end
    | _ => ret 0
    end
  | _ => ret 0
  end.

Definition writeEA (mode reg size value : Z) : M unit :=
  let value := maskValue value size in
  match mode with
  | 0 =>
    match size with
    | 8 =>
      old <- getD reg ;;
      setD reg (Z.lor (Z.land old 0xFFFFFF00) (Z.land value 0xFF))
    | 16 =>
      old <- getD reg ;;
      setD reg (Z.lor (Z.land old 0xFFFF0000) (Z.land value 0xFFFF))
    | 32 => setD reg value
    | _ => ret tt
    end
  | 1 => setA reg value
  | 2 => addr <- getA reg ;; writeMem addr value size
  | 3 =>
    addr <- getA reg ;;
    writeMem addr value size ;;
    let inc := eaStep reg size in
    cur <- getA reg ;; setA reg (uint32 (cur + inc))
  | 4 =>
    let dec := eaStep reg size in
    cur <- getA reg ;; setA reg (uint32 (cur - dec)) ;;
    addr <- getA reg ;; writeMem addr value size
  | 5 =>
    w <- readImmediate16 ;;
    let disp := signExtend16 w in
    base <- getA reg ;;
    writeMem (uint32 (base + disp)) value size
  | 6 =>
    ext <- readImmediate16 ;;
    let disp := signExtend8 (Z.land ext 0xFF) in
    idx <- eaIndex ext ;;
    base <- getA reg ;;
    writeMem (uint32 (base + disp + idx)) value size
  | 7 =>
    match reg with
    | 0 => w <- readImmediate16 ;; writeMem (signExtend16 w) value size
    | 1 => addr <- readImmediate32 ;; writeMem addr value size
    | _ => ret tt
    end
  | _ => ret tt
  end.

(** ** opcodes.go: the MOVEQ path *)

Definition opIllegal (opcode : Z) : M unit := useCycles 4.

Definition opMOVEQ (opcode : Z) : M unit :=
  let reg := Z.land (Z.shiftr opcode 9) 7 in
  let data := signExtend8 (Z.land opcode 0xFF) in
  setD reg data ;;
  setFlagsLogical data 32 ;;
  useCycles 4.

Definition decodeMOVEQ (opcode : Z) : M unit :=
  if Z.land opcode 0x0100 =? 0 then opMOVEQ opcode else opIllegal opcode.

End Core.

Arguments Returned {H A}.
Arguments Panicked {H A}.
Arguments OutOfFuel {H A}.

(** ** Scenarios on SimpleMemory *)

(** The set-up of the instruction tests: a 68000 with a fresh
    SimpleMemory holding the reset vectors SSP = 0x1000, PC = 0x400 and
    one opcode word at 0x400. *)
Definition programMemory (opcode : Z) : option SimpleMemory.t :=
  match SimpleMemory.Write32 SimpleMemory.empty 0 0x00001000 with
  | Some m1 =>
    match SimpleMemory.Write32 m1 4 0x00000400 with
    | Some m2 => SimpleMemory.Write16 m2 0x400 opcode
    | None => None
    end
  | None => None
  end.

Definition programCPU (opcode : Z) : CPU :=
  set_memory (programMemory opcode) (NewCPU CPU68000).

(** A CPU without memory handler, as [NewCPU] leaves it. *)
Definition bareCPU : @CPU SimpleMemory.t := NewCPU CPU68000.

(** The value of an option known to be [Some]. *)
Definition force {A : Type} (o : option A) (default : A) : A :=
  match o with
  | Some x => x
  | None => default
  end.

(** A 68000 about to take a level 1 interrupt, as in the IRQ test: the
    level 1 autovector (address 0x64) holds 0x500; SR has the trace bit
    set, S = 0 and mask 0; SSP = 0x1000, PC = 0x400. *)
Definition irqMemory : SimpleMemory.t :=
  force (SimpleMemory.Write32 (force (programMemory 0x4E71) SimpleMemory.empty)
           0x64 0x00000500)
        SimpleMemory.empty.

Definition irqCPU : @CPU SimpleMemory.t :=
  set_irqLevel 1
    (set_sr 0x8000
       (set_pc 0x400
          (set_a (mkArray8 0 0 0 0 0 0 0 0x1000)
             (set_memory (Some irqMemory) (NewCPU CPU68000))))).

(** The memory after the push of PC, and after the push of SR. *)
Definition irqMemory1 : SimpleMemory.t :=
  force (SimpleMemory.Write32 irqMemory 0xFFC 0x400) irqMemory.

Definition irqMemory2 : SimpleMemory.t :=
  force (SimpleMemory.Write16 irqMemory1 0xFFA 0x8000) irqMemory1.

(** The CPU of the instruction tests after [Reset]. *)
Definition resetCPU (opcode : Z) : @CPU SimpleMemory.t :=
  match Reset (programCPU opcode) with
  | Some (_, cpu) => cpu
  | None => programCPU opcode
  end.

(** A 68000 on a zero-filled SimpleMemory, never reset: it fetches the
    word 0 from every address.  [spin k] is that CPU at the loop
    condition of [Execute(maxInt)] after [k] passes. *)
Definition idleCPU : @CPU SimpleMemory.t :=
  set_memory (Some SimpleMemory.empty) (NewCPU CPU68000).

Definition spin {IS : IntSize} (k : Z) : @CPU SimpleMemory.t :=
  mkCPU CPU68000 (fill8 0) (fill8 0) (uint32 (2 * k)) 0 0 0 0 0 0 0 0 0 false false
    (4 * k) (maxInt - 4 * k) 0 (fill8 false) 0 0
    (if k =? 0 then 0 else uint32 (2 * (k - 1))) 0 (Some SimpleMemory.empty).

(** A CPU in user mode (S = 0) with distinct values in [a[7]] and [usp]. *)
Definition userCPU : @CPU SimpleMemory.t :=
  set_usp 0x1000 (set_a (mkArray8 0 0 0 0 0 0 0 0x2000) (NewCPU CPU68000)).

(** ** Predicates used by the statements *)

(** [keeps f m]: the method [m], when it returns, leaves the observation
    [f] of the CPU as it found it. *)
Definition keeps {H A T : Type} (f : @CPU H -> T) (m : M A) : Prop :=
  forall cpu x cpu', m cpu = Some (x, cpu') -> f cpu' = f cpu.

(** [charges n m]: the method [m], when it returns, has moved [n] cycles
    from [cyclesRemain] to [cyclesRun], in the arithmetic of [int]. *)
Definition charges {H A : Type} {IS : IntSize} (n : Z) (m : @M H A) : Prop :=
  forall cpu x cpu', m cpu = Some (x, cpu') ->
    cyclesRun cpu' = int (cyclesRun cpu + n) /\
    cyclesRemain cpu' = int (cyclesRemain cpu - n).

(** The two cycle counters. *)
Definition counters {H : Type} (cpu : @CPU H) : Z * Z :=
  (cyclesRun cpu, cyclesRemain cpu).

(** The states in which [Execute(cycles)], called on [cpu0], evaluates the
    condition of its loop: the state after the two assignments to the
    counters, and the state after each pass through the loop body. *)
Inductive loopHead {H : Type} {MH : MemoryHandler H} {IS : IntSize} (cb : Callbacks)
    (cycles : Z)
    (cpu0 : @CPU H) : @CPU H -> Prop :=
| head_first :
    loopHead cb cycles cpu0 (set_cyclesRun 0 (set_cyclesRemain cycles cpu0))
| head_next (s s' : CPU) :
    loopHead cb cycles cpu0 s ->
    running s = true ->
    loopBody cb s = Some (tt, s') ->
    loopHead cb cycles cpu0 s'.

(** What [Execute(cycles)] maintains at the loop condition. *)
Definition accounted {H : Type} {IS : IntSize} (cycles : Z) (s : @CPU H) : Prop :=
  cyclesRun s + cyclesRemain s = cycles /\ 0 <= cyclesRun s /\ minInt <= cyclesRemain s.

(** The status register that [setFlagsLogical] leaves, bit by bit. *)
Definition logical_post (s s' result size : Z) : Prop :=
  Z.testbit s' 0 = false /\
  Z.testbit s' 1 = false /\
  Z.testbit s' 2 = (result mod 2 ^ size =? 0) /\
  Z.testbit s' 3 = Z.testbit result (size - 1) /\
  forall i, 4 <= i -> Z.testbit s' i = Z.testbit s i.

(** ** musashi.go: the rest of the control surface *)

Section Surface.

Context {H : Type} {MH : MemoryHandler H} {IS : IntSize}.

Local Notation "x <- m ;; k" := (bind m (fun x => k))
  (at level 61, m at next level, right associativity).
Local Notation "m ;; k" := (bind m (fun _ => k))
  (at level 61, right associativity).

(** [cpu.virq[i]] and its assignment. *)
Definition getVirq (i : Z) : @M H bool := r <- gets virq ;; lift (index r i).
Definition setVirq (i : Z) (v : bool) : @M H unit :=
  r <- gets virq ;; r' <- lift (store r i v) ;; modify (set_virq r').

(** The loop [for i := 7; i >= 1; i--] of [SetVIRQ], entered with the
    value [i] of its counter: it stops at the first active line. *)
Fixpoint scanVIRQ (i : nat) : @M H unit :=
  match i with
  | O => ret tt
  | S j =>
    v <- getVirq (Z.of_nat (S j)) ;;
    if v then modify (set_irqLevel (uint8 (Z.of_nat (S j)))) else scanVIRQ j
  end.

Definition SetVIRQ (level : Z) (active : bool) : @M H unit :=
  if (level <? 1) || (7 <? level) then ret tt
  else
    setVirq level active ;;
    modify (set_irqLevel 0) ;;
    scanVIRQ 7.

Definition GetVIRQ (level : Z) : @M H bool :=
  if (level <? 1) || (7 <? level) then ret false else getVirq level.

Definition PulseHalt : @M H unit := modify (set_halted true).

Definition ModifyTimeslice (cycles : Z) : @M H unit :=
  modify (fun cpu => set_cyclesRemain (int (cyclesRemain cpu + cycles)) cpu).

Definition EndTimeslice : @M H unit := modify (set_cyclesRemain 0).

Definition SetRegister (reg value : Z) : @M H unit :=
  match reg with
  | 0 | 1 | 2 | 3 | 4 | 5 | 6 | 7 => setD (reg - RegD0) value
  | 8 | 9 | 10 | 11 | 12 | 13 | 14 | 15 => setA (reg - RegA0) value
  | 16 => modify (set_pc value)
  | 17 => modify (set_sr (uint16 value))
  | 19 => modify (set_usp value)
  | 20 => modify (set_isp value)
  | 21 => modify (set_msp value)
  | 22 => modify (set_sfc (uint8 value))
  | 23 => modify (set_dfc (uint8 value))
  | 24 => modify (set_vbr value)
  | 25 => modify (set_cacr value)
  | 26 => modify (set_caar value)
  | _ => ret tt
  end.

End Surface.

(** ** instructions.go and opcodes.go *)

Section Instructions.

Context {H : Type} {MH : MemoryHandler H} {IS : IntSize}.

Local Notation "x <- m ;; k" := (bind m (fun x => k))
  (at level 61, m at next level, right associativity).
Local Notation "m ;; k" := (bind m (fun _ => k))
  (at level 61, right associativity).

(** Go's conversions [int8(x)], [int16(x)], [int32(x)]: the two's
    complement value of the low 8, 16, 32 bits. *)
Definition sint8 (x : Z) : Z := (x + 2 ^ 7) mod 2 ^ 8 - 2 ^ 7.
Definition sint16 (x : Z) : Z := (x + 2 ^ 15) mod 2 ^ 16 - 2 ^ 15.
Definition sint32 (x : Z) : Z := (x + 2 ^ 31) mod 2 ^ 32 - 2 ^ 31.

Definition getEAMode (opcode : Z) : Z := Z.land (Z.shiftr opcode 3) 0x07.

Definition getEAReg (opcode : Z) : Z := Z.land opcode 0x07.

(** [getSize]: a negative shift count is a run-time panic in Go. *)
Definition getSize (opcode shift : Z) : option Z :=
  if shift <? 0 then None
  else Some match Z.land (Z.shiftr opcode shift) 0x03 with
            | 0 => 8
            | 1 => 16
            | 2 => 32
            | _ => 8
            end.

Definition getSizeBits (opcode shift : Z) : option Z :=
  if shift <? 0 then None else Some (Z.land (Z.shiftr opcode shift) 0x03).

Definition opNOP : @M H unit := useCycles 4.

Definition opMOVE (opcode : Z) : @M H unit :=
  size <- lift (getSize opcode 12) ;;
  let size :=
    if size =? 32 then 32
    else if Z.land (Z.shiftr opcode 12) 3 =? 1 then 8
    else if Z.land (Z.shiftr opcode 12) 3 =? 3 then 16
    else 32 in
  let srcMode := Z.land (Z.shiftr opcode 3) 7 in
  let srcReg := Z.land opcode 7 in
  let destMode := Z.land (Z.shiftr opcode 6) 7 in
  let destReg := Z.land (Z.shiftr opcode 9) 7 in
  value <- readEA srcMode srcReg size ;;
  writeEA destMode destReg size value ;;
  setFlagsLogical value size ;;
  useCycles 4.

Definition opMOVEA (opcode : Z) : @M H unit :=
  let size := if Z.land (Z.shiftr opcode 12) 3 =? 3 then 16 else 32 in
  let srcMode := Z.land (Z.shiftr opcode 3) 7 in
  let srcReg := Z.land opcode 7 in
  let destReg := Z.land (Z.shiftr opcode 9) 7 in
  value <- readEA srcMode srcReg size ;;
  let value := if size =? 16 then signExtend16 value else value in
  setA destReg value ;;
  useCycles 4.

Definition opADD (opcode : Z) : @M H unit :=
  let dataReg := Z.land (Z.shiftr opcode 9) 7 in
  let direction := Z.land (Z.shiftr opcode 8) 1 in
  size <- lift (getSize opcode 6) ;;
  let eaMode := Z.land (Z.shiftr opcode 3) 7 in
  let eaReg := Z.land opcode 7 in
  (if direction =? 0 then
     src <- readEA eaMode eaReg size ;;
     dn <- getD dataReg ;;
     let dest := maskValue dn size in
     let result := uint32 (dest + src) in
     setFlagsAdd dest src result size ;;
     writeEA 0 dataReg size result
   else
     dn <- getD dataReg ;;
     let src := maskValue dn size in
     dest <- readEA eaMode eaReg size ;;
     let result := uint32 (dest + src) in
     setFlagsAdd dest src result size ;;
     writeEA eaMode eaReg size result) ;;
  useCycles 4.

Definition opADDA (opcode : Z) : @M H unit :=
  let addrReg := Z.land (Z.shiftr opcode 9) 7 in
  let size := if nonzero (Z.land opcode 0x0100) then 32 else 16 in
  let eaMode := Z.land (Z.shiftr opcode 3) 7 in
  let eaReg := Z.land opcode 7 in
  src <- readEA eaMode eaReg size ;;
  let src := if size =? 16 then signExtend16 src else src in
  cur <- getA addrReg ;; setA addrReg (uint32 (cur + src)) ;;
  useCycles 8.

Definition opADDI (opcode : Z) : @M H unit :=
  size <- lift (getSize opcode 6) ;;
  let eaMode := Z.land (Z.shiftr opcode 3) 7 in
  let eaReg := Z.land opcode 7 in
  src <- readEA 7 4 size ;;
  dest <- readEA eaMode eaReg size ;;
  let result := uint32 (dest + src) in
  setFlagsAdd dest src result size ;;
  writeEA eaMode eaReg size result ;;
  useCycles 8.

Definition opADDQ (opcode : Z) : @M H unit :=
  let data := Z.land (Z.shiftr opcode 9) 7 in
  let data := if data =? 0 then 8 else data in
  size <- lift (getSize opcode 6) ;;
  let eaMode := Z.land (Z.shiftr opcode 3) 7 in
  let eaReg := Z.land opcode 7 in
  (if eaMode =? 1 then
     cur <- getA eaReg ;; setA eaReg (uint32 (cur + data))
   else
     dest <- readEA eaMode eaReg size ;;
     let result := uint32 (dest + data) in
     setFlagsAdd dest data result size ;;
     writeEA eaMode eaReg size result) ;;
  useCycles 4.

Definition opSUB (opcode : Z) : @M H unit :=
  let dataReg := Z.land (Z.shiftr opcode 9) 7 in
  let direction := Z.land (Z.shiftr opcode 8) 1 in
  size <- lift (getSize opcode 6) ;;
  let eaMode := Z.land (Z.shiftr opcode 3) 7 in
  let eaReg := Z.land opcode 7 in
  (if direction =? 0 then
     dn <- getD dataReg ;;
     let dest := maskValue dn size in
     src <- readEA eaMode eaReg size ;;
     let result := uint32 (dest - src) in
     setFlagsSub dest src result size ;;
     writeEA 0 dataReg size result
   else
     dest <- readEA eaMode eaReg size ;;
     dn <- getD dataReg ;;
     let src := maskValue dn size in
     let result := uint32 (dest - src) in
     setFlagsSub dest src result size ;;
     writeEA eaMode eaReg size result) ;;
  useCycles 4.

Definition opSUBA (opcode : Z) : @M H unit :=
  let addrReg := Z.land (Z.shiftr opcode 9) 7 in
  let size := if nonzero (Z.land opcode 0x0100) then 32 else 16 in
  let eaMode := Z.land (Z.shiftr opcode 3) 7 in
  let eaReg := Z.land opcode 7 in
  src <- readEA eaMode eaReg size ;;
  let src := if size =? 16 then signExtend16 src else src in
  cur <- getA addrReg ;; setA addrReg (uint32 (cur - src)) ;;
  useCycles 8.

Definition opSUBI (opcode : Z) : @M H unit :=
  size <- lift (getSize opcode 6) ;;
  let eaMode := Z.land (Z.shiftr opcode 3) 7 in
  let eaReg := Z.land opcode 7 in
  src <- readEA 7 4 size ;;
  dest <- readEA eaMode eaReg size ;;
  let result := uint32 (dest - src) in
  setFlagsSub dest src result size ;;
  writeEA eaMode eaReg size result ;;
  useCycles 8.

Definition opSUBQ (opcode : Z) : @M H unit :=
  let data := Z.land (Z.shiftr opcode 9) 7 in
  let data := if data =? 0 then 8 else data in
  size <- lift (getSize opcode 6) ;;
  let eaMode := Z.land (Z.shiftr opcode 3) 7 in
  let eaReg := Z.land opcode 7 in
  (if eaMode =? 1 then
     cur <- getA eaReg ;; setA eaReg (uint32 (cur - data))
   else
     dest <- readEA eaMode eaReg size ;;
     let result := uint32 (dest - data) in
     setFlagsSub dest data result size ;;
     writeEA eaMode eaReg size result) ;;
  useCycles 4.

Definition opAND (opcode : Z) : @M H unit :=
  let dataReg := Z.land (Z.shiftr opcode 9) 7 in
  let direction := Z.land (Z.shiftr opcode 8) 1 in
  size <- lift (getSize opcode 6) ;;
  let eaMode := Z.land (Z.shiftr opcode 3) 7 in
  let eaReg := Z.land opcode 7 in
  (if direction =? 0 then
     src <- readEA eaMode eaReg size ;;
     dn <- getD dataReg ;;
     let dest := maskValue dn size in
     let result := Z.land dest src in
     setFlagsLogical result size ;;
     writeEA 0 dataReg size result
   else
     dn <- getD dataReg ;;
     let src := maskValue dn size in
     dest <- readEA eaMode eaReg size ;;
     let result := Z.land dest src in
     setFlagsLogical result size ;;
     writeEA eaMode eaReg size result) ;;
  useCycles 4.

Definition opANDI (opcode : Z) : @M H unit :=
  size <- lift (getSize opcode 6) ;;
  let eaMode := Z.land (Z.shiftr opcode 3) 7 in
  let eaReg := Z.land opcode 7 in
  src <- readEA 7 4 size ;;
  dest <- readEA eaMode eaReg size ;;
  let result := Z.land dest src in
  setFlagsLogical result size ;;
  writeEA eaMode eaReg size result ;;
  useCycles 8.

Definition opOR (opcode : Z) : @M H unit :=
  let dataReg := Z.land (Z.shiftr opcode 9) 7 in
  let direction := Z.land (Z.shiftr opcode 8) 1 in
  size <- lift (getSize opcode 6) ;;
  let eaMode := Z.land (Z.shiftr opcode 3) 7 in
  let eaReg := Z.land opcode 7 in
  (if direction =? 0 then
     src <- readEA eaMode eaReg size ;;
     dn <- getD dataReg ;;
     let dest := maskValue dn size in
     let result := Z.lor dest src in
     setFlagsLogical result size ;;
     writeEA 0 dataReg size result
   else
     dn <- getD dataReg ;;
     let src := maskValue dn size in
     dest <- readEA eaMode eaReg size ;;
     let result := Z.lor dest src in
     setFlagsLogical result size ;;
     writeEA eaMode eaReg size result) ;;
  useCycles 4.

Definition opORI (opcode : Z) : @M H unit :=
  size <- lift (getSize opcode 6) ;;
  let eaMode := Z.land (Z.shiftr opcode 3) 7 in
  let eaReg := Z.land opcode 7 in
  src <- readEA 7 4 size ;;
  dest <- readEA eaMode eaReg size ;;
  let result := Z.lor dest src in
  setFlagsLogical result size ;;
  writeEA eaMode eaReg size result ;;
  useCycles 8.

Definition opEOR (opcode : Z) : @M H unit :=
  let dataReg := Z.land (Z.shiftr opcode 9) 7 in
  size <- lift (getSize opcode 6) ;;
  let eaMode := Z.land (Z.shiftr opcode 3) 7 in
  let eaReg := Z.land opcode 7 in
  dn <- getD dataReg ;;
  let src := maskValue dn size in
  dest <- readEA eaMode eaReg size ;;
  let result := Z.lxor dest src in
  setFlagsLogical result size ;;
  writeEA eaMode eaReg size result ;;
  useCycles 4.

Definition opEORI (opcode : Z) : @M H unit :=
  size <- lift (getSize opcode 6) ;;
  let eaMode := Z.land (Z.shiftr opcode 3) 7 in
  let eaReg := Z.land opcode 7 in
  src <- readEA 7 4 size ;;
  dest <- readEA eaMode eaReg size ;;
  let result := Z.lxor dest src in
  setFlagsLogical result size ;;
  writeEA eaMode eaReg size result ;;
  useCycles 8.

(** [^dest] on a [uint32]. *)
Definition opNOT (opcode : Z) : @M H unit :=
  size <- lift (getSize opcode 6) ;;
  let eaMode := Z.land (Z.shiftr opcode 3) 7 in
  let eaReg := Z.land opcode 7 in
  dest <- readEA eaMode eaReg size ;;
  let result := uint32 (Z.lnot dest) in
  setFlagsLogical result size ;;
  writeEA eaMode eaReg size result ;;
  useCycles 4.

Definition opCLR (opcode : Z) : @M H unit :=
  size <- lift (getSize opcode 6) ;;
  let eaMode := Z.land (Z.shiftr opcode 3) 7 in
  let eaReg := Z.land opcode 7 in
  writeEA eaMode eaReg size 0 ;;
  modify (fun cpu => set_sr (Z.ldiff (sr cpu) (Z.lor (Z.lor FlagN FlagV) FlagC)) cpu) ;;
  modify (fun cpu => set_sr (Z.lor (sr cpu) FlagZ) cpu) ;;
  useCycles 4.

Definition opNEG (opcode : Z) : @M H unit :=
  size <- lift (getSize opcode 6) ;;
  let eaMode := Z.land (Z.shiftr opcode 3) 7 in
  let eaReg := Z.land opcode 7 in
  dest <- readEA eaMode eaReg size ;;
  let result := uint32 (0 - dest) in
  setFlagsSub 0 dest result size ;;
  writeEA eaMode eaReg size result ;;
  useCycles 4.

Definition opCMP (opcode : Z) : @M H unit :=
  let dataReg := Z.land (Z.shiftr opcode 9) 7 in
  size <- lift (getSize opcode 6) ;;
  let eaMode := Z.land (Z.shiftr opcode 3) 7 in
  let eaReg := Z.land opcode 7 in
  dn <- getD dataReg ;;
  let dest := maskValue dn size in
  src <- readEA eaMode eaReg size ;;
  let result := uint32 (dest - src) in
  setFlagsSub dest src result size ;;
  useCycles 4.

Definition opCMPA (opcode : Z) : @M H unit :=
  let addrReg := Z.land (Z.shiftr opcode 9) 7 in
  let size := if nonzero (Z.land opcode 0x0100) then 32 else 16 in
  let eaMode := Z.land (Z.shiftr opcode 3) 7 in
  let eaReg := Z.land opcode 7 in
  dest <- getA addrReg ;;
  src <- readEA eaMode eaReg size ;;
  let src := if size =? 16 then signExtend16 src else src in
  let result := uint32 (dest - src) in
  setFlagsSub dest src result 32 ;;
  useCycles 6.

Definition opCMPI (opcode : Z) : @M H unit :=
  size <- lift (getSize opcode 6) ;;
  let eaMode := Z.land (Z.shiftr opcode 3) 7 in
  let eaReg := Z.land opcode 7 in
  src <- readEA 7 4 size ;;
  dest <- readEA eaMode eaReg size ;;
  let result := uint32 (dest - src) in
  setFlagsSub dest src result size ;;
  useCycles 8.

Definition opTST (opcode : Z) : @M H unit :=
  size <- lift (getSize opcode 6) ;;
  let eaMode := Z.land (Z.shiftr opcode 3) 7 in
  let eaReg := Z.land opcode 7 in
  value <- readEA eaMode eaReg size ;;
  setFlagsLogical value size ;;
  useCycles 4.

(** The address computed by the [switch eaMode] that [opJMP], [opJSR],
    [opLEA] and [opPEA] each spell out, with the same text: the control
    modes, and 0 (the zero value of [addr]) for every other mode. *)
Definition controlAddress (eaMode eaReg : Z) : @M H Z :=
  match eaMode with
  | 2 => getA eaReg
  | 5 =>
    w <- readImmediate16 ;;
    let disp := signExtend16 w in
    base <- getA eaReg ;;
    ret (uint32 (base + disp))
  | 6 =>
    ext <- readImmediate16 ;;
    let disp := signExtend8 (Z.land ext 0xFF) in
    idx <- eaIndex ext ;;
    base <- getA eaReg ;;
    ret (uint32 (base + disp + idx))
  | 7 =>
    match eaReg with
    | 0 => w <- readImmediate16 ;; ret (signExtend16 w)
    | 1 => readImmediate32
    | 2 =>
      oldPC <- gets pc ;;
      w <- readImmediate16 ;;
      ret (uint32 (oldPC + signExtend16 w))
    | 3 =>
      oldPC <- gets pc ;;
      ext <- readImmediate16 ;;
      let disp := signExtend8 (Z.land ext 0xFF) in
      idx <- eaIndex ext ;;
      ret (uint32 (oldPC + disp + idx))
    | _ => ret 0
    end
  | _ => ret 0
  end.

Definition opJMP (opcode : Z) : @M H unit :=
  let eaMode := Z.land (Z.shiftr opcode 3) 7 in
  let eaReg := Z.land opcode 7 in
  addr <- controlAddress eaMode eaReg ;;
  modify (set_pc addr) ;;
  useCycles 8.

Definition opJSR (opcode : Z) : @M H unit :=
  let eaMode := Z.land (Z.shiftr opcode 3) 7 in
  let eaReg := Z.land opcode 7 in
  addr <- controlAddress eaMode eaReg ;;
  p <- gets pc ;; pushLong p ;;
  modify (set_pc addr) ;;
  useCycles 16.

Definition opRTS : @M H unit :=
  v <- popLong ;; modify (set_pc v) ;;
  useCycles 16.

(** [uint32(int32(cpu.pc) + disp)]: the sum is taken in [int32]. *)
Definition opBRA (opcode : Z) : @M H unit :=
  let disp := sint32 (sint8 (Z.land opcode 0xFF)) in
  disp <- (if disp =? 0
           then w <- readImmediate16 ;; ret (sint32 (sint16 w))
           else ret disp) ;;
  p <- gets pc ;;
  modify (set_pc (uint32 (sint32 (sint32 p + disp)))) ;;
  useCycles 10.

Definition opBcc (opcode : Z) : @M H unit :=
  let cond := Z.land (Z.shiftr opcode 8) 0x0F in
  let disp := sint32 (sint8 (Z.land opcode 0xFF)) in
  disp <- (if disp =? 0
           then w <- readImmediate16 ;; ret (sint32 (sint16 w))
           else ret disp) ;;
  t <- testCondition cond ;;
  if t then
    p <- gets pc ;;
    modify (set_pc (uint32 (sint32 (sint32 p + disp)))) ;;
    useCycles 10
  else useCycles 8.

Definition opDBcc (opcode : Z) : @M H unit :=
  let cond := Z.land (Z.shiftr opcode 8) 0x0F in
  let reg := Z.land opcode 7 in
  w <- readImmediate16 ;;
  let disp := sint32 (sint16 w) in
  t <- testCondition cond ;;
  if negb t then
    cur <- getD reg ;;
    setD reg (Z.lor (Z.land cur 0xFFFF0000) (Z.land (uint32 (cur - 1)) 0xFFFF)) ;;
    now <- getD reg ;;
    if negb (Z.land now 0xFFFF =? 0xFFFF) then
      p <- gets pc ;;
      modify (set_pc (uint32 (sint32 (sint32 (sint32 p + disp) - 2)))) ;;
      useCycles 10
    else useCycles 12
  else useCycles 12.

Definition opScc (opcode : Z) : @M H unit :=
  let cond := Z.land (Z.shiftr opcode 8) 0x0F in
  let eaMode := Z.land (Z.shiftr opcode 3) 7 in
  let eaReg := Z.land opcode 7 in
  t <- testCondition cond ;;
  let value := if t then 0xFF else 0x00 in
  writeEA eaMode eaReg 8 value ;;
  useCycles 4.

Definition opLEA (opcode : Z) : @M H unit :=
  let addrReg := Z.land (Z.shiftr opcode 9) 7 in
  let eaMode := Z.land (Z.shiftr opcode 3) 7 in
  let eaReg := Z.land opcode 7 in
  addr <- controlAddress eaMode eaReg ;;
  setA addrReg addr ;;
  useCycles 4.

Definition opPEA (opcode : Z) : @M H unit :=
  let eaMode := Z.land (Z.shiftr opcode 3) 7 in
  let eaReg := Z.land opcode 7 in
  addr <- controlAddress eaMode eaReg ;;
  pushLong addr ;;
  useCycles 12.

(** A tuple assignment evaluates its right-hand sides first, then
    assigns from left to right. *)
Definition opEXG (opcode : Z) : @M H unit :=
  let rx := Z.land (Z.shiftr opcode 9) 7 in
  let ry := Z.land opcode 7 in
  let mode := Z.land (Z.shiftr opcode 3) 0x1F in
  match mode with
  | 0x08 => vy <- getD ry ;; vx <- getD rx ;; setD rx vy ;; setD ry vx
  | 0x09 => vy <- getA ry ;; vx <- getA rx ;; setA rx vy ;; setA ry vx
  | 0x11 => vy <- getA ry ;; vx <- getD rx ;; setD rx vy ;; setA ry vx
  | _ => ret tt
  end ;;
  useCycles 6.

Definition opSWAP (opcode : Z) : @M H unit :=
  let reg := Z.land opcode 7 in
  value <- getD reg ;;
  setD reg (Z.lor (uint32 (Z.shiftl (Z.land value 0xFFFF) 16))
                  (Z.land (Z.shiftr value 16) 0xFFFF)) ;;
  v <- getD reg ;; setFlagsLogical v 32 ;;
  useCycles 4.

Definition opEXT (opcode : Z) : @M H unit :=
  let reg := Z.land opcode 7 in
  (if Z.land opcode 0x0040 =? 0 then
     cur <- getD reg ;;
     (if nonzero (Z.land cur 0x80)
      then setD reg (Z.lor (Z.lor (Z.land cur 0xFFFF0000) 0x0000FF00) (Z.land cur 0xFF))
      else setD reg (Z.lor (Z.land cur 0xFFFF0000) (Z.land cur 0xFF))) ;;
     v <- getD reg ;; setFlagsLogical v 16
   else
     cur <- getD reg ;;
     (if nonzero (Z.land cur 0x8000)
      then setD reg (Z.lor 0xFFFF0000 (Z.land cur 0xFFFF))
      else setD reg (Z.land cur 0xFFFF)) ;;
     v <- getD reg ;; setFlagsLogical v 32) ;;
  useCycles 4.

(** *** opcodes.go *)

Definition opRESET (cb : Callbacks) : @M H unit :=
  match resetCallback cb with
  | Some f => modify f
  | None => ret tt
  end ;;
  useCycles 132.

Definition opSTOP : @M H unit :=
  newSR <- readImmediate16 ;;
  modify (set_sr newSR) ;;
  modify (set_stopped true) ;;
  useCycles 4.

Definition opRTE : @M H unit :=
  w <- popWord ;; modify (set_sr w) ;;
  v <- popLong ;; modify (set_pc v) ;;
  useCycles 20.

(** The body of the [if] is empty in the source. *)
Definition opTRAPV : @M H unit :=
  s <- gets sr ;;
  (if nonzero (Z.land s FlagV) then ret tt else ret tt) ;;
  useCycles 4.

Definition opRTR : @M H unit :=
  ccr <- popWord ;;
  modify (fun cpu => set_sr (Z.lor (Z.land (sr cpu) 0xFF00) (Z.land ccr 0x00FF)) cpu) ;;
  v <- popLong ;; modify (set_pc v) ;;
  useCycles 20.

(** The handlers that only charge cycles ([TODO] in the source). *)
Definition opNEGX (opcode : Z) : @M H unit := useCycles 4.
Definition opNBCD (opcode : Z) : @M H unit := useCycles 6.
Definition opMOVEMtoReg (opcode : Z) : @M H unit := useCycles 12.
Definition opMOVEMtoMem (opcode : Z) : @M H unit := useCycles 8.
Definition opTAS (opcode : Z) : @M H unit := useCycles 4.
Definition opCHK (opcode : Z) : @M H unit := useCycles 10.
Definition opDIVU (opcode : Z) : @M H unit := useCycles 140.
Definition opSBCD (opcode : Z) : @M H unit := useCycles 6.
Definition opADDX (opcode : Z) : @M H unit := useCycles 4.
Definition opSUBX (opcode : Z) : @M H unit := useCycles 4.
Definition opCMPM (opcode : Z) : @M H unit := useCycles 4.
Definition opABCD (opcode : Z) : @M H unit := useCycles 6.
Definition opMULU (opcode : Z) : @M H unit := useCycles 70.
Definition opShiftMem (opcode : Z) : @M H unit := useCycles 8.
Definition opShiftReg (opcode : Z) : @M H unit := useCycles 6.
Definition opBitDynamic (opcode : Z) : @M H unit := useCycles 4.
Definition opBitStatic (opcode : Z) : @M H unit := useCycles 8.
Definition opMOVEP (opcode : Z) : @M H unit := useCycles 16.

Definition opLINK (opcode : Z) : @M H unit :=
  let reg := Z.land opcode 7 in
  w <- readImmediate16 ;;
  let disp := sint32 (sint16 w) in
  an <- getA reg ;; pushLong an ;;
  sp <- getA 7 ;; setA reg sp ;;
  sp' <- getA 7 ;; setA 7 (uint32 (sint32 (sint32 sp' + disp))) ;;
  useCycles 16.

Definition opUNLK (opcode : Z) : @M H unit :=
  let reg := Z.land opcode 7 in
  an <- getA reg ;; setA 7 an ;;
  v <- popLong ;; setA reg v ;;
  useCycles 12.

Definition opMOVEUSP (opcode : Z) : @M H unit :=
  let reg := Z.land opcode 7 in
  (if nonzero (Z.land opcode 0x0008)
   then u <- gets usp ;; setA reg u
   else an <- getA reg ;; modify (set_usp an)) ;;
  useCycles 4.

Definition opBSR (opcode : Z) : @M H unit :=
  let disp := sint32 (sint8 (Z.land opcode 0xFF)) in
  disp <- (if disp =? 0
           then w <- readImmediate16 ;; ret (sint32 (sint16 w))
           else ret disp) ;;
  p <- gets pc ;; pushLong p ;;
  p' <- gets pc ;;
  modify (set_pc (uint32 (sint32 (sint32 p' + disp)))) ;;
  useCycles 18.

Definition opORItoCCR (opcode : Z) : @M H unit :=
  w <- readImmediate16 ;;
  let data := Z.land w 0xFF in
  modify (fun cpu =>
    set_sr (Z.lor (Z.land (sr cpu) 0xFF00) (Z.land (Z.lor (sr cpu) data) 0x00FF)) cpu) ;;
  useCycles 20.

Definition opANDItoCCR (opcode : Z) : @M H unit :=
  w <- readImmediate16 ;;
  let data := Z.land w 0xFF in
  modify (fun cpu =>
    set_sr (Z.lor (Z.land (sr cpu) 0xFF00) (Z.land (Z.land (sr cpu) data) 0x00FF)) cpu) ;;
  useCycles 20.

Definition opEORItoCCR (opcode : Z) : @M H unit :=
  w <- readImmediate16 ;;
  let data := Z.land w 0xFF in
  modify (fun cpu =>
    set_sr (Z.lor (Z.land (sr cpu) 0xFF00) (Z.land (Z.lxor (sr cpu) data) 0x00FF)) cpu) ;;
  useCycles 20.

Definition decode0 (opcode : Z) : @M H unit :=
  if Z.land opcode 0x0100 =? 0 then
    match Z.land (Z.shiftr opcode 6) 0x03 with
    | 0 =>
      match Z.land (Z.shiftr opcode 9) 0x07 with
      | 0 => if Z.land opcode 0x003F =? 0x003C then opORItoCCR opcode else opORI opcode
      | 1 => if Z.land opcode 0x003F =? 0x003C then opANDItoCCR opcode else opANDI opcode
      | 2 => opSUBI opcode
      | 3 => opADDI opcode
      | 5 => if Z.land opcode 0x003F =? 0x003C then opEORItoCCR opcode else opEORI opcode
      | 6 => opCMPI opcode
      | _ => opIllegal opcode
      end
    | 1 => opBitDynamic opcode
    | 2 => if Z.land opcode 0x0138 =? 0x0108 then opMOVEP opcode else opBitStatic opcode
    | 3 => if Z.land opcode 0x0138 =? 0x0108 then opMOVEP opcode else opBitStatic opcode
    | _ => ret tt
    end
  else opIllegal opcode.

Definition decodeMOVE (opcode : Z) : @M H unit :=
  let destMode := Z.land (Z.shiftr opcode 6) 7 in
  if destMode =? 1 then opMOVEA opcode else opMOVE opcode.

(** The outer [switch opcode] of [decode4] compares the opcode with its
    seven constants in order; it is written as that chain of tests, and
    its [default] branch as the inner [switch]. *)
Definition decode4 (cb : Callbacks) (opcode : Z) : @M H unit :=
  if opcode =? 0x4E70 then opRESET cb
  else if opcode =? 0x4E71 then opNOP
  else if opcode =? 0x4E72 then opSTOP
  else if opcode =? 0x4E73 then opRTE
  else if opcode =? 0x4E75 then opRTS
  else if opcode =? 0x4E76 then opTRAPV
  else if opcode =? 0x4E77 then opRTR
  else
    match Z.land (Z.shiftr opcode 6) 0x07 with
    | 0 =>
      match Z.land (Z.shiftr opcode 9) 0x07 with
      | 0 => opNEGX opcode
      | 1 => opCLR opcode
      | 2 => opNEG opcode
      | 3 => opNOT opcode
      | _ => opIllegal opcode
      end
    | 1 =>
      match Z.land (Z.shiftr opcode 3) 0x3F with
      | 0x00 | 0x01 => opNBCD opcode
      | 0x08 | 0x09 =>
        if nonzero (Z.land opcode 0x0008) then opSWAP opcode else opEXT opcode
      | _ =>
        if Z.land opcode 0x01C0 =? 0x01C0 then opPEA opcode else opIllegal opcode
      end
    | 2 =>
      if nonzero (Z.land opcode 0x0800) then opMOVEMtoMem opcode
      else if Z.land opcode 0x0B80 =? 0x0880 then opEXT opcode
      else opMOVEMtoReg opcode
    | 3 =>
      if Z.land opcode 0x0FC0 =? 0x0AC0 then opTAS opcode
      else if Z.land opcode 0x0B80 =? 0x0880 then opEXT opcode
      else if Z.land opcode 0x0F00 =? 0x0E00 then
        if Z.land opcode 0x0080 =? 0 then opLINK opcode
        else if Z.land opcode 0x0008 =? 0 then opUNLK opcode
        else opMOVEUSP opcode
      else opTST opcode
    | 4 | 6 =>
      if Z.land opcode 0x01C0 =? 0x01C0 then opLEA opcode else opCHK opcode
    | 5 | 7 =>
      if Z.land opcode 0x00C0 =? 0x00C0 then
        if Z.land opcode 0x0038 =? 0x0008 then opDBcc opcode else opScc opcode
      else
        if Z.land opcode 0x0100 =? 0 then opADDQ opcode else opSUBQ opcode
    | _ =>
      if Z.land opcode 0x0FC0 =? 0x04C0 then opMOVEMtoReg opcode
      else if Z.land opcode 0x0B80 =? 0x0080 then opMOVEMtoMem opcode
      else if Z.land opcode 0x01C0 =? 0x01C0 then
        match Z.land (Z.shiftr opcode 9) 0x07 with
        | 4 => opJSR opcode
        | 6 => opJMP opcode
        | _ => opIllegal opcode
        end
      else opIllegal opcode
    end.

Definition decode5 (opcode : Z) : @M H unit :=
  if Z.land opcode 0x00C0 =? 0x00C0 then
    if Z.land opcode 0x0038 =? 0x0008 then opDBcc opcode else opScc opcode
  else
    if Z.land opcode 0x0100 =? 0 then opADDQ opcode else opSUBQ opcode.

Definition decode6 (opcode : Z) : @M H unit :=
  let cond := Z.land (Z.shiftr opcode 8) 0x0F in
  match cond with
  | 0 => opBRA opcode
  | 1 => opBSR opcode
  | _ => opBcc opcode
  end.

Definition decode8 (opcode : Z) : @M H unit :=
  if Z.land opcode 0x01C0 =? 0x0100 then opSBCD opcode
  else if Z.land opcode 0x01F0 =? 0x0100 then opSBCD opcode
  else if Z.land opcode 0x01C0 =? 0x01C0 then opDIVU opcode
  else opOR opcode.

Definition decode9D (opcode : Z) : @M H unit :=
  let isAdd := Z.land opcode 0xF000 =? 0xD000 in
  if Z.land opcode 0x00C0 =? 0x00C0 then
    if isAdd then opADDA opcode else opSUBA opcode
  else if Z.land opcode 0x0130 =? 0x0100 then
    if isAdd then opADDX opcode else opSUBX opcode
  else
    if isAdd then opADD opcode else opSUB opcode.

Definition decodeB (opcode : Z) : @M H unit :=
  if Z.land opcode 0x00C0 =? 0x00C0 then opCMPA opcode
  else if Z.land opcode 0x0138 =? 0x0108 then opCMPM opcode
  else if Z.land opcode 0x0100 =? 0x0100 then opEOR opcode
  else opCMP opcode.

Definition decodeC (opcode : Z) : @M H unit :=
  if Z.land opcode 0x01C0 =? 0x0100 then opABCD opcode
  else if Z.land opcode 0x01F0 =? 0x0100 then opABCD opcode
  else if Z.land opcode 0x01C0 =? 0x01C0 then opMULU opcode
  else if Z.land opcode 0x0130 =? 0x0100 then opEXG opcode
  else opAND opcode.

Definition decodeE (opcode : Z) : @M H unit :=
  if Z.land opcode 0x00C0 =? 0x00C0 then opShiftMem opcode else opShiftReg opcode.

Definition decodeAndExecute (cb : Callbacks) (opcode : Z) : @M H unit :=
  match Z.shiftr opcode 12 with
  | 0x0 => decode0 opcode
  | 0x1 | 0x2 | 0x3 => decodeMOVE opcode
  | 0x4 => decode4 cb opcode
  | 0x5 => decode5 opcode
  | 0x6 => decode6 opcode
  | 0x7 => decodeMOVEQ opcode
  | 0x8 => decode8 opcode
  | 0x9 | 0xD => decode9D opcode
  | 0xB => decodeB opcode
  | 0xC => decodeC opcode
  | 0xE => decodeE opcode
  | _ => opIllegal opcode
  end.

End Instructions.

(** The value that [opSWAP] assigns to the register. *)
Definition swapped (v : Z) : Z :=
  Z.lor (uint32 (Z.shiftl (Z.land v 0xFFFF) 16)) (Z.land (Z.shiftr v 16) 0xFFFF).

(** [returnsNil m]: on a CPU without memory handler the method [m]
    returns (it does not panic), and the CPU still has no handler. *)
Definition returnsNil {H A : Type} (m : @M H A) : Prop :=
  forall cpu, memory cpu = None ->
    exists x cpu', m cpu = Some (x, cpu') /\ memory cpu' = None.

(** ** Further scenarios *)

(** [irqCPU] after the level 1 interrupt has been taken. *)
Definition irqTakenCPU : @CPU SimpleMemory.t :=
  match handleInterrupt noCallbacks 1 irqCPU with
  | Some (_, cpu) => cpu
  | None => irqCPU
  end.

(** The memory of [irqCPU] after LINK A6 has pushed A6 = 0, and after
    NOT.B (A7)+ has written 0xFF at 0x1002. *)
Definition linkMemory : SimpleMemory.t :=
  force (SimpleMemory.Write32 irqMemory 0xFFC 0) irqMemory.

Definition notMemory : SimpleMemory.t :=
  force (SimpleMemory.Write8 irqMemory 0x1002 0xFF) irqMemory.

(** A CPU without memory handler with D0 = 0x12345680 and D1 = 0x80. *)
Definition dataCPU : @CPU SimpleMemory.t :=
  set_d (mkArray8 0x12345680 0x80 0 0 0 0 0 0) (NewCPU CPU68000).

(** * Properties *)

(** ** Tactics *)

(** Unfolding of the methods of the interrupt and execution paths, of
    the field assignments and of the projections; arithmetic is kept. *)
Ltac run :=
  cbv [handleInterrupt checkInterrupts executeInstruction loopBody
       pushLong pushWord useCycles memRead memWrite getA getD setA setD
       bind ret gets modify lift panic index store
       set_cpuType set_d set_a set_pc set_sr set_usp set_isp set_msp set_sfc set_dfc
       set_vbr set_cacr set_caar set_stopped set_halted set_cyclesRun set_cyclesRemain
       set_irqLevel set_virq set_prefetchAddr set_prefetchData set_ppc set_ir set_memory
       cpuType d a pc sr usp isp msp sfc dfc vbr cacr caar stopped halted cyclesRun
       cyclesRemain irqLevel virq prefetchAddr prefetchData ppc ir memory
       e0 e1 e2 e3 e4 e5 e6 e7 intAckCallback resetCallback instrHookCallback].

Section Properties.

Context {H : Type} {MH : MemoryHandler H} {IS : IntSize}.

Local Abbreviation CPU := (@CPU H).

(** ** Bits of constants and of the masks used by the flag code *)

Lemma nonzero_land_pow2 (x k : Z) :
  0 <= k -> nonzero (Z.land x (2 ^ k)) = Z.testbit x k.
Proof.
  intros Hk. unfold nonzero.
  destruct (Z.testbit x k) eqn:Hb.
  - destruct (Z.eqb_spec (Z.land x (2 ^ k)) 0) as [E|E]; [|reflexivity].
    exfalso.
    assert (Hc : Z.testbit (Z.land x (2 ^ k)) k = true).
    { rewrite Z.land_spec, Hb, Z.pow2_bits_true by assumption. reflexivity. }
    rewrite E, Z.bits_0 in Hc. discriminate.
  - destruct (Z.eqb_spec (Z.land x (2 ^ k)) 0) as [E|E]; [reflexivity|].
    exfalso. apply E. apply Z.bits_inj'. intros n Hn.
    rewrite Z.land_spec, Z.bits_0.
    destruct (Z.eq_dec k n) as [->|Hne].
    + rewrite Hb. reflexivity.
    + rewrite Z.pow2_bits_false by assumption. apply andb_false_r.
Qed.

Lemma testbit_small (c i : Z) :
  0 <= c -> Z.log2 c < i -> Z.testbit c i = false.
Proof. intros. apply Z.bits_above_log2; assumption. Qed.

(** Bits of closed constants at closed positions. *)
Ltac const_bits :=
  repeat match goal with
  | |- context [Z.testbit (Zpos ?p) (Zpos ?q)] =>
    let b := eval vm_compute in (Z.testbit (Zpos p) (Zpos q)) in
    change (Z.testbit (Zpos p) (Zpos q)) with b
  | |- context [Z.testbit (Zpos ?p) 0] =>
    let b := eval vm_compute in (Z.testbit (Zpos p) 0) in
    change (Z.testbit (Zpos p) 0) with b
  end.

Ltac bools :=
  repeat (progress (cbn [negb andb orb];
                    rewrite ?andb_false_r, ?andb_true_r, ?orb_false_r, ?orb_true_r)).

Lemma logical_bits (s result size : Z) (n z : bool) :
  n = Z.testbit result (size - 1) ->
  z = (result mod 2 ^ size =? 0) ->
  logical_post s
    ((fun s1 => if z then Z.lor s1 FlagZ else Z.ldiff s1 FlagZ)
       ((fun s0 => if n then Z.lor s0 FlagN else Z.ldiff s0 FlagN)
          (Z.ldiff s (Z.lor FlagV FlagC))))
    result size.
Proof.
  unfold logical_post, FlagZ, FlagN, FlagV, FlagC. cbn beta.
  intros Hn Hz. rewrite <- Hn, <- Hz. clear Hn Hz.
  change (Z.lor 2 1) with 3.
  repeat split; intros;
    destruct n, z;
    rewrite ?Z.lor_spec, ?Z.ldiff_spec, ?Z.lor_spec, ?Z.ldiff_spec, ?Z.ldiff_spec;
    rewrite ?(testbit_small 3 i), ?(testbit_small 4 i), ?(testbit_small 8 i)
      by (cbn; lia);
    const_bits; bools; reflexivity.
Qed.

Lemma setFlagsLogical_run (cpu : CPU) (result size : Z) :
  size = 8 \/ size = 16 \/ size = 32 ->
  0 <= result < 2 ^ 32 ->
  exists s', setFlagsLogical result size cpu = Some (tt, set_sr s' cpu) /\
             logical_post (sr cpu) s' result size.
Proof.
  intros Hsize Hres.
  destruct Hsize as [-> | [-> | ->]];
    unfold setFlagsLogical, bind, modify; cbn -[Z.land Z.ldiff Z.lor Z.testbit Z.pow].
  - change 128 with (2 ^ 7). rewrite nonzero_land_pow2 by lia.
    change 255 with (Z.ones 8). rewrite Z.land_ones by lia.
    eexists; split;
      [| apply (logical_bits (sr cpu) result 8 (Z.testbit result 7) (result mod 2 ^ 8 =? 0));
         reflexivity].
    destruct (Z.testbit result 7), (result mod 2 ^ 8 =? 0); reflexivity.
  - change 32768 with (2 ^ 15). rewrite nonzero_land_pow2 by lia.
    change 65535 with (Z.ones 16). rewrite Z.land_ones by lia.
    eexists; split;
      [| apply (logical_bits (sr cpu) result 16 (Z.testbit result 15)
                  (result mod 2 ^ 16 =? 0)); reflexivity].
    destruct (Z.testbit result 15), (result mod 2 ^ 16 =? 0); reflexivity.
  - change 2147483648 with (2 ^ 31). rewrite nonzero_land_pow2 by lia.
    eexists; split;
      [| apply (logical_bits (sr cpu) result 32 (Z.testbit result 31) (result =? 0));
         [reflexivity | rewrite Z.mod_small by lia; reflexivity]].
    destruct (Z.testbit result 31), (result =? 0); reflexivity.
Qed.

Lemma set_sr_back (cpu : CPU) (s : Z) : set_sr (sr cpu) (set_sr s cpu) = cpu.
Proof. destruct cpu; reflexivity. Qed.

(** ** Logical flags *)

(** C4. For every CPU state, result and size in {8, 16, 32},
    [setFlagsLogical] returns with V and C cleared, N equal to the sign
    bit of the result at that size, Z set exactly when the result masked
    to that size is zero, and X, every other bit of SR and every other
    field of the CPU unchanged. *)
Theorem setFlagsLogical_flags (cpu : CPU) (result size : Z) :
  size = 8 \/ size = 16 \/ size = 32 ->
  0 <= result < 2 ^ 32 ->
  exists cpu',
    setFlagsLogical result size cpu = Some (tt, cpu') /\
    Z.testbit (sr cpu') 1 = false /\
    Z.testbit (sr cpu') 0 = false /\
    Z.testbit (sr cpu') 3 = Z.testbit result (size - 1) /\
    Z.testbit (sr cpu') 2 = (result mod 2 ^ size =? 0) /\
    Z.testbit (sr cpu') 4 = Z.testbit (sr cpu) 4 /\
    (forall i, 4 <= i -> Z.testbit (sr cpu') i = Z.testbit (sr cpu) i) /\
    set_sr (sr cpu) cpu' = cpu.
Proof.
  intros Hsize Hres.
  destruct (setFlagsLogical_run cpu result size Hsize Hres)
    as (s' & Hrun & Hc & Hv & Hz & Hn & Hrest).
  exists (set_sr s' cpu). cbn [sr set_sr].
  repeat split; try assumption.
  - apply Hrest. lia.
  - apply set_sr_back.
Qed.

(** ** Condition codes *)

(** C7. For every CPU state (so for every SR) and every pair of
    complementary conditions, [testCondition] returns a boolean for the
    first and its negation for the second: exactly one of the two holds. *)
Theorem testCondition_complementary (cpu : CPU) (c c' : Z) :
  In (c, c') [(CondT, CondF); (CondHI, CondLS); (CondCC, CondCS); (CondNE, CondEQ);
              (CondVC, CondVS); (CondPL, CondMI); (CondGE, CondLT); (CondGT, CondLE)] ->
  exists b, testCondition c cpu = Some (b, cpu) /\
            testCondition c' cpu = Some (negb b, cpu).
Proof.
  intros Hin. unfold testCondition, bind, gets, ret.
  generalize (nonzero (Z.land (sr cpu) FlagC)) (nonzero (Z.land (sr cpu) FlagV))
             (nonzero (Z.land (sr cpu) FlagZ)) (nonzero (Z.land (sr cpu) FlagN)).
  intros fc fv fz fn.
  cbn [In] in Hin.
  repeat (destruct Hin as [Hp | Hin]; [injection Hp as <- <-; eexists; split;
    [reflexivity | cbv [CondT CondF CondHI CondLS CondCC CondCS CondNE CondEQ CondVC
                        CondVS CondPL CondMI CondGE CondLT CondGT CondLE];
     destruct fc, fv, fz, fn; reflexivity] |]).
  contradiction.
Qed.

(** ** Contexts *)

(** C8. [SetContext] of the context just taken by [GetContext] leaves
    the CPU as it was, and [GetContext] right after [SetContext c]
    returns [c] itself, all thirteen fields. *)
Theorem context_round_trip (cpu : CPU) (c : Context) :
  (exists ctx, GetContext cpu = Some (ctx, cpu) /\ SetContext ctx cpu = Some (tt, cpu)) /\
  (exists cpu', SetContext c cpu = Some (tt, cpu') /\ GetContext cpu' = Some (c, cpu')).
Proof.
  split.
  - eexists. split; [cbv [GetContext bind gets ret]; reflexivity|].
    destruct cpu as [ty rd ra]. destruct rd, ra. reflexivity.
  - eexists. split; [cbv [SetContext bind modify]; reflexivity|].
    destruct c as [ty rd ra]. destruct rd, ra. reflexivity.
Qed.

(** ** A CPU without memory handler *)

(** C9. With a nil memory handler [Execute] returns 0 and the CPU it
    was given, and [Reset] returns (it does not panic) with the reset
    state in which [a[7]] and [pc] are zero; [cpuType] and the virtual
    IRQ lines are kept. *)
Theorem nil_memory_execute_reset (cpu : CPU) (fuel : nat) (cb : Callbacks) (cycles : Z) :
  memory cpu = None ->
  Execute fuel cb cycles cpu = Returned 0 cpu /\
  exists cpu',
    Reset cpu = Some (tt, cpu') /\
    index (a cpu') 7 = Some 0 /\
    pc cpu' = 0 /\
    cpu' = mkCPU (cpuType cpu) (fill8 0) (fill8 0) 0 0x2700 0 0 0 0 0 0 0 0 false false
             0 0 0 (virq cpu) 0 0 0 0 None.
Proof.
  intros Hmem. split.
  - unfold Execute. rewrite Hmem. reflexivity.
  - destruct cpu. cbn in Hmem. subst.
    eexists. split; [cbv; reflexivity|].
    split; [reflexivity|]. split; reflexivity.
Qed.

(** ** The stack pointer and the S bit *)

Lemma supervisor_bit (s : Z) : nonzero (Z.land s 0x2000) = Z.testbit s 13.
Proof. change 0x2000 with (2 ^ 13). apply nonzero_land_pow2. lia. Qed.

(** C3 (amended). [GetSP], and [GetRegister] on [RegSP], return [a[7]]
    when S = 1 and [usp] otherwise.  [SetSR] assigns [sr] and nothing
    else: [a[7]], [usp], [isp] and [msp] keep their values whether or not
    S flips, and writing the old SR back gives the CPU it started from,
    so [GetSP] then returns what it returned before. *)
Theorem stack_pointer_banks (cpu : CPU) (value : Z) :
  GetSP cpu = Some ((if Z.testbit (sr cpu) 13 then e7 (a cpu) else usp cpu), cpu) /\
  GetRegister RegSP cpu = GetSP cpu /\
  exists cpu',
    SetSR value cpu = Some (tt, cpu') /\
    sr cpu' = value /\
    a cpu' = a cpu /\ usp cpu' = usp cpu /\ isp cpu' = isp cpu /\ msp cpu' = msp cpu /\
    SetSR (sr cpu) cpu' = Some (tt, cpu).
Proof.
  repeat split.
  - unfold GetSP, bind, gets. cbn beta iota. rewrite supervisor_bit.
    destruct (Z.testbit (sr cpu) 13); reflexivity.
  - exists (set_sr value cpu). repeat split.
    unfold SetSR, modify. rewrite set_sr_back. reflexivity.
Qed.

(** ** Arithmetic flags *)

(** Whatever [setFlagsAdd] computes for V and C, the closing call of
    [setFlagsLogical] clears both. *)
Lemma setFlagsAdd_clears_V_C (cpu : CPU) (dest src result size : Z) :
  size = 8 \/ size = 16 \/ size = 32 ->
  0 <= result < 2 ^ 32 ->
  exists cpu', setFlagsAdd dest src result size cpu = Some (tt, cpu') /\
               Z.testbit (sr cpu') 0 = false /\ Z.testbit (sr cpu') 1 = false.
Proof.
  intros Hsize Hres. unfold setFlagsAdd.
  destruct Hsize as [-> | [-> | ->]]; cbv [bind modify ret];
    repeat match goal with
           | |- context [if ?b then _ else _] => destruct b; cbv beta iota
           end;
    match goal with
    | |- context [setFlagsLogical result ?n ?c] =>
      destruct (setFlagsLogical_run c result n) as (s3 & -> & Hc & Hv & _);
        [auto | assumption |]
    end;
    eexists; (split; [reflexivity|]); cbn [sr set_sr]; split; assumption.
Qed.

Lemma setFlagsSub_clears_V_C (cpu : CPU) (dest src result size : Z) :
  size = 8 \/ size = 16 \/ size = 32 ->
  0 <= result < 2 ^ 32 ->
  exists cpu', setFlagsSub dest src result size cpu = Some (tt, cpu') /\
               Z.testbit (sr cpu') 0 = false /\ Z.testbit (sr cpu') 1 = false.
Proof.
  intros Hsize Hres. unfold setFlagsSub.
  destruct Hsize as [-> | [-> | ->]]; cbv [bind modify ret];
    repeat match goal with
           | |- context [if ?b then _ else _] => destruct b; cbv beta iota
           end;
    match goal with
    | |- context [setFlagsLogical result ?n ?c] =>
      destruct (setFlagsLogical_run c result n) as (s3 & -> & Hc & Hv & _);
        [auto | assumption |]
    end;
    eexists; (split; [reflexivity|]); cbn [sr set_sr]; split; assumption.
Qed.

(** ** What a method leaves alone *)

Lemma keeps_ret {A T : Type} (f : CPU -> T) (x : A) : keeps f (ret x).
Proof. intros cpu y cpu' Hr. inversion Hr; subst. reflexivity. Qed.

Lemma keeps_panic {A T : Type} (f : CPU -> T) : keeps f (@panic H A).
Proof. intros cpu y cpu' Hr. discriminate. Qed.

Lemma keeps_gets {A T : Type} (f : CPU -> T) (g : CPU -> A) : keeps f (gets g).
Proof. intros cpu y cpu' Hr. inversion Hr; subst. reflexivity. Qed.

Lemma keeps_lift {A T : Type} (f : CPU -> T) (o : option A) : keeps f (lift o).
Proof. destruct o; [apply keeps_ret | apply keeps_panic]. Qed.

Lemma keeps_modify {T : Type} (f : CPU -> T) (g : CPU -> CPU) :
  (forall cpu, f (g cpu) = f cpu) -> keeps f (modify g).
Proof. intros Hg cpu y cpu' Hr. inversion Hr; subst. apply Hg. Qed.

Lemma keeps_bind {A B T : Type} (f : CPU -> T) (m : M A) (k : A -> M B) :
  keeps f m -> (forall x, keeps f (k x)) -> keeps f (bind m k).
Proof.
  intros Hm Hk cpu y cpu' Hr. unfold bind in Hr.
  destruct (m cpu) as [[x c1]|] eqn:E; [|discriminate].
  rewrite (Hk x c1 y cpu' Hr). apply (Hm cpu x c1 E).
Qed.

(** Structural steps of a [keeps] proof. *)
Ltac keeps_step :=
  first
    [ apply keeps_ret | apply keeps_panic | apply keeps_gets | apply keeps_lift
    | apply keeps_modify; intros; reflexivity
    | apply keeps_bind; [|intros ?]
    | match goal with
      | |- keeps _ (match ?x with _ => _ end) => destruct x
      | |- keeps _ (if ?b then _ else _) => destruct b
      end ].

Ltac keeps_tac := repeat keeps_step.

Lemma keeps_memRead {T : Type} (f : CPU -> T) rd (address : Z) :
  keeps f (memRead rd address).
Proof. unfold memRead. keeps_tac. Qed.

Lemma memRead_pure rd (address v : Z) (cpu cpu' : CPU) :
  memRead rd address cpu = Some (v, cpu') -> cpu' = cpu.
Proof. apply (keeps_memRead (fun c => c)). Qed.

Lemma keeps_memWrite {T : Type} (f : CPU -> T) wr (address value : Z) :
  (forall m cpu, f (set_memory m cpu) = f cpu) ->
  keeps f (memWrite wr address value).
Proof.
  intros Hf. unfold memWrite.
  apply keeps_bind; [keeps_tac|]. intros [h|]; [|keeps_tac].
  apply keeps_bind; [keeps_tac|]. intros h'. apply keeps_modify. apply Hf.
Qed.

Lemma keeps_getA {T : Type} (f : CPU -> T) (reg : Z) : keeps f (getA reg).
Proof. unfold getA. keeps_tac. Qed.

Lemma keeps_setA {T : Type} (f : CPU -> T) (reg v : Z) :
  (forall r cpu, f (set_a r cpu) = f cpu) -> keeps f (setA reg v).
Proof.
  intros Hf. unfold setA. apply keeps_bind; [keeps_tac|]. intros r.
  apply keeps_bind; [keeps_tac|]. intros r'. apply keeps_modify. apply Hf.
Qed.

Lemma keeps_useCycles {T : Type} (f : CPU -> T) (cycles : Z) :
  (forall v cpu, f (set_cyclesRun v cpu) = f cpu) ->
  (forall v cpu, f (set_cyclesRemain v cpu) = f cpu) ->
  keeps f (useCycles cycles).
Proof.
  intros H1 H2. unfold useCycles.
  apply keeps_bind; [|intros ?]; apply keeps_modify; intros c; [apply H1 | apply H2].
Qed.

(** ** Effective addresses with auto-increment and auto-decrement *)

Lemma readMem_pure (address size v : Z) (cpu cpu' : CPU) :
  size = 8 \/ size = 16 \/ size = 32 ->
  readMem address size cpu = Some (v, cpu') -> cpu' = cpu.
Proof.
  intros Hsize. apply (fun K => K cpu v cpu').
  change (keeps (fun c : CPU => c) (readMem address size)).
  unfold readMem. apply keeps_bind; [keeps_tac|]. intros [h|]; [|keeps_tac].
  destruct Hsize as [-> | [-> | ->]]; apply keeps_memRead.
Qed.

Lemma writeMem_a (address value size : Z) : keeps a (writeMem address value size).
Proof.
  unfold writeMem. apply keeps_bind; [keeps_tac|]. intros [h|]; [|keeps_tac].
  assert (K : forall wr v, keeps a (memWrite wr address v))
    by (intros; apply keeps_memWrite; reflexivity).
  destruct size as [|p|p]; try apply keeps_ret;
    repeat (destruct p as [p|p|]; try apply keeps_ret; try apply K).
Qed.

(** C6. For a register index 0..7 and a size of 8, 16 or 32 bits, with
    [step] = size/8, or 2 for a byte through A7:
    a read in mode 3 reads memory at the old [a[reg]] and then sets
    [a[reg]] to the old value plus [step]; a read in mode 4 first sets
    [a[reg]] to the old value minus [step] and reads at that new value;
    writes do the same with [writeMem] of the value masked to the size.
    The register moves by one [step] per access (modulo 2^32), and
    nothing is returned when the memory access panics. *)
Theorem autoincrement_access (cpu : CPU) (reg size value : Z) :
  0 <= reg < 8 ->
  size = 8 \/ size = 16 \/ size = 32 ->
  let step := if (reg =? 7) && (size =? 8) then 2 else size / 8 in
  exists addr up down,
    index (a cpu) reg = Some addr /\
    store (a cpu) reg (uint32 (addr + step)) = Some up /\
    index up reg = Some (uint32 (addr + step)) /\
    store (a cpu) reg (uint32 (addr - step)) = Some down /\
    index down reg = Some (uint32 (addr - step)) /\
    readEA 3 reg size cpu =
      match readMem addr size cpu with
      | Some (v, _) => Some (v, set_a up cpu)
      | None => None
      end /\
    readEA 4 reg size cpu =
      match readMem (uint32 (addr - step)) size (set_a down cpu) with
      | Some (v, _) => Some (v, set_a down cpu)
      | None => None
      end /\
    writeEA 3 reg size value cpu =
      match writeMem addr (maskValue value size) size cpu with
      | Some (_, cpu1) => Some (tt, set_a up cpu1)
      | None => None
      end /\
    writeEA 4 reg size value cpu =
      writeMem (uint32 (addr - step)) (maskValue value size) size (set_a down cpu).
Proof.
  intros Hreg Hsize step.
  assert (Hr : reg = 0 \/ reg = 1 \/ reg = 2 \/ reg = 3 \/
               reg = 4 \/ reg = 5 \/ reg = 6 \/ reg = 7) by lia.
  clear Hreg.
  assert (Hpure := fun ad v c c' => readMem_pure ad size v c c' Hsize).
  assert (Hwa := fun ad v => writeMem_a ad v size).
  assert (Hstep : eaStep reg size = step).
  { subst step. unfold eaStep. rewrite andb_comm.
    destruct ((reg =? 7) && (size =? 8)); [reflexivity|].
    destruct Hsize as [-> | [-> | ->]]; reflexivity. }
  clearbody step.
  destruct Hr as [-> | [-> | [-> | [-> | [-> | [-> | [-> | ->]]]]]]];
    destruct Hsize as [-> | [-> | ->]];
    (do 3 eexists;
     split; [reflexivity|]; split; [reflexivity|]; split; [reflexivity|];
     split; [reflexivity|]; split; [reflexivity|];
     split; [|split; [|split]];
     [ cbv [readEA getA setA bind gets lift modify ret index store];
       rewrite Hstep;
       match goal with
       | |- context [readMem ?ad ?sz cpu] =>
         destruct (readMem ad sz cpu) as [[v c1]|] eqn:E;
         [apply Hpure in E; subst c1|]; reflexivity
       end
     | cbv [readEA getA setA bind gets lift modify ret index store];
       rewrite Hstep; cbn [a set_a e0 e1 e2 e3 e4 e5 e6 e7];
       match goal with
       | |- context [readMem ?ad ?sz ?c] =>
         destruct (readMem ad sz c) as [[v c1]|] eqn:E;
         [apply Hpure in E; subst c1|]; reflexivity
       end
     | cbv [writeEA getA setA bind gets lift modify ret index store];
       rewrite Hstep;
       match goal with
       | |- context [writeMem ?ad ?v ?sz cpu] =>
         destruct (writeMem ad v sz cpu) as [[u c1]|] eqn:E;
         [apply Hwa in E; rewrite E|]; reflexivity
       end
     | cbv [writeEA getA setA bind gets lift modify ret index store];
       rewrite Hstep; reflexivity ]).
Qed.

(** ** Interrupts *)

Lemma interrupt_sr_bits (s level : Z) :
  1 <= level <= 7 ->
  let s' := Z.lor (Z.land (Z.lor s 0x2000) 0xF8FF) (uint16 (Z.shiftl level 8)) in
  Z.testbit s' 13 = true /\
  Z.land (Z.shiftr s' 8) 7 = level /\
  forall i, 0 <= i < 16 -> i <> 8 -> i <> 9 -> i <> 10 -> i <> 13 ->
            Z.testbit s' i = Z.testbit s i.
Proof.
  intros Hl s'. subst s'.
  assert (Hc : level = 1 \/ level = 2 \/ level = 3 \/ level = 4 \/
               level = 5 \/ level = 6 \/ level = 7) by lia.
  clear Hl.
  destruct Hc as [-> | [-> | [-> | [-> | [-> | [-> | ->]]]]]];
    (match goal with
    | |- context [uint16 (Z.shiftl ?l 8)] =>
      let c := eval vm_compute in (uint16 (Z.shiftl l 8)) in
      change (uint16 (Z.shiftl l 8)) with c
    end;
    split;
    [ rewrite Z.lor_spec, Z.land_spec, Z.lor_spec; const_bits; bools; reflexivity
    | split;
    [ apply Z.bits_inj'; intros n Hn;
      rewrite Z.land_spec, Z.shiftr_spec, Z.lor_spec, Z.land_spec, Z.lor_spec by lia;
      destruct (Z_lt_le_dec n 3) as [Hlt|Hge];
      [ assert (Hn3 : n = 0 \/ n = 1 \/ n = 2) by lia;
        destruct Hn3 as [-> | [-> | ->]];
        cbn [Z.add Pos.add Pos.succ]; const_bits; bools; reflexivity
      | rewrite (testbit_small 7 n) by (cbn; lia);
        try match goal with
            | |- _ = Z.testbit ?l n => rewrite (testbit_small l n) by (cbn; lia)
            end;
        bools; reflexivity ]
    | intros i Hi H8 H9 H10 H13;
      assert (Hc : i = 0 \/ i = 1 \/ i = 2 \/ i = 3 \/ i = 4 \/ i = 5 \/ i = 6 \/
                   i = 7 \/ i = 11 \/ i = 12 \/ i = 14 \/ i = 15) by lia;
      clear Hi H8 H9 H10 H13;
      rewrite Z.lor_spec, Z.land_spec, Z.lor_spec;
      destruct Hc as [-> | [-> | [-> | [-> | [-> | [-> | [-> | [-> | [-> | [-> |
                     [-> | ->]]]]]]]]]]];
      const_bits; bools; reflexivity ] ]).
Qed.

Lemma uint32_small (x : Z) : 0 <= x < 2 ^ 32 -> uint32 x = x.
Proof. intros Hx. unfold uint32. apply Z.mod_small. exact Hx. Qed.

Lemma uint32_add_r (x y : Z) : uint32 (x + uint32 y) = uint32 (x + y).
Proof. unfold uint32. apply Zplus_mod_idemp_r. Qed.

Lemma uint32_sub_l (x y z : Z) : uint32 (uint32 (x - y) - z) = uint32 (x - (y + z)).
Proof.
  unfold uint32. rewrite Zminus_mod_idemp_l. f_equal. lia.
Qed.

(** C2 (amended). On a CPU with a memory handler, for a level 1..7 and
    any interrupt-ack callback, when the handler accepts the two writes
    and the read, [handleInterrupt] returns with S = 1 and the mask
    field equal to the level; every other bit of SR, the trace bit among
    them, is as before; PC (a long) and then the old SR (a word) have
    been pushed through [a[7]]; PC is the long read, after the pushes,
    at [vbr + vector*4] when [cpuType >= CPU68010] and at [vector*4]
    otherwise (both modulo 2^32).  The vector is [0x18 + level] when the
    callback is absent or returns AUTOVECTOR, 0x18 when it returns
    SPURIOUS, and the value the callback returns otherwise. *)
Theorem handleInterrupt_effect (cb : Callbacks) (cpu : CPU) (level : Z)
    (h h1 h2 : H) (newpc : Z) :
  memory cpu = Some h ->
  1 <= level <= 7 ->
  let answer :=
    match intAckCallback cb with
    | Some f => f level
    | None => IntAckAutovector
    end in
  let vector :=
    if answer =? IntAckAutovector then 0x18 + level
    else if answer =? IntAckSpurious then 0x18
    else answer in
  let sp := e7 (a cpu) in
  let vectorAddr :=
    if CPU68010 <=? cpuType cpu then uint32 (vbr cpu + vector * 4)
    else uint32 (vector * 4) in
  Write32 h (uint32 (sp - 4)) (pc cpu) = Some h1 ->
  Write16 h1 (uint32 (sp - 6)) (sr cpu) = Some h2 ->
  Read32 h2 vectorAddr = Some newpc ->
  exists cpu',
    handleInterrupt cb level cpu = Some (tt, cpu') /\
    Z.testbit (sr cpu') 13 = true /\
    Z.land (Z.shiftr (sr cpu') 8) 7 = level /\
    Z.testbit (sr cpu') 15 = Z.testbit (sr cpu) 15 /\
    (forall i, 0 <= i < 16 -> i <> 8 -> i <> 9 -> i <> 10 -> i <> 13 ->
               Z.testbit (sr cpu') i = Z.testbit (sr cpu) i) /\
    memory cpu' = Some h2 /\
    index (a cpu') 7 = Some (uint32 (sp - 6)) /\
    pc cpu' = newpc.
Proof.
  intros Hmem Hl answer vector sp vectorAddr HW1 HW2 HR.
  destruct (interrupt_sr_bits (sr cpu) level Hl) as (Hs & Hmask & Hbits).
  assert (Hvec :
    (if answer =? IntAckAutovector then uint32 (0x18 + level)
     else if answer =? IntAckSpurious then 0x18 else answer) = vector).
  { subst vector. destruct (answer =? IntAckAutovector); [|reflexivity].
    apply uint32_small. change (2 ^ 32) with 4294967296. lia. }
  clearbody vector. subst answer sp vectorAddr.
  destruct cpu as [ty rd ra pc0 sr0 usp0 isp0 msp0 sfc0 dfc0 vbr0 cacr0 caar0
                   st hl cr cm irq vq pa pd ppc0 ir0 mem].
  destruct ra as [a0 a1 a2 a3 a4 a5 a6 a7].
  destruct cb as [ack rcb hcb].
  cbn [memory a pc sr e7 cpuType vbr intAckCallback] in *. subst mem.
  run. rewrite Hvec.
  rewrite HW1.
  rewrite uint32_sub_l. change (4 + 2) with 6. rewrite HW2.
  rewrite uint32_add_r.
  rewrite HR.
  eexists. split; [reflexivity|].
  split; [exact Hs|]. split; [exact Hmask|].
  split; [apply Hbits; lia|]. split; [exact Hbits|].
  repeat split.
Qed.

(** ** Cycle accounting *)

Lemma bind_inv {A B : Type} (m : M A) (k : A -> M B) (cpu cpu' : CPU) (y : B) :
  bind m k cpu = Some (y, cpu') ->
  exists x c1, m cpu = Some (x, c1) /\ k x c1 = Some (y, cpu').
Proof.
  unfold bind. destruct (m cpu) as [[x c1]|]; [|discriminate].
  intros Hk. exists x, c1. split; [reflexivity | exact Hk].
Qed.

Lemma pow_intBits : 2 ^ intBits = 2 * 2 ^ (intBits - 1).
Proof. destruct intBits_32_or_64 as [-> | ->]; reflexivity. Qed.

Lemma maxInt_large : 2147483647 <= maxInt.
Proof.
  unfold maxInt. destruct intBits_32_or_64 as [-> | ->]; cbn; lia.
Qed.

Lemma minInt_maxInt : minInt = - maxInt - 1.
Proof. unfold minInt, maxInt. lia. Qed.

Lemma int_small (x : Z) : minInt <= x <= maxInt -> int x = x.
Proof.
  unfold int, minInt, maxInt. intros Hx.
  rewrite pow_intBits, Z.mod_small; lia.
Qed.

Lemma charges_useCycles (n : Z) : @charges H _ IS n (useCycles n).
Proof.
  intros cpu x cpu' Hr. unfold useCycles, bind, modify in Hr.
  inversion Hr; subst. destruct cpu. split; reflexivity.
Qed.

Lemma charges_after {A B : Type} (n : Z) (m : M A) (k : A -> M B) :
  keeps counters m -> (forall x, @charges H _ IS n (k x)) -> @charges H _ IS n (bind m k).
Proof.
  intros Hm Hk cpu y cpu' Hr.
  destruct (bind_inv m k cpu cpu' y Hr) as (x & c1 & E1 & E2).
  apply Hm in E1. unfold counters in E1. injection E1 as Ea Eb.
  destruct (Hk x c1 y cpu' E2) as (Hrun & Hrem).
  rewrite Hrun, Hrem, Ea, Eb. split; reflexivity.
Qed.

Lemma charges_before {A B : Type} (n : Z) (m : M A) (k : A -> M B) :
  @charges H _ IS n m -> (forall x, keeps counters (k x)) -> @charges H _ IS n (bind m k).
Proof.
  intros Hm Hk cpu y cpu' Hr.
  destruct (bind_inv m k cpu cpu' y Hr) as (x & c1 & E1 & E2).
  apply Hk in E2. unfold counters in E2. injection E2 as Ea Eb.
  destruct (Hm cpu x c1 E1) as (Hrun & Hrem).
  rewrite Ea, Eb. split; assumption.
Qed.

Lemma keeps_pushLong {T : Type} (f : CPU -> T) (value : Z) :
  (forall r cpu, f (set_a r cpu) = f cpu) ->
  (forall m cpu, f (set_memory m cpu) = f cpu) ->
  keeps f (pushLong value).
Proof.
  intros Ha Hm. unfold pushLong.
  apply keeps_bind; [apply keeps_getA|]. intros sp.
  apply keeps_bind; [apply keeps_setA; exact Ha|]. intros _.
  apply keeps_bind; [keeps_tac|]. intros [h|]; [|keeps_tac].
  apply keeps_bind; [apply keeps_getA|]. intros sp'.
  apply keeps_memWrite. exact Hm.
Qed.

Lemma keeps_pushWord {T : Type} (f : CPU -> T) (value : Z) :
  (forall r cpu, f (set_a r cpu) = f cpu) ->
  (forall m cpu, f (set_memory m cpu) = f cpu) ->
  keeps f (pushWord value).
Proof.
  intros Ha Hm. unfold pushWord.
  apply keeps_bind; [apply keeps_getA|]. intros sp.
  apply keeps_bind; [apply keeps_setA; exact Ha|]. intros _.
  apply keeps_bind; [keeps_tac|]. intros [h|]; [|keeps_tac].
  apply keeps_bind; [apply keeps_getA|]. intros sp'.
  apply keeps_memWrite. exact Hm.
Qed.

Lemma charges_handleInterrupt (cb : Callbacks) (level : Z) :
  @charges H _ IS 44 (handleInterrupt cb level).
Proof.
  unfold handleInterrupt. cbv zeta.
  apply charges_after; [keeps_tac|]. intros oldSR.
  apply charges_after; [keeps_tac|]. intros _.
  apply charges_after; [keeps_tac|]. intros _.
  apply charges_after; [keeps_tac|]. intros p.
  apply charges_after; [apply keeps_pushLong; reflexivity|]. intros _.
  apply charges_after; [apply keeps_pushWord; reflexivity|]. intros _.
  apply charges_after; [keeps_tac|]. intros ty.
  apply charges_after; [keeps_tac|]. intros base.
  apply charges_after; [apply keeps_memRead|]. intros newpc.
  apply charges_after; [keeps_tac|]. intros _.
  apply charges_useCycles.
Qed.

(** The switch of [executeInstruction] without reset callback. *)
Lemma instruction_switch (w : Z) :
  match w with
  | 0x4E71 => ret tt
  | 0x4E70 => @ret H unit tt
  | _ => ret tt
  end = ret tt.
Proof.
  destruct w as [|p|p]; try reflexivity.
  repeat (destruct p as [p|p|]; try reflexivity).
Qed.

Lemma charges_executeInstruction : @charges H _ IS 4 (executeInstruction noCallbacks).
Proof.
  unfold executeInstruction. cbn [resetCallback noCallbacks].
  apply charges_after; [keeps_tac|]. intros p.
  apply charges_after; [apply keeps_memRead|]. intros w.
  apply charges_after; [keeps_tac|]. intros _.
  apply charges_after; [keeps_tac|]. intros _.
  apply charges_before; [apply charges_useCycles|]. intros _.
  apply keeps_bind; [keeps_tac|]. intros w'.
  rewrite instruction_switch. apply keeps_ret.
Qed.

(** [checkInterrupts] either leaves the counters or charges 44 cycles. *)
Lemma checkInterrupts_counters (cb : Callbacks) (s s1 : CPU) :
  checkInterrupts cb s = Some (tt, s1) ->
  counters s1 = counters s \/
  (cyclesRun s1 = int (cyclesRun s + 44) /\ cyclesRemain s1 = int (cyclesRemain s - 44)).
Proof.
  unfold checkInterrupts, bind, gets.
  destruct (irqLevel s =? 0).
  - intros Hr. inversion Hr; subst. left. reflexivity.
  - destruct ((irqLevel s =? 7) || _).
    + intros Hr. right. apply (charges_handleInterrupt cb (irqLevel s) s tt s1 Hr).
    + intros Hr. inversion Hr; subst. left. reflexivity.
Qed.

(** One pass through the loop body from an accounted state. *)
Lemma loopBody_accounted (cycles : Z) (s s1 s2 : CPU) :
  cycles <= maxInt - 47 ->
  accounted cycles s ->
  running s = true ->
  checkInterrupts noCallbacks s = Some (tt, s1) ->
  loopBody noCallbacks s = Some (tt, s2) ->
  cyclesRun s1 + cyclesRemain s1 = cycles /\
  accounted cycles s2 /\
  cyclesRun s <= cyclesRun s1 < cyclesRun s2 /\
  cyclesRemain s2 <= cyclesRemain s - 4.
Proof.
  intros Hmax (Hsum & Hrun & Hrem) Hgo Hci Hbody.
  assert (Hpos : 0 < cyclesRemain s).
  { unfold running in Hgo. apply andb_prop in Hgo. destruct Hgo as (Hgo & _).
    apply andb_prop in Hgo. destruct Hgo as (Hgo & _). apply Z.ltb_lt. exact Hgo. }
  unfold loopBody in Hbody. cbn [instrHookCallback noCallbacks] in Hbody.
  destruct (bind_inv _ _ _ _ _ Hbody) as ([] & c1 & E1 & Hrest).
  rewrite Hci in E1. injection E1 as <-.
  destruct (bind_inv _ _ _ _ _ Hrest) as ([] & c2 & E2 & Hrest2).
  inversion E2; subst c2. clear E2 Hrest.
  destruct (bind_inv _ _ _ _ _ Hrest2) as ([] & c3 & E3 & Hexec).
  inversion E3; subst c3. clear E3 Hrest2.
  destruct (charges_executeInstruction _ _ _ Hexec) as (Hr2 & Hm2).
  replace (cyclesRun (set_ppc (pc s1) s1)) with (cyclesRun s1) in Hr2
    by (destruct s1; reflexivity).
  replace (cyclesRemain (set_ppc (pc s1) s1)) with (cyclesRemain s1) in Hm2
    by (destruct s1; reflexivity).
  unfold accounted.
  assert (Hlarge := maxInt_large). assert (Hmin := minInt_maxInt).
  destruct (checkInterrupts_counters _ _ _ Hci) as [Hsame | (Hr1 & Hm1)].
  - unfold counters in Hsame. injection Hsame as Ha Hb.
    rewrite int_small in Hr2, Hm2 by lia.
    lia.
  - rewrite int_small in Hr1, Hm1 by lia.
    rewrite int_small in Hr2, Hm2 by lia.
    lia.
Qed.

Lemma loopHead_accounted (cpu0 : CPU) (cycles : Z) (s : CPU) :
  minInt <= cycles <= maxInt - 47 ->
  loopHead noCallbacks cycles cpu0 s -> accounted cycles s.
Proof.
  intros Hc Hs. induction Hs as [|s s' Hs IH Hgo Hbody].
  - unfold accounted. destruct cpu0.
    cbn [cyclesRun cyclesRemain set_cyclesRun set_cyclesRemain]. lia.
  - assert (Hb := Hbody). unfold loopBody in Hb.
    destruct (bind_inv _ _ _ _ _ Hb) as ([] & s1 & Hci & _).
    apply (loopBody_accounted cycles s s1 s'); try assumption. lia.
Qed.

Lemma executeLoop_returns (cpu0 : CPU) (cycles : Z) (fuel : nat) (s s' : CPU) (u : unit) :
  loopHead noCallbacks cycles cpu0 s ->
  executeLoop fuel noCallbacks s = Returned u s' ->
  loopHead noCallbacks cycles cpu0 s' /\ running s' = false.
Proof.
  revert s. induction fuel as [|fuel IH]; intros s Hs; cbn [executeLoop];
    destruct (running s) eqn:Hgo; try discriminate.
  - intros Hr. inversion Hr; subst. split; assumption.
  - destruct (loopBody noCallbacks s) as [[[] s1]|] eqn:Hbody; [|discriminate].
    apply IH. apply (head_next _ _ _ s s1); assumption.
  - intros Hr. inversion Hr; subst. split; assumption.
Qed.

Lemma executeLoop_enough_fuel (cycles : Z) (fuel : nat) (s : CPU) :
  cycles <= maxInt - 47 ->
  accounted cycles s ->
  (Z.to_nat (cyclesRemain s) <= fuel)%nat ->
  executeLoop fuel noCallbacks s <> OutOfFuel.
Proof.
  intros Hmax. revert s. induction fuel as [|fuel IH]; intros s Hacc Hfuel;
    cbn [executeLoop]; destruct (running s) eqn:Hgo; try discriminate.
  - exfalso. unfold running in Hgo. apply andb_prop in Hgo. destruct Hgo as (Hgo & _).
    apply andb_prop in Hgo. destruct Hgo as (Hgo & _). apply Z.ltb_lt in Hgo. lia.
  - destruct (loopBody noCallbacks s) as [[[] s1]|] eqn:Hbody; [|discriminate].
    assert (Hb := Hbody). unfold loopBody in Hb.
    destruct (bind_inv _ _ _ _ _ Hb) as ([] & c1 & Hci & _).
    destruct (loopBody_accounted cycles s c1 s1 Hmax Hacc Hgo Hci Hbody)
      as (_ & Hacc1 & _ & Hdec).
    apply IH; [exact Hacc1|].
    unfold running in Hgo. apply andb_prop in Hgo. destruct Hgo as (Hgo & _).
    apply andb_prop in Hgo. destruct Hgo as (Hgo & _). apply Z.ltb_lt in Hgo. lia.
Qed.

(** ** The data registers during [Execute] *)

Lemma keeps_d_handleInterrupt (cb : Callbacks) (level : Z) :
  keeps d (handleInterrupt cb level).
Proof.
  unfold handleInterrupt. cbv zeta.
  apply keeps_bind; [keeps_tac|]. intros oldSR.
  apply keeps_bind; [keeps_tac|]. intros _.
  apply keeps_bind; [keeps_tac|]. intros _.
  apply keeps_bind; [keeps_tac|]. intros p.
  apply keeps_bind; [apply keeps_pushLong; reflexivity|]. intros _.
  apply keeps_bind; [apply keeps_pushWord; reflexivity|]. intros _.
  apply keeps_bind; [keeps_tac|]. intros ty.
  apply keeps_bind; [keeps_tac|]. intros base.
  apply keeps_bind; [apply keeps_memRead|]. intros newpc.
  apply keeps_bind; [keeps_tac|]. intros _.
  apply keeps_useCycles; reflexivity.
Qed.

Lemma keeps_d_loopBody : keeps d (loopBody noCallbacks).
Proof.
  unfold loopBody. cbn [instrHookCallback noCallbacks].
  apply keeps_bind.
  { unfold checkInterrupts.
    apply keeps_bind; [keeps_tac|]. intros lvl.
    destruct (lvl =? 0); [apply keeps_ret|].
    apply keeps_bind; [keeps_tac|]. intros s.
    destruct ((lvl =? 7) || _); [apply keeps_d_handleInterrupt | apply keeps_ret]. }
  intros _. apply keeps_bind; [keeps_tac|]. intros _.
  apply keeps_bind; [keeps_tac|]. intros _.
  unfold executeInstruction. cbn [resetCallback noCallbacks].
  apply keeps_bind; [keeps_tac|]. intros p.
  apply keeps_bind; [apply keeps_memRead|]. intros w.
  apply keeps_bind; [keeps_tac|]. intros _.
  apply keeps_bind; [keeps_tac|]. intros _.
  apply keeps_bind; [apply keeps_useCycles; reflexivity|]. intros _.
  apply keeps_bind; [keeps_tac|]. intros w'.
  rewrite instruction_switch. apply keeps_ret.
Qed.

(** Without callbacks, [Execute] returns with the data registers it was
    given, whatever the budget and whatever the memory holds: the loop
    fetches opcodes and never decodes them. *)
Lemma Execute_keeps_d (fuel : nat) (cycles r : Z) (cpu cpu' : CPU) :
  Execute fuel noCallbacks cycles cpu = Returned r cpu' -> d cpu' = d cpu.
Proof.
  unfold Execute. destruct (memory cpu).
  - destruct (executeLoop fuel noCallbacks _) as [u c| |] eqn:Hloop; try discriminate.
    intros Hr. inversion Hr; subst. clear Hr.
    transitivity (d (set_cyclesRun 0 (set_cyclesRemain cycles cpu)));
      [|destruct cpu; reflexivity].
    revert Hloop. generalize (set_cyclesRun 0 (set_cyclesRemain cycles cpu)).
    induction fuel as [|fuel IH]; intros s; cbn [executeLoop];
      destruct (running s); try discriminate.
    + intros Hr. inversion Hr. reflexivity.
    + destruct (loopBody noCallbacks s) as [[[] s1]|] eqn:Hbody; [|discriminate].
      intros Hr. rewrite (IH s1 Hr). apply (keeps_d_loopBody s tt s1 Hbody).
    + intros Hr. inversion Hr. reflexivity.
  - intros Hr. inversion Hr. reflexivity.
Qed.

(** C10 (amended). On a CPU with a memory handler and no callbacks, for a
    budget [cycles] of at most [maxInt - 47]:
    at every evaluation of the loop condition of [Execute(cycles)],
    [cyclesRun + cyclesRemain = cycles]; in every pass through the loop
    the same holds after [checkInterrupts] (which charges 44 cycles when
    it takes an interrupt) and after [executeInstruction] (which charges
    4), and [cyclesRun] does not decrease from one of these states to the
    next; when [Execute] returns, its value is [cyclesRun], equal to
    [cycles] minus the final [cyclesRemain]; and with fuel for [cycles]
    passes [Execute] does not run out of fuel. *)
Theorem cycle_accounting (cpu0 : CPU) (cycles : Z) (h : H) :
  memory cpu0 = Some h ->
  minInt <= cycles <= maxInt - 47 ->
  (forall s, loopHead noCallbacks cycles cpu0 s ->
     cyclesRun s + cyclesRemain s = cycles /\ 0 <= cyclesRun s) /\
  (forall s s1 s2,
     loopHead noCallbacks cycles cpu0 s ->
     running s = true ->
     checkInterrupts noCallbacks s = Some (tt, s1) ->
     loopBody noCallbacks s = Some (tt, s2) ->
     cyclesRun s1 + cyclesRemain s1 = cycles /\
     cyclesRun s2 + cyclesRemain s2 = cycles /\
     cyclesRun s <= cyclesRun s1 < cyclesRun s2) /\
  (forall fuel r cpu',
     Execute fuel noCallbacks cycles cpu0 = Returned r cpu' ->
     r = cyclesRun cpu' /\ r = cycles - cyclesRemain cpu' /\ 0 <= r) /\
  (forall fuel,
     (Z.to_nat cycles <= fuel)%nat ->
     Execute fuel noCallbacks cycles cpu0 <> OutOfFuel).
Proof.
  intros Hmem Hc.
  assert (Hmax : cycles <= maxInt - 47) by lia.
  split; [|split; [|split]].
  - intros s Hs. destruct (loopHead_accounted cpu0 cycles s Hc Hs) as (H1 & H2 & _).
    split; assumption.
  - intros s s1 s2 Hs Hgo Hci Hbody.
    assert (Hacc := loopHead_accounted cpu0 cycles s Hc Hs).
    destruct (loopBody_accounted cycles s s1 s2 Hmax Hacc Hgo Hci Hbody)
      as (H1 & (H2 & _) & H3 & _).
    repeat split; try assumption; lia.
  - intros fuel r cpu'. unfold Execute. rewrite Hmem.
    destruct (executeLoop fuel noCallbacks _) as [u c|  |] eqn:Hloop; try discriminate.
    intros Hr. inversion Hr; subst.
    destruct (executeLoop_returns cpu0 cycles fuel _ _ u (head_first _ _ _) Hloop)
      as (Hhead & _).
    destruct (loopHead_accounted cpu0 cycles cpu' Hc Hhead) as (H1 & H2 & _).
    repeat split; lia.
  - intros fuel Hfuel. unfold Execute. rewrite Hmem.
    assert (Hne : executeLoop fuel noCallbacks
                    (set_cyclesRun 0 (set_cyclesRemain cycles cpu0)) <> OutOfFuel).
    { apply (executeLoop_enough_fuel cycles); [exact Hmax | |].
      - unfold accounted. destruct cpu0.
        cbn [cyclesRun cyclesRemain set_cyclesRun set_cyclesRemain]. lia.
      - destruct cpu0.
        cbn [cyclesRun cyclesRemain set_cyclesRun set_cyclesRemain]. exact Hfuel. }
    destruct (executeLoop fuel noCallbacks _); [discriminate | discriminate | ].
    exfalso. apply Hne. reflexivity.
Qed.

End Properties.

(** C3, as stated, fails: a write of SR that takes the CPU from user to
    supervisor mode does not copy [a[7]] into [usp]. *)
Lemma SetSR_no_write_back :
  exists cpu',
    SetSR 0x2000 userCPU = Some (tt, cpu') /\
    Z.testbit (sr userCPU) 13 = false /\
    Z.testbit (sr cpu') 13 = true /\
    index (a userCPU) 7 = Some 0x2000 /\
    usp cpu' = 0x1000 /\
    Some (usp cpu') <> index (a userCPU) 7.
Proof.
  eexists. repeat split. discriminate.
Qed.

Lemma setFlagsLogical_flags_witness :
  exists cpu',
    setFlagsLogical 0x80 8 bareCPU = Some (tt, cpu') /\
    Z.testbit (sr cpu') 1 = false /\
    Z.testbit (sr cpu') 0 = false /\
    Z.testbit (sr cpu') 3 = Z.testbit 0x80 (8 - 1) /\
    Z.testbit (sr cpu') 2 = (0x80 mod 2 ^ 8 =? 0) /\
    Z.testbit (sr cpu') 4 = Z.testbit (sr bareCPU) 4 /\
    (forall i, 4 <= i -> Z.testbit (sr cpu') i = Z.testbit (sr bareCPU) i) /\
    set_sr (sr bareCPU) cpu' = bareCPU.
Proof.
  apply (setFlagsLogical_flags bareCPU 0x80 8).
  - left. reflexivity.
  - split; [discriminate | reflexivity].
Defined.

Lemma testCondition_complementary_witness :
  exists b, testCondition CondGE bareCPU = Some (b, bareCPU) /\
            testCondition CondLT bareCPU = Some (negb b, bareCPU).
Proof.
  apply (testCondition_complementary bareCPU CondGE CondLT).
  cbn. do 6 right. left. reflexivity.
Defined.

Lemma nil_memory_execute_reset_witness :
  Execute 5 noCallbacks 1000 bareCPU = Returned 0 bareCPU /\
  exists cpu',
    Reset bareCPU = Some (tt, cpu') /\
    index (a cpu') 7 = Some 0 /\
    pc cpu' = 0 /\
    cpu' = mkCPU (cpuType bareCPU) (fill8 0) (fill8 0) 0 0x2700 0 0 0 0 0 0 0 0 false
             false 0 0 0 (virq bareCPU) 0 0 0 0 None.
Proof.
  apply (nil_memory_execute_reset bareCPU 5 noCallbacks 1000).
  reflexivity.
Defined.

(** C5, on the code.  Adding the bytes 0x80 and 0x80 gives 0x100: the
    formulas of the claim give V = 1 (both operands negative, result
    positive) and C = 1 (carry out of bit 7).  [setFlagsAdd] leaves
    SR = 0x14: X and Z set, V and C clear.  Subtracting 0x80 from 0x00
    gives 0xFFFFFF80: the formulas give V = 1 and C = 1 (borrow);
    [setFlagsSub] leaves SR = 0x18: X and N set, V and C clear.  In both
    X is 1 and C is 0. *)
Theorem arithmetic_flags_V_C_lost :
  let sign8 (x : Z) := Z.testbit x 7 in
  (* the claim's V and C for 0x80 + 0x80 = 0x100 *)
  (sign8 0x80 && sign8 0x80 && negb (sign8 0x100)
   || negb (sign8 0x80) && negb (sign8 0x80) && sign8 0x100) = true /\
  Z.testbit (0x80 + 0x80) 8 = true /\
  (exists cpu', setFlagsAdd 0x80 0x80 0x100 8 bareCPU = Some (tt, cpu') /\
                sr cpu' = 0x14 /\
                Z.testbit (sr cpu') 0 = false /\ Z.testbit (sr cpu') 1 = false /\
                Z.testbit (sr cpu') 4 = true) /\
  (* the claim's V and C for 0x00 - 0x80 = 0xFFFFFF80 *)
  (negb (sign8 0x80) && sign8 0x00 && negb (sign8 0xFFFFFF80)
   || sign8 0x80 && negb (sign8 0x00) && sign8 0xFFFFFF80) = true /\
  (0x00 <? 0x80) = true /\
  (exists cpu', setFlagsSub 0x00 0x80 0xFFFFFF80 8 bareCPU = Some (tt, cpu') /\
                sr cpu' = 0x18 /\
                Z.testbit (sr cpu') 0 = false /\ Z.testbit (sr cpu') 1 = false /\
                Z.testbit (sr cpu') 4 = true).
Proof.
  cbv zeta.
  split; [reflexivity|]. split; [reflexivity|].
  split; [eexists; (split; [vm_compute; reflexivity|]); repeat split|].
  split; [reflexivity|]. split; [reflexivity|].
  eexists; (split; [vm_compute; reflexivity|]); repeat split.
Qed.

(** C1, on the code.  After [Reset] (SSP = 0x1000, PC = 0x400) a call
    [Execute(10)], the call of the MOVEQ test, returns 12 with
    [d[0]] = 0: [executeInstruction] fetched the word 0x7042 and two
    more words, charged four cycles for each and decoded none of them.
    N, Z, V and C are 0 because SR is still the 0x2700 of the reset.
    [decodeMOVEQ], which nothing calls, would have written 0x42.  The
    width of [int] plays no part. *)
Theorem moveq_fetched_not_executed (IS : IntSize) :
  exists cpu1 cpu2,
    Reset (programCPU 0x7042) = Some (tt, cpu1) /\
    index (a cpu1) 7 = Some 0x1000 /\
    pc cpu1 = 0x400 /\
    Execute 3 noCallbacks 10 cpu1 = Returned 12 cpu2 /\
    index (d cpu2) 0 = Some 0 /\
    pc cpu2 = 0x406 /\
    sr cpu2 = 0x2700 /\
    (exists cpu3, decodeMOVEQ 0x7042 cpu1 = Some (tt, cpu3) /\
                  index (d cpu3) 0 = Some 0x42 /\
                  Z.land (sr cpu3) 0x0F = 0).
Proof.
  destruct IS as [w [-> | ->]];
  do 2 eexists;
  (split; [vm_compute; reflexivity|]);
  (split; [reflexivity|]);
  (split; [reflexivity|]);
  (split; [vm_compute; reflexivity|]);
  (split; [reflexivity|]);
  (split; [reflexivity|]);
  (split; [reflexivity|]);
  eexists; (split; [vm_compute; reflexivity|]);
  split; reflexivity.
Qed.


(** C2, as stated, fails: the trace bit is not cleared.  A level 1
    interrupt taken with SR = 0x8000 leaves SR = 0xA100. *)
Lemma interrupt_keeps_trace_bit :
  exists cpu',
    handleInterrupt noCallbacks 1 irqCPU = Some (tt, cpu') /\
    Z.testbit (sr irqCPU) 15 = true /\
    sr cpu' = 0xA100 /\
    Z.testbit (sr cpu') 15 = true /\
    pc cpu' = 0x500.
Proof.
  eexists. split; [vm_compute; reflexivity|]. repeat split.
Qed.

Lemma handleInterrupt_effect_witness :
  exists cpu',
    handleInterrupt (mkCallbacks (Some (fun _ => 0x19)) None None) 1 irqCPU =
      Some (tt, cpu') /\
    Z.testbit (sr cpu') 13 = true /\
    Z.land (Z.shiftr (sr cpu') 8) 7 = 1 /\
    Z.testbit (sr cpu') 15 = Z.testbit (sr irqCPU) 15 /\
    (forall i, 0 <= i < 16 -> i <> 8 -> i <> 9 -> i <> 10 -> i <> 13 ->
               Z.testbit (sr cpu') i = Z.testbit (sr irqCPU) i) /\
    memory cpu' = Some irqMemory2 /\
    index (a cpu') 7 = Some (uint32 (0x1000 - 6)) /\
    pc cpu' = 0x500.
Proof.
  apply (handleInterrupt_effect (mkCallbacks (Some (fun _ => 0x19)) None None)
           irqCPU 1 irqMemory irqMemory1 irqMemory2 0x500).
  - reflexivity.
  - lia.
  - vm_compute. reflexivity.
  - vm_compute. reflexivity.
  - vm_compute. reflexivity.
Defined.

(** ** The counters at the edge of [int] *)

(** On the zero-filled SimpleMemory every fetch at an even address is in
    range and returns 0. *)
Lemma read16_idle (k : Z) :
  SimpleMemory.Read16 SimpleMemory.empty (uint32 (2 * k)) = Some 0.
Proof.
  unfold SimpleMemory.Read16, SimpleMemory.get, SimpleMemory.empty, SimpleMemory.size.
  cbv zeta. change 0xFFFFF with (Z.ones 20). rewrite Z.land_ones by lia.
  unfold uint32. change (2 ^ 32) with (2 * 2 ^ 31). rewrite Z.mul_mod_distr_l by lia.
  change (2 ^ 20) with (2 * 2 ^ 19). rewrite Z.mul_mod_distr_l by lia.
  assert (Hb := Z.mod_pos_bound (k mod 2 ^ 31) (2 ^ 19) ltac:(lia)).
  change (1024 * 1024) with (2 * 2 ^ 19).
  replace (0 <=? 2 * ((k mod 2 ^ 31) mod 2 ^ 19)) with true
    by (symmetry; apply Z.leb_le; lia).
  replace (2 * ((k mod 2 ^ 31) mod 2 ^ 19) <? 2 * 2 ^ 19) with true
    by (symmetry; apply Z.ltb_lt; lia).
  replace (0 <=? 2 * ((k mod 2 ^ 31) mod 2 ^ 19) + 1) with true
    by (symmetry; apply Z.leb_le; lia).
  replace (2 * ((k mod 2 ^ 31) mod 2 ^ 19) + 1 <? 2 * 2 ^ 19) with true
    by (symmetry; apply Z.ltb_lt; lia).
  reflexivity.
Qed.

(** One pass of the loop takes [spin k] to [spin (k + 1)] as long as the
    counters stay inside [int]. *)
Lemma spin_step {IS : IntSize} (k : Z) :
  0 <= k -> 4 * (k + 1) <= maxInt ->
  loopBody noCallbacks (spin k) = Some (tt, spin (k + 1)).
Proof.
  intros Hk Hmax. assert (Hlarge := maxInt_large). assert (Hmin := minInt_maxInt).
  unfold spin, noCallbacks. run.
  change (0 =? 0) with true. run.
  change (@Read16 _ SimpleMemory_handler) with SimpleMemory.Read16.
  rewrite read16_idle. run.
  assert (Epc : uint32 (uint32 (2 * k) + 2) = uint32 (2 * (k + 1))).
  { unfold uint32. rewrite Zplus_mod_idemp_l. f_equal. lia. }
  assert (Erun : int (4 * k + 4) = 4 * (k + 1)).
  { rewrite int_small; [lia|]. lia. }
  assert (Erem : int (maxInt - 4 * k - 4) = maxInt - 4 * (k + 1)).
  { rewrite int_small; [lia|]. lia. }
  assert (Eppc : uint32 (2 * k) = if k + 1 =? 0 then 0 else uint32 (2 * (k + 1 - 1))).
  { destruct (Z.eqb_spec (k + 1) 0); [lia|]. f_equal. lia. }
  rewrite Epc, Erun, Erem, <- Eppc. reflexivity.
Qed.

Lemma spin_reached {IS : IntSize} (k : Z) :
  0 <= k -> 4 * k <= maxInt - 3 -> loopHead noCallbacks maxInt idleCPU (spin k).
Proof.
  intros Hk. pattern k. apply natlike_ind; [| |exact Hk]; clear k Hk.
  - intros _.
    assert (E : spin 0 = set_cyclesRun 0 (set_cyclesRemain maxInt idleCPU)).
    { unfold spin. change (2 * 0) with 0. change (4 * 0) with 0.
      change (uint32 0) with 0. rewrite Z.sub_0_r. reflexivity. }
    rewrite E. apply head_first.
  - intros k Hk IH Hmax. unfold Z.succ.
    apply (head_next _ _ _ (spin k)).
    + apply IH. lia.
    + unfold running, spin. cbn [cyclesRemain stopped halted negb andb].
      rewrite !andb_true_r. apply Z.ltb_lt. lia.
    + apply spin_step; lia.
Qed.

(** On either width, [Execute(maxInt)] on the idle CPU reaches the loop
    condition with [cyclesRun = maxInt - 3] and [cyclesRemain = 3]; the
    next pass wraps [cyclesRun] to [minInt]. *)
Lemma spin_wraps {IS : IntSize} :
  exists s s',
    loopHead noCallbacks maxInt idleCPU s /\
    running s = true /\
    loopBody noCallbacks s = Some (tt, s') /\
    cyclesRun s = maxInt - 3 /\
    cyclesRun s' = minInt /\
    cyclesRun s' < cyclesRun s /\
    cyclesRun s' + cyclesRemain s' <> maxInt.
Proof.
  assert (Hk : 0 <= 2 ^ (intBits - 3) - 1 /\ 4 * (2 ^ (intBits - 3) - 1) <= maxInt - 3).
  { unfold maxInt. destruct intBits_32_or_64 as [-> | ->]; cbn; lia. }
  destruct Hk as (Hk0 & Hk1).
  assert (Hhead := spin_reached _ Hk0 Hk1). clear Hk0 Hk1.
  destruct IS as [w [-> | ->]];
    (eexists; eexists; split; [exact Hhead|]; clear Hhead;
     (split; [vm_compute; reflexivity|]);
     (split; [vm_compute; reflexivity|]);
     (split; [vm_compute; reflexivity|]);
     (split; [vm_compute; reflexivity|]);
     (split; [vm_compute; reflexivity|]);
     vm_compute; discriminate).
Qed.

(** C10, as stated, fails for a budget of [maxInt] cycles, with an [int]
    of 32 bits as with one of 64 bits.  On 32 bits: after 2^29 - 1 passes
    the CPU is at the loop condition with [cyclesRun] = 2^31 - 4 and
    [cyclesRemain] = 3; the next [useCycles(4)] wraps [cyclesRun] to
    -2^31, so [cyclesRun] has decreased and [cyclesRun + cyclesRemain] is
    no longer the budget.  On 64 bits the same happens after 2^61 - 1
    passes. *)
Lemma cyclesRun_wraps :
  (exists s s',
     @loopHead _ _ int32 noCallbacks 2147483647 idleCPU s /\
     running s = true /\
     @loopBody _ _ int32 noCallbacks s = Some (tt, s') /\
     cyclesRun s = 2147483644 /\
     cyclesRun s' = -2147483648 /\
     cyclesRun s' < cyclesRun s /\
     cyclesRun s' + cyclesRemain s' <> 2147483647) /\
  (exists s s',
     @loopHead _ _ int64 noCallbacks 9223372036854775807 idleCPU s /\
     running s = true /\
     @loopBody _ _ int64 noCallbacks s = Some (tt, s') /\
     cyclesRun s = 9223372036854775804 /\
     cyclesRun s' = -9223372036854775808 /\
     cyclesRun s' < cyclesRun s /\
     cyclesRun s' + cyclesRemain s' <> 9223372036854775807).
Proof.
  split.
  - exact (@spin_wraps int32).
  - exact (@spin_wraps int64).
Qed.

Lemma autoincrement_access_witness :
  exists addr up down,
    index (a (resetCPU 0x7042)) 7 = Some addr /\
    store (a (resetCPU 0x7042)) 7 (uint32 (addr + 2)) = Some up /\
    index up 7 = Some (uint32 (addr + 2)) /\
    store (a (resetCPU 0x7042)) 7 (uint32 (addr - 2)) = Some down /\
    index down 7 = Some (uint32 (addr - 2)) /\
    readEA 3 7 8 (resetCPU 0x7042) =
      match readMem addr 8 (resetCPU 0x7042) with
      | Some (v, _) => Some (v, set_a up (resetCPU 0x7042))
      | None => None
      end /\
    readEA 4 7 8 (resetCPU 0x7042) =
      match readMem (uint32 (addr - 2)) 8 (set_a down (resetCPU 0x7042)) with
      | Some (v, _) => Some (v, set_a down (resetCPU 0x7042))
      | None => None
      end /\
    writeEA 3 7 8 0xAB (resetCPU 0x7042) =
      match writeMem addr (maskValue 0xAB 8) 8 (resetCPU 0x7042) with
      | Some (_, cpu1) => Some (tt, set_a up cpu1)
      | None => None
      end /\
    writeEA 4 7 8 0xAB (resetCPU 0x7042) =
      writeMem (uint32 (addr - 2)) (maskValue 0xAB 8) 8 (set_a down (resetCPU 0x7042)).
Proof.
  apply (autoincrement_access (resetCPU 0x7042) 7 8 0xAB).
  - lia.
  - left. reflexivity.
Defined.

Lemma cycle_accounting_witness :
  (forall s, loopHead noCallbacks 10 (resetCPU 0x7042) s ->
     cyclesRun s + cyclesRemain s = 10 /\ 0 <= cyclesRun s) /\
  (forall s s1 s2,
     loopHead noCallbacks 10 (resetCPU 0x7042) s ->
     running s = true ->
     checkInterrupts noCallbacks s = Some (tt, s1) ->
     loopBody noCallbacks s = Some (tt, s2) ->
     cyclesRun s1 + cyclesRemain s1 = 10 /\
     cyclesRun s2 + cyclesRemain s2 = 10 /\
     cyclesRun s <= cyclesRun s1 < cyclesRun s2) /\
  (forall fuel r cpu',
     Execute fuel noCallbacks 10 (resetCPU 0x7042) = Returned r cpu' ->
     r = cyclesRun cpu' /\ r = 10 - cyclesRemain cpu' /\ 0 <= r) /\
  (forall fuel,
     (Z.to_nat 10 <= fuel)%nat ->
     Execute fuel noCallbacks 10 (resetCPU 0x7042) <> OutOfFuel).
Proof.
  apply (cycle_accounting (resetCPU 0x7042) 10
           (force (programMemory 0x7042) SimpleMemory.empty)).
  - vm_compute. reflexivity.
  - vm_compute. split; discriminate.
Defined.

(** * Further properties *)

Section SurfaceProperties.

Context {H : Type} {MH : MemoryHandler H} {IS : IntSize}.

Local Abbreviation CPU := (@CPU H).

(** ** Virtual interrupt lines *)

(** The scan of [SetVIRQ] stops at the highest active line, and leaves
    [irqLevel] alone when no line is active. *)
Lemma scanVIRQ_highest (cpu : CPU) :
  (scanVIRQ 7 cpu = Some (tt, cpu) /\
   forall i, 1 <= i <= 7 -> index (virq cpu) i = Some false) \/
  (exists l, 1 <= l <= 7 /\
     scanVIRQ 7 cpu = Some (tt, set_irqLevel l cpu) /\
     index (virq cpu) l = Some true /\
     forall i, l < i <= 7 -> index (virq cpu) i = Some false).
Proof.
  destruct cpu as [ty rd ra pc0 sr0 usp0 isp0 msp0 sfc0 dfc0 vbr0 cacr0 caar0
                   st hl cr cm irq vq pa pd ppc0 ir0 mem].
  destruct vq as [v0 v1 v2 v3 v4 v5 v6 v7].
  assert (Hcase : forall i, 1 <= i <= 7 ->
            i = 1 \/ i = 2 \/ i = 3 \/ i = 4 \/ i = 5 \/ i = 6 \/ i = 7) by (intros; lia).
  destruct v7; [right; exists 7 | destruct v6; [right; exists 6 |
  destruct v5; [right; exists 5 | destruct v4; [right; exists 4 |
  destruct v3; [right; exists 3 | destruct v2; [right; exists 2 |
  destruct v1; [right; exists 1 | left]]]]]]];
    try (split; [lia|]); (split; [reflexivity|]); try (split; [reflexivity|]);
    intros i Hi;
    destruct (Hcase i ltac:(lia)) as [-> | [-> | [-> | [-> | [-> | [-> | ->]]]]]];
    try reflexivity; lia.
Qed.

(** X1. [SetVIRQ] on a line 1..7 records the new state of the line and
    sets [irqLevel] to the highest line that is then active, or to 0 when
    none is; nothing else changes, and [GetVIRQ] returns the state just
    written. *)
Theorem SetVIRQ_selects_highest (cpu : CPU) (level : Z) (active : bool) :
  1 <= level <= 7 ->
  exists cpu' lines,
    SetVIRQ level active cpu = Some (tt, cpu') /\
    store (virq cpu) level active = Some lines /\
    virq cpu' = lines /\
    ((irqLevel cpu' = 0 /\ forall i, 1 <= i <= 7 -> index lines i = Some false) \/
     (1 <= irqLevel cpu' <= 7 /\
      index lines (irqLevel cpu') = Some true /\
      forall i, irqLevel cpu' < i <= 7 -> index lines i = Some false)) /\
    GetVIRQ level cpu' = Some (active, cpu') /\
    set_irqLevel (irqLevel cpu) (set_virq (virq cpu) cpu') = cpu.
Proof.
  intros Hl.
  assert (Hrange : (level <? 1) || (7 <? level) = false).
  { apply orb_false_intro; [apply Z.ltb_ge | apply Z.ltb_ge]; lia. }
  assert (Hstore : exists lines, store (virq cpu) level active = Some lines /\
                                 index lines level = Some active).
  { assert (Hc : level = 1 \/ level = 2 \/ level = 3 \/ level = 4 \/
                 level = 5 \/ level = 6 \/ level = 7) by lia.
    destruct Hc as [-> | [-> | [-> | [-> | [-> | [-> | ->]]]]]];
      eexists; split; reflexivity. }
  destruct Hstore as (lines & Hstore & Hidx).
  set (c1 := set_irqLevel 0 (set_virq lines cpu)).
  assert (Hpre : forall k : @M H unit,
            bind (setVirq level active)
                 (fun _ => bind (modify (set_irqLevel 0)) (fun _ => k)) cpu = k c1).
  { intros k. unfold setVirq, bind, gets, modify, lift. rewrite Hstore. reflexivity. }
  unfold SetVIRQ, GetVIRQ. rewrite Hrange, Hpre.
  assert (Hv1 : virq c1 = lines) by (destruct cpu; reflexivity).
  assert (Hback : forall l, set_irqLevel (irqLevel cpu)
                              (set_virq (virq cpu) (set_irqLevel l c1)) = cpu)
    by (intros; destruct cpu; reflexivity).
  assert (Hback0 : set_irqLevel (irqLevel cpu) (set_virq (virq cpu) c1) = cpu)
    by (destruct cpu; reflexivity).
  destruct (scanVIRQ_highest c1) as [(Hrun & Hnone) | (l & Hl7 & Hrun & Hon & Hoff)].
  - exists c1, lines. rewrite Hrun, Hv1 in *.
    split; [reflexivity|]. split; [exact Hstore|]. split; [reflexivity|].
    split; [left; split; [destruct cpu; reflexivity | exact Hnone]|].
    split; [|exact Hback0].
    unfold getVirq, bind, gets, lift. rewrite Hv1, Hidx. reflexivity.
  - exists (set_irqLevel l c1), lines. rewrite Hrun.
    assert (Hv2 : virq (set_irqLevel l c1) = lines) by (destruct cpu; reflexivity).
    assert (Hl2 : irqLevel (set_irqLevel l c1) = l) by (destruct cpu; reflexivity).
    rewrite Hv1 in *. rewrite Hl2.
    split; [reflexivity|]. split; [exact Hstore|]. split; [exact Hv2|].
    split; [right; split; [exact Hl7 | split; assumption]|].
    split; [|apply Hback].
    unfold getVirq, bind, gets, lift. rewrite Hv2, Hidx. reflexivity.
Qed.


(** ** Interrupts at the next instruction boundary *)

Ltac keeps_more :=
  repeat first
    [ apply keeps_ret | apply keeps_panic | apply keeps_gets | apply keeps_lift
    | apply keeps_memRead | apply keeps_getA
    | apply keeps_modify; intros; reflexivity
    | apply keeps_setA; intros; reflexivity
    | apply keeps_memWrite; intros; reflexivity
    | apply keeps_useCycles; intros; reflexivity
    | apply keeps_pushLong; intros; reflexivity
    | apply keeps_pushWord; intros; reflexivity
    | apply keeps_bind; [|intros ?]
    | match goal with
      | |- keeps _ (match ?x with _ => _ end) => destruct x
      | |- keeps _ (if ?b then _ else _) => destruct b
      end ].

Lemma keeps_irqLevel_handleInterrupt (cb : Callbacks) (level : Z) :
  keeps irqLevel (handleInterrupt cb level).
Proof. unfold handleInterrupt. cbv zeta. keeps_more. Qed.

(** The status register after [handleInterrupt]. *)
Lemma handleInterrupt_sr (cb : Callbacks) (level : Z) (cpu cpu' : CPU) :
  handleInterrupt cb level cpu = Some (tt, cpu') ->
  sr cpu' = Z.lor (Z.land (Z.lor (sr cpu) 0x2000) 0xF8FF) (uint16 (Z.shiftl level 8)).
Proof.
  unfold handleInterrupt. cbv zeta. intros Hr.
  destruct (bind_inv _ _ _ _ _ Hr) as (oldSR & c1 & E1 & Hr1). clear Hr.
  inversion E1; subst oldSR c1. clear E1.
  destruct (bind_inv _ _ _ _ _ Hr1) as ([] & c2 & E2 & Hr2). clear Hr1.
  inversion E2; subst c2. clear E2.
  destruct (bind_inv _ _ _ _ _ Hr2) as ([] & c3 & E3 & Hr3). clear Hr2.
  inversion E3; subst c3. clear E3.
  assert (K : forall c, keeps sr
            (bind (gets pc) (fun p => bind (pushLong p) (fun _ =>
             bind (pushWord (sr cpu)) (fun _ =>
             bind (gets cpuType) (fun ty => bind (gets vbr) (fun base =>
             bind (memRead Read32 (c ty base)) (fun newpc =>
             bind (modify (set_pc newpc)) (fun _ => useCycles 44)))))))))
    by (intros; keeps_more).
  apply K in Hr3. rewrite Hr3. destruct cpu; reflexivity.
Qed.

(** X2. An interrupt below level 7 is taken once: after
    [handleInterrupt] the mask equals the level, and since [irqLevel]
    is left as it was, the next [checkInterrupts] does nothing.  A level
    7 interrupt is taken again at the next instruction boundary. *)
Theorem interrupt_stays_pending (cb : Callbacks) (cpu cpu' : CPU) (level : Z) :
  1 <= level <= 7 ->
  irqLevel cpu = level ->
  handleInterrupt cb level cpu = Some (tt, cpu') ->
  irqLevel cpu' = level /\
  (level <= 6 -> checkInterrupts cb cpu' = Some (tt, cpu')) /\
  (level = 7 -> checkInterrupts cb cpu' = handleInterrupt cb 7 cpu').
Proof.
  intros Hl Hirq Hr.
  assert (Hk := keeps_irqLevel_handleInterrupt cb level cpu tt cpu' Hr).
  assert (Hsr := handleInterrupt_sr cb level cpu cpu' Hr).
  destruct (interrupt_sr_bits (sr cpu) level Hl) as (_ & Hmask & _).
  cbv zeta in Hmask. rewrite <- Hsr in Hmask.
  rewrite Hirq in Hk.
  split; [exact Hk|].
  assert (H0 : (level =? 0) = false) by (apply Z.eqb_neq; lia).
  assert (Hu : uint8 level = level)
    by (unfold uint8; apply Z.mod_small; change (2 ^ 8) with 256; lia).
  unfold checkInterrupts, bind, gets. cbv beta iota. rewrite Hk, H0.
  cbv beta iota. rewrite Hmask.
  rewrite Hu, Z.ltb_irrefl, orb_false_r.
  split.
  - intros H6. assert (H7 : (level =? 7) = false) by (apply Z.eqb_neq; lia).
    rewrite H7. reflexivity.
  - intros ->. reflexivity.
Qed.

(** ** Reset *)

(** X3. A second [Reset] right after a first one changes nothing; the
    first one keeps the memory handler, the CPU type and the virtual IRQ
    lines, and leaves [irqLevel] = 0, SR = 0x2700 and [ppc] = [pc]. *)
Theorem Reset_idempotent (cpu cpu' : CPU) :
  Reset cpu = Some (tt, cpu') ->
  Reset cpu' = Some (tt, cpu') /\
  memory cpu' = memory cpu /\ cpuType cpu' = cpuType cpu /\ virq cpu' = virq cpu /\
  irqLevel cpu' = 0 /\ sr cpu' = 0x2700 /\ ppc cpu' = pc cpu'.
Proof.
  destruct cpu as [ty rd ra pc0 sr0 usp0 isp0 msp0 sfc0 dfc0 vbr0 cacr0 caar0
                   st hl cr cm irq vq pa pd ppc0 ir0 mem].
  unfold Reset.
  cbv [bind ret gets modify lift panic memRead setA index store fill8
       set_cpuType set_d set_a set_pc set_sr set_usp set_isp set_msp set_sfc set_dfc
       set_vbr set_cacr set_caar set_stopped set_halted set_cyclesRun set_cyclesRemain
       set_irqLevel set_virq set_prefetchAddr set_prefetchData set_ppc set_ir set_memory
       cpuType d a pc sr usp isp msp sfc dfc vbr cacr caar stopped halted cyclesRun
       cyclesRemain irqLevel virq prefetchAddr prefetchData ppc ir memory
       e0 e1 e2 e3 e4 e5 e6 e7].
  destruct mem as [h|].
  - destruct (Read32 h 0) as [ssp|] eqn:E0; [|discriminate].
    destruct (Read32 h 4) as [newpc|] eqn:E4; [|discriminate].
    intros Hr. inversion Hr; subst. clear Hr.
    rewrite E0, E4. repeat split.
  - intros Hr. inversion Hr; subst. clear Hr. repeat split.
Qed.


(** ** Registers by identifier *)

(** X4. [SetRegister] followed by [GetRegister] on the same identifier
    returns the value written, cut to 16 bits for SR and to 8 bits for
    SFC and DFC, for the identifiers D0..A7, PC, SR, USP, ISP, MSP, SFC,
    DFC, VBR, CACR and CAAR.  For every other identifier, [RegSP] among
    them, [SetRegister] changes nothing. *)
Theorem SetRegister_GetRegister (cpu : CPU) (reg value : Z) :
  exists cpu',
    SetRegister reg value cpu = Some (tt, cpu') /\
    if (0 <=? reg) && (reg <=? RegCAAR) && negb (reg =? RegSP)
    then GetRegister reg cpu' =
         Some ((if reg =? RegSR then uint16 value
                else if (reg =? RegSFC) || (reg =? RegDFC) then uint8 value
                else value), cpu')
    else cpu' = cpu.
Proof.
  destruct reg as [|p|p];
    [ eexists; split; reflexivity
    | do 5 (try destruct p as [p|p|]); eexists; split; reflexivity
    | eexists; split; reflexivity ].
Qed.

(** ** The stack pointer *)

(** X5. [GetSP] after [SetSP v] returns [v].  In supervisor mode [SetSP]
    writes [a[7]] and keeps [usp] and the other address registers; in
    user mode it writes [usp] and keeps all of [a]. *)
Theorem SetSP_GetSP (cpu : CPU) (v : Z) :
  exists cpu',
    SetSP v cpu = Some (tt, cpu') /\
    GetSP cpu' = Some (v, cpu') /\
    sr cpu' = sr cpu /\
    if Z.testbit (sr cpu) 13
    then usp cpu' = usp cpu /\ index (a cpu') 7 = Some v /\
         forall i, i <> 7 -> index (a cpu') i = index (a cpu) i
    else usp cpu' = v /\ a cpu' = a cpu.
Proof.
  unfold SetSP, GetSP, bind, gets. cbv beta iota.
  rewrite supervisor_bit.
  destruct (Z.testbit (sr cpu) 13) eqn:Hs.
  - exists (set_a (mkArray8 (e0 (a cpu)) (e1 (a cpu)) (e2 (a cpu)) (e3 (a cpu))
                     (e4 (a cpu)) (e5 (a cpu)) (e6 (a cpu)) v) cpu).
    split; [reflexivity|].
    replace (sr (set_a _ cpu)) with (sr cpu) by (destruct cpu; reflexivity).
    rewrite supervisor_bit, Hs.
    split; [destruct cpu; reflexivity|]. split; [reflexivity|].
    split; [destruct cpu; reflexivity|]. split; [destruct cpu; reflexivity|].
    intros i Hi. destruct cpu as [ty rd ra]. cbn [a set_a].
    destruct i as [|p|p]; try reflexivity.
    do 3 (try destruct p as [p|p|]); try reflexivity. contradiction.
  - exists (set_usp v cpu). split; [reflexivity|].
    replace (sr (set_usp v cpu)) with (sr cpu) by (destruct cpu; reflexivity).
    rewrite supervisor_bit, Hs.
    split; [destruct cpu; reflexivity|]. split; [reflexivity|].
    split; destruct cpu; reflexivity.
Qed.

(** ** Push and pop *)

Lemma uint32_sub_add (x y : Z) : 0 <= x < 2 ^ 32 -> uint32 (uint32 (x - y) + y) = x.
Proof.
  intros Hx. unfold uint32. rewrite Zplus_mod_idemp_l.
  replace (x - y + y) with x by lia. apply Z.mod_small. exact Hx.
Qed.

(** X6. With a memory handler that returns at [sp - 4] the long just
    written there, [popLong] after [pushLong v] returns [v] and leaves
    [a[7]] where it was; only the memory has changed. *)
Theorem pushLong_popLong (cpu : CPU) (v : Z) (h h' : H) :
  memory cpu = Some h ->
  0 <= e7 (a cpu) < 2 ^ 32 ->
  Write32 h (uint32 (e7 (a cpu) - 4)) v = Some h' ->
  Read32 h' (uint32 (e7 (a cpu) - 4)) = Some v ->
  bind (pushLong v) (fun _ => popLong) cpu = Some (v, set_memory (Some h') cpu).
Proof.
  intros Hmem Hsp Hw Hr.
  destruct cpu as [ty rd ra pc0 sr0 usp0 isp0 msp0 sfc0 dfc0 vbr0 cacr0 caar0
                   st hl cr cm irq vq pa pd ppc0 ir0 mem].
  destruct ra as [a0 a1 a2 a3 a4 a5 a6 a7].
  cbn [memory a e7] in *. subst mem.
  unfold popLong. run. rewrite Hw. run. rewrite Hr. run.
  rewrite uint32_sub_add by exact Hsp. reflexivity.
Qed.

(** X7. Without memory handler push and pop are not inverse: [pushLong]
    still lowers [a[7]] by 4, and [popLong] returns 0 and leaves [a[7]]
    alone. *)
Theorem pushLong_popLong_no_memory (cpu : CPU) (v : Z) :
  memory cpu = None ->
  exists regs,
    store (a cpu) 7 (uint32 (e7 (a cpu) - 4)) = Some regs /\
    bind (pushLong v) (fun _ => popLong) cpu = Some (0, set_a regs cpu).
Proof.
  intros Hmem.
  destruct cpu as [ty rd ra pc0 sr0 usp0 isp0 msp0 sfc0 dfc0 vbr0 cacr0 caar0
                   st hl cr cm irq vq pa pd ppc0 ir0 mem].
  destruct ra as [a0 a1 a2 a3 a4 a5 a6 a7].
  cbn [memory] in Hmem. subst mem.
  eexists. split; reflexivity.
Qed.

(** ** Execute on a CPU that is not running *)

(** X8. On a stopped or halted CPU, or with a budget that is not
    positive, [Execute] sets the two counters and returns 0 at once: no
    interrupt is looked at and no callback is called, so a pending
    interrupt does not restart a stopped CPU. *)
Theorem Execute_not_running (cpu : CPU) (fuel : nat) (cb : Callbacks) (cycles : Z) (h : H) :
  memory cpu = Some h ->
  stopped cpu = true \/ halted cpu = true \/ cycles <= 0 ->
  Execute fuel cb cycles cpu =
    Returned 0 (set_cyclesRun 0 (set_cyclesRemain cycles cpu)).
Proof.
  intros Hmem Hidle. unfold Execute. rewrite Hmem.
  assert (Hrun : running (set_cyclesRun 0 (set_cyclesRemain cycles cpu)) = false).
  { unfold running.
    replace (stopped (set_cyclesRun 0 (set_cyclesRemain cycles cpu))) with (stopped cpu)
      by (destruct cpu; reflexivity).
    replace (halted (set_cyclesRun 0 (set_cyclesRemain cycles cpu))) with (halted cpu)
      by (destruct cpu; reflexivity).
    replace (cyclesRemain (set_cyclesRun 0 (set_cyclesRemain cycles cpu))) with cycles
      by (destruct cpu; reflexivity).
    destruct Hidle as [-> | [-> | Hc]].
    - rewrite andb_false_r. reflexivity.
    - rewrite andb_false_r. reflexivity.
    - replace (0 <? cycles) with false by (symmetry; apply Z.ltb_ge; exact Hc).
      reflexivity. }
  destruct fuel; cbn [executeLoop]; rewrite Hrun;
    f_equal; destruct cpu; reflexivity.
Qed.


(** ** Execute without pending interrupt *)

(** All that [executeInstruction] does without reset callback: it
    fetches a word into [ir], adds 2 to [pc] and charges 4 cycles. *)
Lemma executeInstruction_effect (s s' : CPU) :
  executeInstruction noCallbacks s = Some (tt, s') ->
  exists w,
    memRead Read16 (pc s) s = Some (w, s) /\
    s' = set_cyclesRemain (int (cyclesRemain s - 4))
           (set_cyclesRun (int (cyclesRun s + 4))
              (set_pc (uint32 (pc s + 2)) (set_ir w s))).
Proof.
  unfold executeInstruction. cbn [resetCallback noCallbacks]. intros Hr.
  destruct (bind_inv _ _ _ _ _ Hr) as (p & c1 & E1 & Hr1). clear Hr.
  inversion E1; subst p c1. clear E1.
  destruct (bind_inv _ _ _ _ _ Hr1) as (w & c2 & E2 & Hr2). clear Hr1.
  assert (Hc2 := memRead_pure _ _ _ _ _ E2). subst c2.
  destruct (bind_inv _ _ _ _ _ Hr2) as ([] & c3 & E3 & Hr3). clear Hr2.
  inversion E3; subst c3. clear E3.
  destruct (bind_inv _ _ _ _ _ Hr3) as ([] & c4 & E4 & Hr4). clear Hr3.
  inversion E4; subst c4. clear E4.
  destruct (bind_inv _ _ _ _ _ Hr4) as ([] & c5 & E5 & Hr5). clear Hr4.
  unfold useCycles, bind, modify in E5. inversion E5; subst c5. clear E5.
  destruct (bind_inv _ _ _ _ _ Hr5) as (w' & c6 & E6 & Hr6). clear Hr5.
  inversion E6; subst w' c6. clear E6.
  rewrite instruction_switch in Hr6. inversion Hr6; subst s'. clear Hr6.
  exists w. split; [exact E2|]. destruct s; reflexivity.
Qed.

Lemma loopBody_idle (s s' : CPU) :
  irqLevel s = 0 ->
  loopBody noCallbacks s = Some (tt, s') ->
  irqLevel s' = 0 /\ stopped s' = stopped s /\ halted s' = halted s /\
  pc s' = uint32 (pc s + 2) /\
  cyclesRun s' = int (cyclesRun s + 4) /\
  cyclesRemain s' = int (cyclesRemain s - 4) /\
  a s' = a s /\ sr s' = sr s /\ memory s' = memory s.
Proof.
  intros Hirq Hr. unfold loopBody in Hr. cbn [instrHookCallback noCallbacks] in Hr.
  destruct (bind_inv _ _ _ _ _ Hr) as ([] & c1 & E1 & Hr1). clear Hr.
  unfold checkInterrupts, bind, gets in E1. cbv beta iota in E1.
  rewrite Hirq in E1. change (0 =? 0) with true in E1. cbv beta iota in E1.
  inversion E1; subst c1. clear E1.
  destruct (bind_inv _ _ _ _ _ Hr1) as ([] & c2 & E2 & Hr2). clear Hr1.
  inversion E2; subst c2. clear E2.
  destruct (bind_inv _ _ _ _ _ Hr2) as ([] & c3 & E3 & Hr3). clear Hr2.
  inversion E3; subst c3. clear E3.
  destruct (executeInstruction_effect _ _ Hr3) as (w & _ & ->).
  destruct s; cbn in *. subst. repeat split.
Qed.

Lemma executeLoop_idle (n pc0 : Z) (fuel : nat) :
  0 < n <= maxInt - 3 ->
  forall (k : Z) (s s' : CPU) (u : unit),
    0 <= k -> 4 * k < n + 4 ->
    irqLevel s = 0 -> stopped s = false -> halted s = false ->
    cyclesRun s = 4 * k -> cyclesRemain s = n - 4 * k ->
    uint32 (pc s) = uint32 (pc0 + 2 * k) ->
    executeLoop fuel noCallbacks s = Returned u s' ->
    exists k', k <= k' /\ n <= 4 * k' < n + 4 /\
      cyclesRun s' = 4 * k' /\ cyclesRemain s' = n - 4 * k' /\
      (k < k' -> pc s' = uint32 (pc0 + 2 * k')) /\
      a s' = a s /\ sr s' = sr s /\ memory s' = memory s.
Proof.
  intros Hn. assert (Hlarge := maxInt_large). assert (Hmin := minInt_maxInt).
  induction fuel as [|fuel IH]; intros k s s' u Hk Hk4 Hirq Hst Hhl Hrun Hrem Hpc;
    cbn [executeLoop]; unfold running; rewrite Hst, Hhl, Hrem;
    cbn [negb]; rewrite !andb_true_r;
    destruct (Z.ltb_spec 0 (n - 4 * k)) as [Hgo|Hstop]; try discriminate.
  - intros Hr. inversion Hr; subst s'. exists k. repeat split; try assumption; lia.
  - destruct (loopBody noCallbacks s) as [[[] s1]|] eqn:Hbody; [|discriminate].
    intros Hr.
    destruct (loopBody_idle s s1 Hirq Hbody)
      as (Hirq1 & Hst1 & Hhl1 & Hpc1 & Hrun1 & Hrem1 & Ha1 & Hsr1 & Hmem1).
    rewrite Hrun in Hrun1. rewrite Hrem in Hrem1.
    rewrite int_small in Hrun1 by lia. rewrite int_small in Hrem1 by lia.
    assert (Hpc2 : pc s1 = uint32 (pc0 + 2 * (k + 1))).
    { rewrite Hpc1. unfold uint32 in *. rewrite <- Zplus_mod_idemp_l, Hpc.
      rewrite Zplus_mod_idemp_l. f_equal. lia. }
    destruct (IH (k + 1) s1 s' u) as (k' & Hk' & Hend & Hr' & Hm' & Hp' & Ha' & Hs' & Hmm');
      try assumption; try lia; try congruence.
    + rewrite Hpc2. unfold uint32. apply Zmod_mod.
    + exists k'. repeat split; try assumption; try lia; try congruence.
      intros _. destruct (Z.eq_dec k' (k + 1)) as [->|Hne]; [|apply Hp'; lia].
      assert (Hsame : s' = s1).
      { clear - Hr Hrem1 Hst1 Hhl1 Hst Hhl Hend.
        destruct fuel; cbn [executeLoop] in Hr; unfold running in Hr;
          rewrite Hst1, Hhl1, Hst, Hhl, Hrem1 in Hr; cbn [negb] in Hr;
          rewrite ?andb_true_r in Hr;
          (destruct (0 <? n - 4 * k - 4) eqn:E;
           [apply Z.ltb_lt in E; lia | congruence]). }
      rewrite Hsame. exact Hpc2.
  - intros Hr. inversion Hr; subst s'. exists k. repeat split; try assumption; lia.
Qed.

Lemma loopBody_idle_succeeds (s : CPU) (h : H) (w : Z) :
  irqLevel s = 0 -> memory s = Some h -> Read16 h (pc s) = Some w ->
  exists s1, loopBody noCallbacks s = Some (tt, s1).
Proof.
  destruct s; simpl; intros -> -> Hw.
  unfold noCallbacks. run. change (0 =? 0) with true. cbv beta iota.
  rewrite Hw. eexists. rewrite instruction_switch. reflexivity.
Qed.

Lemma executeLoop_idle_runs (n pc0 : Z) (h : H) (fuel : nat) :
  0 < n <= maxInt - 3 ->
  (forall k, 0 <= k < (n + 3) / 4 -> Read16 h (uint32 (pc0 + 2 * k)) <> None) ->
  forall (k : Z) (s : CPU),
    0 <= k -> 4 * k < n + 4 ->
    (Z.to_nat ((n + 3) / 4 - k) <= fuel)%nat ->
    irqLevel s = 0 -> stopped s = false -> halted s = false ->
    cyclesRun s = 4 * k -> cyclesRemain s = n - 4 * k ->
    pc s = uint32 (pc0 + 2 * k) -> memory s = Some h ->
    exists s', executeLoop fuel noCallbacks s = Returned tt s'.
Proof.
  intros Hn Hreads. assert (Hlarge := maxInt_large). assert (Hmin := minInt_maxInt).
  assert (HK : 4 * ((n + 3) / 4) <= n + 3 < 4 * ((n + 3) / 4) + 4).
  { assert (E := Z.div_mod (n + 3) 4). assert (B := Z.mod_pos_bound (n + 3) 4). lia. }
  induction fuel as [|fuel IH]; intros k s Hk Hk4 Hfuel Hirq Hst Hhl Hrun Hrem Hpc Hmem;
    cbn [executeLoop]; unfold running; rewrite Hst, Hhl, Hrem;
    cbn [negb]; rewrite !andb_true_r;
    destruct (Z.ltb_spec 0 (n - 4 * k)) as [Hgo|Hstop];
    try (eexists; reflexivity).
  - exfalso. lia.
  - destruct (Read16 h (pc s)) as [w|] eqn:Hw.
    2:{ exfalso. apply (Hreads k); [lia|]. rewrite <- Hpc. exact Hw. }
    destruct (loopBody_idle_succeeds s h w Hirq Hmem Hw) as (s1 & Hbody).
    rewrite Hbody.
    destruct (loopBody_idle s s1 Hirq Hbody)
      as (Hirq1 & Hst1 & Hhl1 & Hpc1 & Hrun1 & Hrem1 & Ha1 & Hsr1 & Hmem1).
    rewrite Hrun in Hrun1. rewrite Hrem in Hrem1.
    rewrite int_small in Hrun1 by lia. rewrite int_small in Hrem1 by lia.
    apply (IH (k + 1)); try lia; try congruence.
    rewrite Hpc1, Hpc. unfold uint32. rewrite Zplus_mod_idemp_l. f_equal. lia.
Qed.

(** X9. With no interrupt pending and no callback, [Execute(n)] for
    0 < n <= maxInt - 3 makes ceil(n/4) passes of its loop when the
    handler answers the ceil(n/4) fetches at pc, pc+2, ...: it returns
    4 * ceil(n/4), which exceeds the budget by 0 to 3 cycles, with
    [cyclesRemain] = n - 4 * ceil(n/4) <= 0, [pc] advanced by
    2 * ceil(n/4) modulo 2^32, and the address registers, SR and the
    memory as before. *)
Theorem Execute_without_interrupt (cpu : CPU) (fuel : nat) (n : Z) (h : H) :
  memory cpu = Some h ->
  irqLevel cpu = 0 -> stopped cpu = false -> halted cpu = false ->
  0 <= pc cpu < 2 ^ 32 ->
  0 < n <= maxInt - 3 ->
  (forall k, 0 <= k < (n + 3) / 4 -> Read16 h (uint32 (pc cpu + 2 * k)) <> None) ->
  (Z.to_nat ((n + 3) / 4) <= fuel)%nat ->
  exists cpu',
    Execute fuel noCallbacks n cpu = Returned (4 * ((n + 3) / 4)) cpu' /\
    n <= 4 * ((n + 3) / 4) < n + 4 /\
    cyclesRemain cpu' = n - 4 * ((n + 3) / 4) /\
    pc cpu' = uint32 (pc cpu + 2 * ((n + 3) / 4)) /\
    a cpu' = a cpu /\ sr cpu' = sr cpu /\ memory cpu' = memory cpu.
Proof.
  intros Hmem Hirq Hst Hhl Hpc Hn Hreads Hfuel. unfold Execute. rewrite Hmem.
  set (s0 := set_cyclesRun 0 (set_cyclesRemain n cpu)) in *.
  assert (F : irqLevel s0 = irqLevel cpu /\ stopped s0 = stopped cpu /\
              halted s0 = halted cpu /\ cyclesRun s0 = 0 /\ cyclesRemain s0 = n /\
              pc s0 = pc cpu /\ a s0 = a cpu /\ sr s0 = sr cpu /\
              memory s0 = memory cpu).
  { subst s0. destruct cpu. cbn. repeat split. }
  destruct F as (F1 & F2 & F3 & F4 & F5 & F6 & F7 & F8 & F9).
  destruct (executeLoop_idle_runs n (pc cpu) h fuel Hn Hreads 0 s0) as (s' & Hloop);
    try lia; try congruence.
  { rewrite F6, Z.mul_0_r, Z.add_0_r. symmetry. apply uint32_small. exact Hpc. }
  rewrite Hloop.
  destruct (executeLoop_idle n (pc cpu) fuel Hn 0 s0 s' tt)
    as (k' & Hk' & Hend & Hr' & Hm' & Hp' & Ha' & Hs' & Hmm');
    try lia; try congruence.
  { rewrite F6. f_equal. lia. }
  assert (Ek : k' = (n + 3) / 4).
  { apply (Z.div_unique (n + 3) 4 k' (n + 3 - 4 * k')); lia. }
  exists s'. rewrite <- Ek. rewrite Hr', Hm', Hp', Ha', Hs', Hmm' by lia.
  repeat split; try lia; assumption.
Qed.

End SurfaceProperties.

(** ** SimpleMemory *)

Lemma land_mask20 (a : Z) : 0 <= Z.land a 0xFFFFF < 2 ^ 20.
Proof.
  change 0xFFFFF with (Z.ones 20). rewrite Z.land_ones by lia.
  apply Z.mod_pos_bound. lia.
Qed.

Lemma land_mask20_add (a k : Z) :
  0 <= k -> Z.land a 0xFFFFF + k < 2 ^ 20 ->
  Z.land (a + k) 0xFFFFF = Z.land a 0xFFFFF + k.
Proof.
  change 0xFFFFF with (Z.ones 20). rewrite !Z.land_ones by lia. intros Hk Hlt.
  rewrite <- Zplus_mod_idemp_l. apply Z.mod_small.
  assert (B := Z.mod_pos_bound a (2 ^ 20)). lia.
Qed.

Lemma land_mask20_mirror (a : Z) :
  Z.land (uint32 (a + 0x100000)) 0xFFFFF = Z.land a 0xFFFFF.
Proof.
  change 0xFFFFF with (Z.ones 20). rewrite !Z.land_ones by lia. unfold uint32.
  change (2 ^ 32) with (2 ^ 20 * 2 ^ 12).
  rewrite Z.rem_mul_r by lia.
  rewrite Z.mul_comm, Z_mod_plus_full, Zmod_mod.
  change 0x100000 with (1 * 2 ^ 20). apply Z_mod_plus_full.
Qed.

Lemma SimpleMemory_get_some (m : SimpleMemory.t) (i : Z) :
  0 <= i < 2 ^ 20 -> SimpleMemory.get m i = Some (m i).
Proof.
  intros Hi. unfold SimpleMemory.get, SimpleMemory.size.
  destruct (Z.leb_spec 0 i); [|lia]. destruct (Z.ltb_spec i (1024 * 1024)); [|lia].
  reflexivity.
Qed.

Lemma SimpleMemory_get_none (m : SimpleMemory.t) (i : Z) :
  2 ^ 20 <= i -> SimpleMemory.get m i = None.
Proof.
  intros Hi. unfold SimpleMemory.get, SimpleMemory.size.
  destruct (Z.ltb_spec i (1024 * 1024)); [lia|]. rewrite andb_false_r. reflexivity.
Qed.

Lemma SimpleMemory_set_some (m : SimpleMemory.t) (i v : Z) :
  0 <= i < 2 ^ 20 ->
  SimpleMemory.set m i v = Some (fun j => if j =? i then v else m j).
Proof.
  intros Hi. unfold SimpleMemory.set, SimpleMemory.size.
  destruct (Z.leb_spec 0 i); [|lia]. destruct (Z.ltb_spec i (1024 * 1024)); [|lia].
  reflexivity.
Qed.

Lemma SimpleMemory_set_none (m : SimpleMemory.t) (i v : Z) :
  2 ^ 20 <= i -> SimpleMemory.set m i v = None.
Proof.
  intros Hi. unfold SimpleMemory.set, SimpleMemory.size.
  destruct (Z.ltb_spec i (1024 * 1024)); [lia|]. rewrite andb_false_r. reflexivity.
Qed.

(** Bits of the values that the byte accessors build. *)
Lemma testbit_uint8 (x i : Z) :
  Z.testbit (uint8 x) i = (i <? 8) && Z.testbit x i.
Proof.
  unfold uint8. destruct (Z.ltb_spec i 0).
  - rewrite !Z.testbit_neg_r by lia. rewrite andb_false_r. reflexivity.
  - destruct (Z.ltb_spec i 8).
    + rewrite Z.mod_pow2_bits_low by lia. reflexivity.
    + rewrite Z.mod_pow2_bits_high by lia. reflexivity.
Qed.

Lemma testbit_uint16 (x i : Z) :
  Z.testbit (uint16 x) i = (i <? 16) && Z.testbit x i.
Proof.
  unfold uint16. destruct (Z.ltb_spec i 0).
  - rewrite !Z.testbit_neg_r by lia. rewrite andb_false_r. reflexivity.
  - destruct (Z.ltb_spec i 16).
    + rewrite Z.mod_pow2_bits_low by lia. reflexivity.
    + rewrite Z.mod_pow2_bits_high by lia. reflexivity.
Qed.

Lemma testbit_uint32 (x i : Z) :
  Z.testbit (uint32 x) i = (i <? 32) && Z.testbit x i.
Proof.
  unfold uint32. destruct (Z.ltb_spec i 0).
  - rewrite !Z.testbit_neg_r by lia. rewrite andb_false_r. reflexivity.
  - destruct (Z.ltb_spec i 32).
    + rewrite Z.mod_pow2_bits_low by lia. reflexivity.
    + rewrite Z.mod_pow2_bits_high by lia. reflexivity.
Qed.

Lemma testbit_above (x n i : Z) :
  0 <= x < 2 ^ n -> 0 <= n <= i -> Z.testbit x i = false.
Proof.
  intros Hx Hi. destruct (Z.eq_dec x 0) as [->|Hne]; [apply Z.bits_0|].
  apply Z.bits_above_log2; [lia|].
  apply Z.lt_le_trans with n; [|lia]. apply Z.log2_lt_pow2; lia.
Qed.

(** Bit [i] of a term built from the masks and shifts of the accessors. *)
Ltac bits_of i :=
  repeat first
    [ rewrite Z.lor_spec | rewrite Z.land_spec | rewrite testbit_uint8
    | rewrite testbit_uint16 | rewrite testbit_uint32
    | rewrite Z.shiftl_spec by lia | rewrite Z.shiftr_spec by lia ].

Lemma bytes_be32 (v : Z) :
  0 <= v < 2 ^ 32 ->
  Z.lor (Z.lor (Z.lor (uint32 (Z.shiftl (uint8 (Z.shiftr v 24)) 24))
                      (uint32 (Z.shiftl (uint8 (Z.shiftr v 16)) 16)))
               (uint32 (Z.shiftl (uint8 (Z.shiftr v 8)) 8)))
        (uint8 v) = v.
Proof.
  intros Hv. apply Z.bits_inj'. intros i Hi.
  rewrite !Z.lor_spec, !testbit_uint32, testbit_uint8, !Z.shiftl_spec by lia.
  rewrite !testbit_uint8.
  destruct (Z.ltb_spec i 8).
  { rewrite (Z.testbit_neg_r _ (i - 24)), (Z.testbit_neg_r _ (i - 16)),
      (Z.testbit_neg_r _ (i - 8)) by lia.
    rewrite !andb_false_r. reflexivity. }
  destruct (Z.ltb_spec i 16).
  { rewrite (Z.testbit_neg_r _ (i - 24)), (Z.testbit_neg_r _ (i - 16)) by lia.
    rewrite Z.shiftr_spec by lia. replace (i - 8 + 8) with i by lia.
    destruct (Z.ltb_spec (i - 8) 8); [|lia]. destruct (Z.ltb_spec i 32); [|lia].
    rewrite !andb_false_r. cbn. rewrite orb_false_r. reflexivity. }
  destruct (Z.ltb_spec i 24).
  { rewrite (Z.testbit_neg_r _ (i - 24)) by lia.
    rewrite !Z.shiftr_spec by lia. replace (i - 16 + 16) with i by lia.
    destruct (Z.ltb_spec (i - 16) 8); [|lia]. destruct (Z.ltb_spec (i - 8) 8); [lia|].
    destruct (Z.ltb_spec i 32); [|lia].
    rewrite !andb_false_r. cbn. rewrite !orb_false_r. reflexivity. }
  rewrite !Z.shiftr_spec by lia. replace (i - 24 + 24) with i by lia.
  destruct (Z.ltb_spec (i - 24) 8); destruct (Z.ltb_spec (i - 16) 8); try lia;
    destruct (Z.ltb_spec (i - 8) 8); try lia; destruct (Z.ltb_spec i 32); try lia;
    cbn; rewrite ?andb_false_r, ?orb_false_r; try reflexivity.
  symmetry. apply (testbit_above v 32); lia.
Qed.

Lemma bytes_be16 (v : Z) :
  0 <= v < 2 ^ 16 ->
  Z.lor (uint16 (Z.shiftl (uint8 (Z.shiftr v 8)) 8)) (uint8 v) = v.
Proof.
  intros Hv. apply Z.bits_inj'. intros i Hi.
  rewrite !Z.lor_spec, !testbit_uint16, testbit_uint8, !Z.shiftl_spec by lia.
  rewrite !testbit_uint8.
  destruct (Z.ltb_spec i 8).
  { rewrite (Z.testbit_neg_r _ (i - 8)) by lia.
    rewrite !andb_false_r. reflexivity. }
  rewrite Z.shiftr_spec by lia. replace (i - 8 + 8) with i by lia.
  destruct (Z.ltb_spec (i - 8) 8); destruct (Z.ltb_spec i 16); try lia;
    cbn; rewrite ?andb_false_r, ?orb_false_r; try reflexivity.
  symmetry. apply (testbit_above v 16); lia.
Qed.

Ltac eqb_cases :=
  repeat match goal with
         | |- context [?x =? ?y] => destruct (Z.eqb_spec x y); try lia
         end.

(** X10. SimpleMemory stores a long big-endian and reads it back: for
    a value below 2^32 and an address whose low 20 bits are at most
    0xFFFFC, [Write32] returns, [Read32] at the same address (and at
    the address 1 MB further, modulo 2^32: the RAM is mirrored) gives
    the value, the four bytes are the value's bytes from the most
    significant one, and no other byte of the RAM changes. *)
Theorem SimpleMemory_Write32_Read32 (m : SimpleMemory.t) (a v : Z) :
  0 <= v < 2 ^ 32 ->
  Z.land a 0xFFFFF <= 0xFFFFC ->
  exists m',
    SimpleMemory.Write32 m a v = Some m' /\
    SimpleMemory.Read32 m' a = Some v /\
    SimpleMemory.Read32 m' (uint32 (a + 0x100000)) = Some v /\
    SimpleMemory.Read8 m' a = Some (v / 2 ^ 24) /\
    SimpleMemory.Read8 m' (a + 1) = Some ((v / 2 ^ 16) mod 2 ^ 8) /\
    SimpleMemory.Read8 m' (a + 2) = Some ((v / 2 ^ 8) mod 2 ^ 8) /\
    SimpleMemory.Read8 m' (a + 3) = Some (v mod 2 ^ 8) /\
    forall j, j < Z.land a 0xFFFFF \/ Z.land a 0xFFFFF + 3 < j -> m' j = m j.
Proof.
  intros Hv Ha. assert (Hr := land_mask20 a).
  assert (E : forall m', SimpleMemory.Read32 m' (uint32 (a + 0x100000))
                         = SimpleMemory.Read32 m' a).
  { intros m'. unfold SimpleMemory.Read32. rewrite land_mask20_mirror. reflexivity. }
  unfold SimpleMemory.Read8.
  rewrite !land_mask20_add by lia.
  setoid_rewrite E. clear E.
  unfold SimpleMemory.Write32, SimpleMemory.Read32.
  set (addr := Z.land a 0xFFFFF) in *.
  rewrite (SimpleMemory_set_some m addr) by lia.
  rewrite (SimpleMemory_set_some _ (addr + 1)) by lia.
  rewrite (SimpleMemory_set_some _ (addr + 2)) by lia.
  rewrite (SimpleMemory_set_some _ (addr + 3)) by lia.
  eexists. split; [reflexivity|].
  rewrite !SimpleMemory_get_some by lia. cbv beta.
  eqb_cases.
  rewrite bytes_be32 by exact Hv.
  split; [reflexivity|]. split; [reflexivity|].
  split.
  { f_equal. unfold uint8. rewrite Z.shiftr_div_pow2 by lia.
    apply Z.mod_small. split; [apply Z.div_pos; lia|].
    apply Z.div_lt_upper_bound; lia. }
  split.
  { f_equal. unfold uint8. rewrite Z.shiftr_div_pow2 by lia. reflexivity. }
  split.
  { f_equal. unfold uint8. rewrite Z.shiftr_div_pow2 by lia. reflexivity. }
  split; [reflexivity|].
  intros j Hj. eqb_cases; reflexivity.
Qed.

(** X11. The edge of SimpleMemory: a byte access never panics; a word
    access panics exactly when the low 20 bits of the address are
    0xFFFFF, a long access exactly when they exceed 0xFFFFC (the index
    [addr+1], [addr+3] leaves the array: the mask is applied to the
    first byte only). *)
Theorem SimpleMemory_edge (m : SimpleMemory.t) (a v : Z) :
  SimpleMemory.Read8 m a <> None /\
  SimpleMemory.Write8 m a v <> None /\
  (SimpleMemory.Read16 m a = None <-> Z.land a 0xFFFFF = 0xFFFFF) /\
  (SimpleMemory.Write16 m a v = None <-> Z.land a 0xFFFFF = 0xFFFFF) /\
  (SimpleMemory.Read32 m a = None <-> 0xFFFFC < Z.land a 0xFFFFF) /\
  (SimpleMemory.Write32 m a v = None <-> 0xFFFFC < Z.land a 0xFFFFF).
Proof.
  assert (Hr := land_mask20 a).
  unfold SimpleMemory.Read8, SimpleMemory.Write8, SimpleMemory.Read16,
    SimpleMemory.Write16, SimpleMemory.Read32, SimpleMemory.Write32.
  set (addr := Z.land a 0xFFFFF) in *.
  rewrite (SimpleMemory_get_some m addr), !(SimpleMemory_set_some m addr) by lia.
  repeat split; try discriminate.
  - destruct (Z.lt_ge_cases (addr + 1) (2 ^ 20)).
    + rewrite SimpleMemory_get_some by lia. discriminate.
    + lia.
  - intros E. rewrite SimpleMemory_get_none by lia. reflexivity.
  - destruct (Z.lt_ge_cases (addr + 1) (2 ^ 20)).
    + rewrite SimpleMemory_set_some by lia. discriminate.
    + lia.
  - intros E. rewrite SimpleMemory_set_none by lia. reflexivity.
  - destruct (Z.lt_ge_cases (addr + 3) (2 ^ 20)).
    + rewrite !SimpleMemory_get_some by lia. discriminate.
    + lia.
  - intros E.
    destruct (SimpleMemory.get m (addr + 1)); [|reflexivity].
    destruct (SimpleMemory.get m (addr + 2)); [|reflexivity].
    rewrite SimpleMemory_get_none by lia. reflexivity.
  - destruct (Z.lt_ge_cases (addr + 3) (2 ^ 20)).
    + rewrite !SimpleMemory_set_some by lia. discriminate.
    + lia.
  - intros E.
    destruct (SimpleMemory.set _ (addr + 1) _); [|reflexivity].
    destruct (SimpleMemory.set _ (addr + 2) _); [|reflexivity].
    rewrite SimpleMemory_set_none by lia. reflexivity.
Qed.

(** ** Sign extension, arithmetic flags, register operands *)

Section InstructionProperties.

Context {H : Type} {MH : MemoryHandler H} {IS : IntSize}.

Local Abbreviation CPU := (@CPU H).

(** ** Sign extension *)

Lemma signExtend8_bit (v i : Z) :
  0 <= v < 2 ^ 32 -> 0 <= i ->
  Z.testbit (signExtend8 v) i =
  if i <? 8 then Z.testbit v i else (i <? 32) && Z.testbit v 7.
Proof.
  intros Hv Hi. unfold signExtend8.
  change 0x80 with (2 ^ 7). rewrite nonzero_land_pow2 by lia.
  destruct (Z.testbit v 7) eqn:Hb.
  - rewrite Z.lor_spec. change 0xFFFFFF00 with (Z.shiftl (Z.ones 24) 8).
    rewrite Z.shiftl_spec by lia.
    destruct (Z.ltb_spec i 8).
    + rewrite (Z.testbit_neg_r _ (i - 8)) by lia. apply orb_false_r.
    + destruct (Z.ltb_spec i 32).
      * rewrite Z.ones_spec_low by lia. apply orb_true_r.
      * rewrite Z.ones_spec_high by lia. rewrite orb_false_r.
        apply (testbit_above v 32); lia.
  - rewrite Z.land_spec. change 0xFF with (Z.ones 8).
    destruct (Z.ltb_spec i 8).
    + rewrite Z.ones_spec_low by lia. apply andb_true_r.
    + rewrite Z.ones_spec_high by lia. rewrite !andb_false_r. reflexivity.
Qed.

Lemma signExtend16_bit (v i : Z) :
  0 <= v < 2 ^ 32 -> 0 <= i ->
  Z.testbit (signExtend16 v) i =
  if i <? 16 then Z.testbit v i else (i <? 32) && Z.testbit v 15.
Proof.
  intros Hv Hi. unfold signExtend16.
  change 0x8000 with (2 ^ 15). rewrite nonzero_land_pow2 by lia.
  destruct (Z.testbit v 15) eqn:Hb.
  - rewrite Z.lor_spec. change 0xFFFF0000 with (Z.shiftl (Z.ones 16) 16).
    rewrite Z.shiftl_spec by lia.
    destruct (Z.ltb_spec i 16).
    + rewrite (Z.testbit_neg_r _ (i - 16)) by lia. apply orb_false_r.
    + destruct (Z.ltb_spec i 32).
      * rewrite Z.ones_spec_low by lia. apply orb_true_r.
      * rewrite Z.ones_spec_high by lia. rewrite orb_false_r.
        apply (testbit_above v 32); lia.
  - rewrite Z.land_spec. change 0xFFFF with (Z.ones 16).
    destruct (Z.ltb_spec i 16).
    + rewrite Z.ones_spec_low by lia. apply andb_true_r.
    + rewrite Z.ones_spec_high by lia. rewrite !andb_false_r. reflexivity.
Qed.

Lemma uint32_of_bits (x : Z) :
  (forall i, 32 <= i -> Z.testbit x i = false) -> 0 <= x < 2 ^ 32.
Proof.
  intros Hx. assert (E : x = uint32 x).
  { apply Z.bits_inj'. intros i Hi. rewrite testbit_uint32.
    destruct (Z.ltb_spec i 32); [reflexivity|]. apply Hx. lia. }
  rewrite E. apply Z.mod_pos_bound. lia.
Qed.

(** The signed value of the low [n] bits, from the bits. *)
Lemma signed_mod_aux (p q r : Z) (b : bool) :
  0 < p -> 0 <= r < p -> Z.b2z b = q mod 2 ->
  (p * q + r + p) mod (2 * p) - p = r - (if b then p else 0).
Proof.
  intros Hp Hr Hb. assert (Eq := Z.div_mod q 2 ltac:(lia)).
  rewrite <- Hb in Eq. clear Hb. revert Eq. generalize (q / 2). intros k ->.
  destruct b; cbn [Z.b2z].
  - assert (E : r = (p * (2 * k + 1) + r + p) mod (2 * p)).
    { apply (Z.mod_unique_pos _ _ (k + 1)); [lia|]. ring. }
    rewrite <- E. reflexivity.
  - assert (E : r + p = (p * (2 * k + 0) + r + p) mod (2 * p)).
    { apply (Z.mod_unique_pos _ _ k); [lia|]. ring. }
    rewrite <- E. lia.
Qed.

Lemma signed_mod (x n : Z) :
  0 < n ->
  (x + 2 ^ (n - 1)) mod 2 ^ n - 2 ^ (n - 1) =
  x mod 2 ^ (n - 1) - (if Z.testbit x (n - 1) then 2 ^ (n - 1) else 0).
Proof.
  intros Hn.
  assert (P : 2 ^ n = 2 * 2 ^ (n - 1)).
  { replace n with (Z.succ (n - 1)) at 1 by lia. apply Z.pow_succ_r. lia. }
  assert (Pp : 0 < 2 ^ (n - 1)) by (apply Z.pow_pos_nonneg; lia).
  rewrite P. rewrite (Z.div_mod x (2 ^ (n - 1))) at 1 by lia.
  apply signed_mod_aux.
  - exact Pp.
  - apply Z.mod_pos_bound. exact Pp.
  - apply Z.testbit_spec'. lia.
Qed.

Lemma signed_bit (x n i : Z) :
  0 < n -> 0 <= i ->
  Z.testbit ((x + 2 ^ (n - 1)) mod 2 ^ n - 2 ^ (n - 1)) i =
  if i <? n - 1 then Z.testbit x i else Z.testbit x (n - 1).
Proof.
  intros Hn Hi. rewrite signed_mod by assumption.
  assert (Pp : 0 < 2 ^ (n - 1)) by (apply Z.pow_pos_nonneg; lia).
  destruct (Z.testbit x (n - 1)) eqn:Hb.
  - assert (E : x mod 2 ^ (n - 1) - 2 ^ (n - 1)
                = Z.lor (x mod 2 ^ (n - 1)) (Z.lnot (Z.ones (n - 1)))).
    { rewrite <- (Z.add_0_r (Z.lor _ _)).
      replace 0 with (Z.land (x mod 2 ^ (n - 1)) (Z.lnot (Z.ones (n - 1)))).
      - rewrite Z.add_lor_land. rewrite Z.ones_equiv. unfold Z.lnot. lia.
      - apply Z.bits_inj'. intros k Hk.
        rewrite Z.land_spec, Z.lnot_spec, Z.bits_0 by assumption.
        destruct (Z.lt_ge_cases k (n - 1)).
        + rewrite Z.ones_spec_low by lia. apply andb_false_r.
        + rewrite Z.mod_pow2_bits_high by lia. reflexivity. }
    rewrite E, Z.lor_spec, Z.lnot_spec by assumption.
    destruct (Z.ltb_spec i (n - 1)).
    + rewrite Z.ones_spec_low, Z.mod_pow2_bits_low by lia. apply orb_false_r.
    + rewrite Z.ones_spec_high by lia. apply orb_true_r.
  - rewrite Z.sub_0_r.
    destruct (Z.ltb_spec i (n - 1)).
    + apply Z.mod_pow2_bits_low. lia.
    + apply Z.mod_pow2_bits_high. lia.
Qed.

Lemma sint8_bit (x i : Z) :
  0 <= i -> Z.testbit (sint8 x) i = if i <? 7 then Z.testbit x i else Z.testbit x 7.
Proof. intros Hi. apply (signed_bit x 8 i); lia. Qed.

Lemma sint16_bit (x i : Z) :
  0 <= i -> Z.testbit (sint16 x) i = if i <? 15 then Z.testbit x i else Z.testbit x 15.
Proof. intros Hi. apply (signed_bit x 16 i); lia. Qed.

Lemma sint32_bit (x i : Z) :
  0 <= i -> Z.testbit (sint32 x) i = if i <? 31 then Z.testbit x i else Z.testbit x 31.
Proof. intros Hi. apply (signed_bit x 32 i); lia. Qed.

Lemma uint32_sint32 (x : Z) : uint32 (sint32 x) = uint32 x.
Proof.
  unfold uint32, sint32. rewrite Zminus_mod_idemp_l. f_equal. lia.
Qed.

(** X12. [signExtend8] and [signExtend16] on a 32-bit value: the low
    8 (16) bits are kept, bits 8 (16) to 31 all take the value of bit
    7 (15), nothing is set from bit 32 on; the result is the
    conversion [uint32(int32(int8(v)))] ([uint32(int32(int16(v)))])
    that the branch instructions use for their displacement. *)
Theorem signExtend_bits (v : Z) :
  0 <= v < 2 ^ 32 ->
  (forall i, 0 <= i ->
     Z.testbit (signExtend8 v) i =
     if i <? 8 then Z.testbit v i else (i <? 32) && Z.testbit v 7) /\
  (forall i, 0 <= i ->
     Z.testbit (signExtend16 v) i =
     if i <? 16 then Z.testbit v i else (i <? 32) && Z.testbit v 15) /\
  signExtend8 v = uint32 (sint32 (sint8 v)) /\
  signExtend16 v = uint32 (sint32 (sint16 v)).
Proof.
  intros Hv.
  split; [intros i Hi; apply signExtend8_bit; assumption|].
  split; [intros i Hi; apply signExtend16_bit; assumption|].
  split.
  - apply Z.bits_inj'. intros i Hi.
    rewrite signExtend8_bit, uint32_sint32, testbit_uint32, sint8_bit by assumption.
    destruct (Z.ltb_spec i 8); destruct (Z.ltb_spec i 7); destruct (Z.ltb_spec i 32);
      try lia; cbn [andb]; try reflexivity.
    replace i with 7 by lia. reflexivity.
  - apply Z.bits_inj'. intros i Hi.
    rewrite signExtend16_bit, uint32_sint32, testbit_uint32, sint16_bit by assumption.
    destruct (Z.ltb_spec i 16); destruct (Z.ltb_spec i 15); destruct (Z.ltb_spec i 32);
      try lia; cbn [andb]; try reflexivity.
    replace i with 15 by lia. reflexivity.
Qed.

(** ** The extend flag *)

Lemma testbit_top (x n : Z) :
  0 <= n -> 0 <= x < 2 ^ (n + 1) -> Z.testbit x n = (2 ^ n <=? x).
Proof.
  intros Hn Hx. rewrite Z.pow_add_r, Z.pow_1_r in Hx by lia.
  assert (Pp : 0 < 2 ^ n) by (apply Z.pow_pos_nonneg; lia).
  destruct (Z.leb_spec (2 ^ n) x).
  - apply Z.testbit_true; [assumption|].
    replace (x / 2 ^ n) with 1; [reflexivity|].
    apply (Z.div_unique x (2 ^ n) 1 (x - 2 ^ n)); lia.
  - apply Z.testbit_false; [assumption|]. rewrite Z.div_small by lia. reflexivity.
Qed.

Lemma testbit_borrow (x n : Z) :
  0 <= n < 32 -> 0 < x <= 2 ^ n -> Z.testbit (2 ^ 32 - x) n = true.
Proof.
  intros Hn Hx.
  assert (Pp : 0 < 2 ^ n) by (apply Z.pow_pos_nonneg; lia).
  assert (E : 2 ^ 32 = 2 ^ n * 2 ^ (32 - n)).
  { rewrite <- Z.pow_add_r by lia. f_equal. lia. }
  assert (Ev : 2 ^ (32 - n) = 2 * 2 ^ (31 - n)).
  { replace (32 - n) with (Z.succ (31 - n)) by lia. apply Z.pow_succ_r. lia. }
  apply Z.testbit_true; [lia|].
  replace ((2 ^ 32 - x) / 2 ^ n) with (2 ^ (32 - n) - 1).
  - rewrite Ev. replace (2 * 2 ^ (31 - n) - 1) with (1 + (2 ^ (31 - n) - 1) * 2) by lia.
    rewrite Z_mod_plus_full. reflexivity.
  - apply (Z.div_unique _ (2 ^ n) _ (2 ^ n - x)); [lia|]. rewrite E. ring.
Qed.

Lemma set_sr_set_sr (cpu : CPU) (s s' : Z) : set_sr s' (set_sr s cpu) = set_sr s' cpu.
Proof. destruct cpu; reflexivity. Qed.

(** What the carry and overflow steps of the two arithmetic setters
    leave in SR before [setFlagsLogical] runs: X and C from [c], V from
    [v], the other bits as they were. *)
Lemma carry_overflow_bits (s : Z) (c v : bool) (i : Z) :
  0 <= i ->
  Z.testbit
    ((fun s1 => if v then Z.lor s1 FlagV else Z.ldiff s1 FlagV)
       ((fun s0 => if c then Z.lor s0 (Z.lor FlagC FlagX)
                   else Z.ldiff s0 (Z.lor FlagC FlagX)) s)) i =
  if i =? 4 then c else if i =? 1 then v else if i =? 0 then c else Z.testbit s i.
Proof.
  intros Hi. unfold FlagV, FlagC, FlagX. change (Z.lor 1 16) with 17. cbv beta.
  assert (B2 : Z.testbit 2 i = (i =? 1)).
  { change 2 with (2 ^ 1). destruct (Z.eqb_spec i 1) as [->|Hne].
    - apply Z.pow2_bits_true. lia.
    - apply Z.pow2_bits_false. lia. }
  assert (B17 : Z.testbit 17 i = (i =? 4) || (i =? 0)).
  { change 17 with (Z.lor (2 ^ 4) (2 ^ 0)). rewrite Z.lor_spec.
    destruct (Z.eqb_spec i 4) as [->|H4]; [reflexivity|].
    destruct (Z.eqb_spec i 0) as [->|H0]; [reflexivity|].
    rewrite !Z.pow2_bits_false by lia. reflexivity. }
  destruct c, v; rewrite ?Z.lor_spec, ?Z.ldiff_spec, ?Z.lor_spec, ?Z.ldiff_spec, B2, B17;
    destruct (Z.eqb_spec i 4); destruct (Z.eqb_spec i 1); destruct (Z.eqb_spec i 0);
    try lia; cbn [negb andb orb];
    rewrite ?andb_true_r, ?andb_false_r, ?orb_false_r, ?orb_true_r; reflexivity.
Qed.

Lemma setFlagsAdd_run (cpu : CPU) (dest src result size : Z) :
  size = 8 \/ size = 16 \/ size = 32 ->
  0 <= dest < 2 ^ size -> 0 <= src < 2 ^ size ->
  result = uint32 (dest + src) ->
  exists (v : bool) (s' : Z),
    setFlagsAdd dest src result size cpu = Some (tt, set_sr s' cpu) /\
    logical_post
      ((fun s1 => if v then Z.lor s1 FlagV else Z.ldiff s1 FlagV)
         ((fun s0 => if 2 ^ size <=? dest + src then Z.lor s0 (Z.lor FlagC FlagX)
                     else Z.ldiff s0 (Z.lor FlagC FlagX)) (sr cpu)))
      s' result size.
Proof.
  intros Hsize Hd Hs Hres.
  assert (Hr : 0 <= result < 2 ^ 32) by (subst result; apply Z.mod_pos_bound; lia).
  assert (Hc : forall n, 0 <= n < 32 -> 0 <= dest + src < 2 ^ (n + 1) ->
               Z.testbit result n = (2 ^ n <=? dest + src)).
  { intros n Hn Hb. subst result. rewrite testbit_uint32.
    destruct (Z.ltb_spec n 32); [|lia]. apply testbit_top; lia. }
  assert (E : (0xFFFFFFFF <? (src + dest) mod 2 ^ 64) = (2 ^ 32 <=? dest + src)).
  { destruct Hsize as [-> | [-> | ->]]; rewrite Z.mod_small by lia;
      destruct (Z.ltb_spec 0xFFFFFFFF (src + dest));
      destruct (Z.leb_spec (2 ^ 32) (dest + src)); try reflexivity; lia. }
  destruct Hsize as [-> | [-> | ->]]; unfold setFlagsAdd;
    [ change 0x100 with (2 ^ 8); rewrite (nonzero_land_pow2 result 8) by lia;
      rewrite (Hc 8) by (change (2 ^ (8 + 1)) with 512; lia)
    | change 0x10000 with (2 ^ 16); rewrite (nonzero_land_pow2 result 16) by lia;
      rewrite (Hc 16) by (change (2 ^ (16 + 1)) with 131072; lia)
    | rewrite E ];
    match goal with
    | |- context [if ?c then modify _ else modify _] =>
      destruct c; cbv beta iota delta [bind modify ret]
    end;
    match goal with
    | |- context [if ?b then _ else _] => exists b; destruct b; cbv beta iota
    end;
    match goal with
    | |- context [setFlagsLogical ?r ?z ?c] =>
      destruct (setFlagsLogical_run c r z ltac:(auto) Hr) as (s' & Hrun & Hpost);
      exists s'; rewrite Hrun, !set_sr_set_sr; split; [reflexivity|];
      destruct cpu; exact Hpost
    end.
Qed.

Lemma setFlagsSub_run (cpu : CPU) (dest src result size : Z) :
  size = 8 \/ size = 16 \/ size = 32 ->
  0 <= dest < 2 ^ size -> 0 <= src < 2 ^ size ->
  result = uint32 (dest - src) ->
  exists (v : bool) (s' : Z),
    setFlagsSub dest src result size cpu = Some (tt, set_sr s' cpu) /\
    logical_post
      ((fun s1 => if v then Z.lor s1 FlagV else Z.ldiff s1 FlagV)
         ((fun s0 => if dest <? src then Z.lor s0 (Z.lor FlagC FlagX)
                     else Z.ldiff s0 (Z.lor FlagC FlagX)) (sr cpu)))
      s' result size.
Proof.
  intros Hsize Hd Hs Hres.
  assert (Hr : 0 <= result < 2 ^ 32) by (subst result; apply Z.mod_pos_bound; lia).
  assert (Hc : forall n, 0 <= n < 32 -> dest < 2 ^ n -> src < 2 ^ n ->
               Z.testbit result n = (dest <? src)).
  { intros n Hn Hdn Hsn. subst result.
    assert (Pp : 2 ^ n < 2 ^ 32) by (apply Z.pow_lt_mono_r; lia).
    destruct (Z.ltb_spec dest src).
    - replace (uint32 (dest - src)) with (2 ^ 32 - (src - dest)).
      + apply testbit_borrow; lia.
      + unfold uint32. apply (Z.mod_unique_pos _ _ (-1)); lia.
    - rewrite uint32_small by lia. apply (testbit_above _ n); lia. }
  destruct Hsize as [-> | [-> | ->]]; unfold setFlagsSub;
    [ change 0x100 with (2 ^ 8); rewrite (nonzero_land_pow2 result 8) by lia;
      rewrite (Hc 8) by lia
    | change 0x10000 with (2 ^ 16); rewrite (nonzero_land_pow2 result 16) by lia;
      rewrite (Hc 16) by lia
    | idtac ];
    match goal with
    | |- context [if ?c then modify _ else modify _] =>
      destruct c; cbv beta iota delta [bind modify ret]
    end;
    match goal with
    | |- context [if ?b then _ else _] => exists b; destruct b; cbv beta iota
    end;
    match goal with
    | |- context [setFlagsLogical ?r ?z ?c] =>
      destruct (setFlagsLogical_run c r z ltac:(auto) Hr) as (s' & Hrun & Hpost);
      exists s'; rewrite Hrun, !set_sr_set_sr; split; [reflexivity|];
      destruct cpu; exact Hpost
    end.
Qed.

Lemma uint32_mod (x size : Z) :
  size = 8 \/ size = 16 \/ size = 32 -> uint32 x mod 2 ^ size = x mod 2 ^ size.
Proof.
  intros Hsize. unfold uint32. apply Z.mod_mod_divide.
  destruct Hsize as [-> | [-> | ->]];
    [exists (2 ^ 24) | exists (2 ^ 16) | exists 1]; reflexivity.
Qed.

(** X13. What [setFlagsAdd] and [setFlagsSub] do get right.  For
    operands below 2^size (size 8, 16 or 32) and the result the
    instructions pass (the sum or the difference in [uint32]), the
    setters return with X equal to the carry of the addition
    (dest + src >= 2^size), respectively the borrow of the subtraction
    (dest < src); N is the sign bit of the result at that size; Z is
    set exactly when the result is zero at that size (for a
    subtraction: when dest = src); the bits of SR from 5 upwards and
    every other field of the CPU are unchanged. *)
Theorem arithmetic_flags_X_N_Z (cpu : CPU) (dest src size : Z) :
  size = 8 \/ size = 16 \/ size = 32 ->
  0 <= dest < 2 ^ size -> 0 <= src < 2 ^ size ->
  (exists cpu',
     setFlagsAdd dest src (uint32 (dest + src)) size cpu = Some (tt, cpu') /\
     Z.testbit (sr cpu') 4 = (2 ^ size <=? dest + src) /\
     Z.testbit (sr cpu') 3 = Z.testbit (dest + src) (size - 1) /\
     Z.testbit (sr cpu') 2 = ((dest + src) mod 2 ^ size =? 0) /\
     (forall i, 5 <= i -> Z.testbit (sr cpu') i = Z.testbit (sr cpu) i) /\
     set_sr (sr cpu) cpu' = cpu) /\
  (exists cpu',
     setFlagsSub dest src (uint32 (dest - src)) size cpu = Some (tt, cpu') /\
     Z.testbit (sr cpu') 4 = (dest <? src) /\
     Z.testbit (sr cpu') 3 = Z.testbit (dest - src) (size - 1) /\
     Z.testbit (sr cpu') 2 = (dest =? src) /\
     (forall i, 5 <= i -> Z.testbit (sr cpu') i = Z.testbit (sr cpu) i) /\
     set_sr (sr cpu) cpu' = cpu).
Proof.
  intros Hsize Hd Hs.
  assert (Hsz : 0 < size <= 32) by (destruct Hsize as [-> | [-> | ->]]; lia).
  split.
  - destruct (setFlagsAdd_run cpu dest src _ size Hsize Hd Hs eq_refl)
      as (v & s' & Hrun & _ & _ & Hz & Hn & Hrest).
    exists (set_sr s' cpu). split; [exact Hrun|].
    replace (sr (set_sr s' cpu)) with s' by (destruct cpu; reflexivity).
    split; [rewrite Hrest by lia; rewrite carry_overflow_bits by lia; reflexivity|].
    split; [rewrite Hn, testbit_uint32;
            destruct (Z.ltb_spec (size - 1) 32); [reflexivity|lia]|].
    split; [rewrite Hz, uint32_mod by assumption; reflexivity|].
    split; [|apply set_sr_back].
    intros i Hi. rewrite Hrest by lia. rewrite carry_overflow_bits by lia.
    destruct (Z.eqb_spec i 4); destruct (Z.eqb_spec i 1); destruct (Z.eqb_spec i 0);
      try lia; reflexivity.
  - destruct (setFlagsSub_run cpu dest src _ size Hsize Hd Hs eq_refl)
      as (v & s' & Hrun & _ & _ & Hz & Hn & Hrest).
    exists (set_sr s' cpu). split; [exact Hrun|].
    replace (sr (set_sr s' cpu)) with s' by (destruct cpu; reflexivity).
    split; [rewrite Hrest by lia; rewrite carry_overflow_bits by lia; reflexivity|].
    split; [rewrite Hn, testbit_uint32;
            destruct (Z.ltb_spec (size - 1) 32); [reflexivity|lia]|].
    split.
    { rewrite Hz, uint32_mod by assumption.
      assert (Pp : 0 < 2 ^ size) by (apply Z.pow_pos_nonneg; lia).
      destruct (Z.eqb_spec dest src) as [->|Hne].
      - rewrite Z.sub_diag. reflexivity.
      - destruct (Z.eqb_spec ((dest - src) mod 2 ^ size) 0) as [E|E]; [|reflexivity].
        exfalso. apply Z.mod_divide in E; [|lia]. destruct E as (k & Ek).
        assert (k = 0) by nia. lia. }
    split; [|apply set_sr_back].
    intros i Hi. rewrite Hrest by lia. rewrite carry_overflow_bits by lia.
    destruct (Z.eqb_spec i 4); destruct (Z.eqb_spec i 1); destruct (Z.eqb_spec i 0);
      try lia; reflexivity.
Qed.

(** ** Data register direct *)

Lemma index_some {A : Type} (r : Array8 A) (i : Z) :
  0 <= i <= 7 -> exists x, index r i = Some x.
Proof.
  intros Hi.
  assert (C : i = 0 \/ i = 1 \/ i = 2 \/ i = 3 \/ i = 4 \/ i = 5 \/ i = 6 \/ i = 7) by lia.
  destruct C as [->|[->|[->|[->|[->|[->|[->| ->]]]]]]]; eexists; reflexivity.
Qed.

Lemma store_some {A : Type} (r : Array8 A) (i : Z) (v : A) :
  0 <= i <= 7 ->
  exists r', store r i v = Some r' /\ index r' i = Some v /\
             forall j, j <> i -> index r' j = index r j.
Proof.
  intros Hi.
  assert (C : i = 0 \/ i = 1 \/ i = 2 \/ i = 3 \/ i = 4 \/ i = 5 \/ i = 6 \/ i = 7) by lia.
  destruct C as [->|[->|[->|[->|[->|[->|[->| ->]]]]]]];
    (eexists; split; [reflexivity|]; split; [reflexivity|]);
    intros j Hj; destruct j as [|p|p]; try reflexivity;
    repeat (destruct p as [p|p|]; try reflexivity); contradiction.
Qed.

Lemma land_low_bits (x n : Z) : 0 <= n -> Z.land x (Z.ones n) = x mod 2 ^ n.
Proof. intros Hn. apply Z.land_ones. exact Hn. Qed.

Lemma merge_low_bit (old value n i : Z) :
  0 < n < 32 -> 0 <= i ->
  Z.testbit (Z.lor (Z.land old (Z.shiftl (Z.ones (32 - n)) n))
                   (Z.land value (Z.ones n))) i =
  if i <? n then Z.testbit value i else (i <? 32) && Z.testbit old i.
Proof.
  intros Hn Hi. rewrite Z.lor_spec, !Z.land_spec, Z.shiftl_spec by lia.
  destruct (Z.ltb_spec i n).
  - rewrite (Z.ones_spec_low n i), (Z.testbit_neg_r _ (i - n)) by lia.
    rewrite andb_true_r, andb_false_r. reflexivity.
  - rewrite (Z.ones_spec_high n i) by lia. rewrite andb_false_r, orb_false_r.
    destruct (Z.ltb_spec i 32).
    + rewrite Z.ones_spec_low by lia. apply andb_true_r.
    + rewrite Z.ones_spec_high by lia. apply andb_false_r.
Qed.

Lemma merge_low_mod (old value n : Z) :
  0 < n < 32 ->
  Z.lor (Z.land old (Z.shiftl (Z.ones (32 - n)) n)) (Z.land value (Z.ones n)) mod 2 ^ n
  = value mod 2 ^ n.
Proof.
  intros Hn. rewrite <- !land_low_bits by lia. apply Z.bits_inj'. intros i Hi.
  rewrite !Z.land_spec, merge_low_bit by lia.
  destruct (Z.ltb_spec i n).
  - reflexivity.
  - rewrite Z.ones_spec_high by lia. rewrite !andb_false_r. reflexivity.
Qed.

Lemma land_ones_twice (x n : Z) :
  0 <= n -> Z.land (Z.land x (Z.ones n)) (Z.ones n) = Z.land x (Z.ones n).
Proof.
  intros Hn. rewrite <- Z.land_assoc, Z.land_diag. reflexivity.
Qed.

Lemma writeEA_data_run (cpu : CPU) (reg size value old : Z) :
  0 <= reg <= 7 ->
  size = 8 \/ size = 16 \/ size = 32 ->
  0 <= value < 2 ^ 32 ->
  index (d cpu) reg = Some old ->
  exists cpu' new,
    writeEA 0 reg size value cpu = Some (tt, cpu') /\
    index (d cpu') reg = Some new /\
    new mod 2 ^ size = value mod 2 ^ size /\
    (forall i, size <= i < 32 -> Z.testbit new i = Z.testbit old i) /\
    (forall j, j <> reg -> index (d cpu') j = index (d cpu) j) /\
    set_d (d cpu) cpu' = cpu /\
    readEA 0 reg size cpu' = Some (value mod 2 ^ size, cpu').
Proof.
  intros Hreg Hsize Hv Hold.
  assert (Hnew : forall new, exists r',
            store (d cpu) reg new = Some r' /\ index r' reg = Some new /\
            forall j, j <> reg -> index r' j = index (d cpu) j).
  { intros new. apply store_some. exact Hreg. }
  assert (Hback : forall r', set_d (d cpu) (set_d r' cpu) = cpu)
    by (intros; destruct cpu; reflexivity).
  assert (Hd : forall r', d (set_d r' cpu) = r') by (intros; destruct cpu; reflexivity).
  destruct Hsize as [-> | [-> | ->]]; unfold writeEA, readEA, maskValue, getD, setD;
    cbv beta iota delta [bind gets lift ret modify]; rewrite ?Hold; cbv beta iota.
  - change 0xFF with (Z.ones 8). change 0xFFFFFF00 with (Z.shiftl (Z.ones (32 - 8)) 8).
    rewrite land_ones_twice by lia.
    destruct (Hnew (Z.lor (Z.land old (Z.shiftl (Z.ones (32 - 8)) 8))
                          (Z.land value (Z.ones 8))))
      as (r' & -> & Hi & Ho).
    cbv beta iota. eexists. eexists. split; [reflexivity|].
    rewrite Hd, Hi. cbv beta iota.
    split; [reflexivity|]. split; [apply merge_low_mod; lia|].
    split.
    { intros i Hi0. rewrite merge_low_bit by lia.
      destruct (Z.ltb_spec i 8); [lia|]. destruct (Z.ltb_spec i 32); [reflexivity|lia]. }
    split; [exact Ho|]. split; [apply Hback|].
    rewrite land_low_bits, merge_low_mod by lia. reflexivity.
  - change 0xFFFF with (Z.ones 16). change 0xFFFF0000 with (Z.shiftl (Z.ones (32 - 16)) 16).
    rewrite land_ones_twice by lia.
    destruct (Hnew (Z.lor (Z.land old (Z.shiftl (Z.ones (32 - 16)) 16))
                          (Z.land value (Z.ones 16))))
      as (r' & -> & Hi & Ho).
    cbv beta iota. eexists. eexists. split; [reflexivity|].
    rewrite Hd, Hi. cbv beta iota.
    split; [reflexivity|]. split; [apply merge_low_mod; lia|].
    split.
    { intros i Hi0. rewrite merge_low_bit by lia.
      destruct (Z.ltb_spec i 16); [lia|]. destruct (Z.ltb_spec i 32); [reflexivity|lia]. }
    split; [exact Ho|]. split; [apply Hback|].
    rewrite land_low_bits, merge_low_mod by lia. reflexivity.
  - destruct (Hnew value) as (r' & -> & Hi & Ho).
    cbv beta iota. eexists. eexists. split; [reflexivity|].
    rewrite Hd, Hi. cbv beta iota.
    split; [reflexivity|]. split; [reflexivity|].
    split; [intros i Hi0; lia|].
    split; [exact Ho|]. split; [apply Hback|].
    rewrite Z.mod_small by exact Hv. reflexivity.
Qed.

(** X14. The mode Dn.  Writing a value of size 8, 16 or 32 to a data
    register replaces the low 8, 16 or 32 bits of the register and
    keeps the bits above (up to bit 31); the seven other data
    registers and everything else in the CPU are unchanged, and
    reading the register back at that size gives the value modulo
    2^size. *)
Theorem data_register_write_read (cpu : CPU) (reg size value old : Z) :
  0 <= reg <= 7 ->
  size = 8 \/ size = 16 \/ size = 32 ->
  0 <= value < 2 ^ 32 ->
  index (d cpu) reg = Some old ->
  exists cpu' new,
    writeEA 0 reg size value cpu = Some (tt, cpu') /\
    index (d cpu') reg = Some new /\
    new mod 2 ^ size = value mod 2 ^ size /\
    (forall i, size <= i < 32 -> Z.testbit new i = Z.testbit old i) /\
    (forall j, j <> reg -> index (d cpu') j = index (d cpu) j) /\
    set_d (d cpu) cpu' = cpu /\
    readEA 0 reg size cpu' = Some (value mod 2 ^ size, cpu').
Proof. apply writeEA_data_run. Qed.

End InstructionProperties.

(** ** The decoder *)

Ltac cases8 n :=
  let C := fresh "C" in
  assert (C : n = 0 \/ n = 1 \/ n = 2 \/ n = 3 \/ n = 4 \/ n = 5 \/ n = 6 \/ n = 7) by lia;
  destruct C as [->|[->|[->|[->|[->|[->|[->| ->]]]]]]].

Section DecoderProperties.

Context {H : Type} {MH : MemoryHandler H} {IS : IntSize}.

Local Abbreviation CPU := (@CPU H).

Lemma useCycles_run (n : Z) (cpu : CPU) :
  useCycles n cpu =
  Some (tt, set_cyclesRemain (int (cyclesRemain cpu - n))
              (set_cyclesRun (int (cyclesRun cpu + n)) cpu)).
Proof. destruct cpu; reflexivity. Qed.

(** X15. Line-A and line-F opcodes (0xA000-0xAFFF, 0xF000-0xFFFF): the
    decoder sends them to [opIllegal], which charges 4 cycles and
    nothing else: no exception is taken, PC, SR, the stack pointer and
    the memory stay as they are. *)
Theorem line_A_F_only_charged (cb : Callbacks) (cpu : CPU) (opcode : Z) :
  0xA000 <= opcode <= 0xAFFF \/ 0xF000 <= opcode <= 0xFFFF ->
  decodeAndExecute cb opcode cpu =
  Some (tt, set_cyclesRemain (int (cyclesRemain cpu - 4))
              (set_cyclesRun (int (cyclesRun cpu + 4)) cpu)).
Proof.
  intros Hop. unfold decodeAndExecute. rewrite Z.shiftr_div_pow2 by lia.
  destruct Hop as [Hop|Hop].
  - replace (opcode / 2 ^ 12) with 10
      by (apply (Z.div_unique opcode (2 ^ 12) 10 (opcode - 0xA000)); lia).
    apply useCycles_run.
  - replace (opcode / 2 ^ 12) with 15
      by (apply (Z.div_unique opcode (2 ^ 12) 15 (opcode - 0xF000)); lia).
    apply useCycles_run.
Qed.


(** X17. Where group 4 sends the encodings of the control-flow and
    stack-frame instructions.  With [mode] and [reg] the two fields of
    the effective address and [an] an address register number:
    JMP (0x4EC0 + ea) runs [opUNLK] for an even mode and [opMOVEUSP] for
    an odd one; JSR (0x4E80 + ea) runs the MOVEM stub; LEA
    (0x41C0 + an * 0x200 + ea) runs [opScc], or [opDBcc] for mode 1;
    PEA (0x4840 + ea, mode 2 and up), LINK (0x4E50 + reg), UNLK
    (0x4E58 + reg) and MOVE USP (0x4E60 + reg, 0x4E68 + reg) run
    [opIllegal]; TRAP (0x4E40 + vector) runs [opEXT] for the vectors
    0-7 and [opSWAP] for 8-15. *)
Theorem decode4_control_flow (cb : Callbacks) (mode reg an : Z) :
  0 <= mode <= 7 -> 0 <= reg <= 7 -> 0 <= an <= 7 ->
  let ea := 8 * mode + reg in
  decodeAndExecute cb (0x4EC0 + ea) =
    (if Z.even mode then opUNLK (0x4EC0 + ea) else opMOVEUSP (0x4EC0 + ea)) /\
  decodeAndExecute cb (0x4E80 + ea) = opMOVEMtoMem (0x4E80 + ea) /\
  decodeAndExecute cb (0x41C0 + an * 0x200 + ea) =
    (if mode =? 1 then opDBcc (0x41C0 + an * 0x200 + ea)
     else opScc (0x41C0 + an * 0x200 + ea)) /\
  (2 <= mode -> decodeAndExecute cb (0x4840 + ea) = opIllegal (0x4840 + ea)) /\
  decodeAndExecute cb (0x4E50 + reg) = opIllegal (0x4E50 + reg) /\
  decodeAndExecute cb (0x4E58 + reg) = opIllegal (0x4E58 + reg) /\
  decodeAndExecute cb (0x4E60 + reg) = opIllegal (0x4E60 + reg) /\
  decodeAndExecute cb (0x4E68 + reg) = opIllegal (0x4E68 + reg) /\
  decodeAndExecute cb (0x4E40 + reg) = opEXT (0x4E40 + reg) /\
  decodeAndExecute cb (0x4E48 + reg) = opSWAP (0x4E48 + reg).
Proof.
  intros Hmode Hreg Han ea. subst ea.
  split; [cases8 mode; cases8 reg; reflexivity|].
  split; [cases8 mode; cases8 reg; reflexivity|].
  split; [cases8 an; cases8 mode; cases8 reg; reflexivity|].
  split; [intros H2; cases8 mode; try lia; cases8 reg; reflexivity|].
  repeat split; cases8 reg; reflexivity.
Qed.

End DecoderProperties.

(** ** Instructions *)

(** Closed integer expressions in the goal are replaced by their value. *)
Ltac pclosed p :=
  lazymatch p with
  | xH => idtac
  | xO ?q => pclosed q
  | xI ?q => pclosed q
  end.

Ltac zclosed e :=
  lazymatch e with
  | Z0 => idtac
  | Zpos ?p => pclosed p
  | Zneg ?p => pclosed p
  | Z.land ?x ?y => zclosed x; zclosed y
  | Z.lor ?x ?y => zclosed x; zclosed y
  | Z.shiftr ?x ?y => zclosed x; zclosed y
  | Z.shiftl ?x ?y => zclosed x; zclosed y
  | Z.add ?x ?y => zclosed x; zclosed y
  | Z.sub ?x ?y => zclosed x; zclosed y
  | Z.mul ?x ?y => zclosed x; zclosed y
  | Z.quot ?x ?y => zclosed x; zclosed y
  end.

Ltac zeval :=
  repeat match goal with
  | |- context [Z.land ?x ?y] =>
    zclosed x; zclosed y;
    let v := eval vm_compute in (Z.land x y) in change (Z.land x y) with v
  | |- context [Z.shiftr ?x ?y] =>
    zclosed x; zclosed y;
    let v := eval vm_compute in (Z.shiftr x y) in change (Z.shiftr x y) with v
  | |- context [Z.quot ?x ?y] =>
    zclosed x; zclosed y;
    let v := eval vm_compute in (Z.quot x y) in change (Z.quot x y) with v
  | |- context [Z.add ?x ?y] =>
    zclosed x; zclosed y;
    let v := eval vm_compute in (Z.add x y) in change (Z.add x y) with v
  | |- context [Z.mul ?x ?y] =>
    zclosed x; zclosed y;
    let v := eval vm_compute in (Z.mul x y) in change (Z.mul x y) with v
  | |- context [Z.eqb ?x ?y] =>
    zclosed x; zclosed y;
    let v := eval vm_compute in (Z.eqb x y) in change (Z.eqb x y) with v
  | |- context [Z.ltb ?x ?y] =>
    zclosed x; zclosed y;
    let v := eval vm_compute in (Z.ltb x y) in change (Z.ltb x y) with v
  | |- context [nonzero ?x] =>
    zclosed x;
    let v := eval vm_compute in (nonzero x) in change (nonzero x) with v
  | |- context [uint32 ?x] =>
    zclosed x;
    let v := eval vm_compute in (uint32 x) in change (uint32 x) with v
  end.

(** One round of evaluation of the monad and of the record operations,
    leaving the arithmetic on registers alone. *)
Ltac exec :=
  cbv beta iota delta
      [pushLong pushWord popLong popWord useCycles memRead memWrite getA getD setA setD
       readMem writeMem readImmediate16 readImmediate32 maskValue eaIndex
       bind ret gets modify lift panic index store
       set_cpuType set_d set_a set_pc set_sr set_usp set_isp set_msp set_sfc set_dfc
       set_vbr set_cacr set_caar set_stopped set_halted set_cyclesRun set_cyclesRemain
       set_irqLevel set_virq set_prefetchAddr set_prefetchData set_ppc set_ir set_memory
       cpuType d a pc sr usp isp msp sfc dfc vbr cacr caar stopped halted cyclesRun
       cyclesRemain irqLevel virq prefetchAddr prefetchData ppc ir memory
       e0 e1 e2 e3 e4 e5 e6 e7 intAckCallback resetCallback instrHookCallback
       andb orb negb fst snd].

Ltac steps := repeat (progress (zeval; exec)).

Section InstructionSemantics.

Context {H : Type} {MH : MemoryHandler H} {IS : IntSize}.

Local Abbreviation CPU := (@CPU H).

(** X18. EXG, as the decoder runs it (opcodes 0xC140, 0xC148, 0xC188
    plus the two register fields): the two registers named by the
    opcode exchange their values (two data registers, two address
    registers, or a data and an address register), and executing the
    same opcode again restores both register files. *)
Theorem opEXG_involution (cb : Callbacks) (cpu : CPU) (rx ry m : Z) :
  0 <= rx <= 7 -> 0 <= ry <= 7 -> m = 0x40 \/ m = 0x48 \/ m = 0x88 ->
  let opcode := 0xC100 + rx * 0x200 + m + ry in
  exists cpu1 cpu2,
    decodeAndExecute cb opcode cpu = Some (tt, cpu1) /\
    decodeAndExecute cb opcode cpu1 = Some (tt, cpu2) /\
    d cpu2 = d cpu /\ a cpu2 = a cpu /\
    (m = 0x40 -> index (d cpu1) rx = index (d cpu) ry /\
                 index (d cpu1) ry = index (d cpu) rx /\ a cpu1 = a cpu) /\
    (m = 0x48 -> index (a cpu1) rx = index (a cpu) ry /\
                 index (a cpu1) ry = index (a cpu) rx /\ d cpu1 = d cpu) /\
    (m = 0x88 -> index (d cpu1) rx = index (a cpu) ry /\
                 index (a cpu1) ry = index (d cpu) rx).
Proof.
  intros Hrx Hry Hm opcode. subst opcode.
  destruct cpu as [ty rd ra pc0 sr0 usp0 isp0 msp0 sfc0 dfc0 vbr0 cacr0 caar0
                   st hl cr cm irq vq pa pd ppc0 ir0 mem].
  destruct rd as [d0 d1 d2 d3 d4 d5 d6 d7]. destruct ra as [a0 a1 a2 a3 a4 a5 a6 a7].
  destruct Hm as [-> | [-> | ->]]; cases8 rx; cases8 ry; zeval;
    match goal with
    | |- context [decodeAndExecute cb ?v] =>
      change (decodeAndExecute cb v) with (opEXG (H:=H) v)
    end;
    unfold opEXG; steps;
    (eexists; eexists; split; [reflexivity|]; steps; split; [reflexivity|];
     repeat split; intros; try discriminate; reflexivity).
Qed.

Lemma land7_range (x : Z) : 0 <= Z.land x 7 <= 7.
Proof.
  change 7 with (Z.ones 3) at 1 2. rewrite Z.land_ones by lia.
  assert (B := Z.mod_pos_bound x (2 ^ 3)). lia.
Qed.

Lemma getD_some (cpu : CPU) (n v : Z) :
  index (d cpu) n = Some v -> getD n cpu = Some (v, cpu).
Proof. intros E. unfold getD, bind, gets, lift. rewrite E. reflexivity. Qed.

Lemma setD_some (cpu : CPU) (n v : Z) (r : Array8 Z) :
  store (d cpu) n v = Some r -> setD n v cpu = Some (tt, set_d r cpu).
Proof. intros E. unfold setD, bind, gets, lift, modify. rewrite E. reflexivity. Qed.

Lemma getA_some (cpu : CPU) (n v : Z) :
  index (a cpu) n = Some v -> getA n cpu = Some (v, cpu).
Proof. intros E. unfold getA, bind, gets, lift. rewrite E. reflexivity. Qed.

Lemma setA_some (cpu : CPU) (n v : Z) (r : Array8 Z) :
  store (a cpu) n v = Some r -> setA n v cpu = Some (tt, set_a r cpu).
Proof. intros E. unfold setA, bind, gets, lift, modify. rewrite E. reflexivity. Qed.

Lemma store_back {A : Type} (r r' : Array8 A) (i : Z) (x v : A) :
  index r i = Some v -> store r i x = Some r' -> store r' i v = Some r.
Proof.
  destruct r as [x0 x1 x2 x3 x4 x5 x6 x7].
  destruct i as [|p|p]; try discriminate;
    [|repeat (destruct p as [p|p|]; try discriminate)];
    cbn [index store e0 e1 e2 e3 e4 e5 e6 e7];
    intros Hv Hr; inversion Hv; inversion Hr; subst; reflexivity.
Qed.

Lemma swapped_bit (v i : Z) :
  0 <= i ->
  Z.testbit (swapped v) i =
  if i <? 16 then Z.testbit v (i + 16) else (i <? 32) && Z.testbit v (i - 16).
Proof.
  intros Hi. unfold swapped.
  rewrite Z.lor_spec, testbit_uint32, Z.land_spec, Z.shiftl_spec by lia.
  rewrite Z.land_spec, Z.shiftr_spec by lia. change 0xFFFF with (Z.ones 16).
  destruct (Z.ltb_spec i 16).
  - rewrite (Z.testbit_neg_r _ (i - 16)) by lia.
    rewrite (Z.ones_spec_low 16 i) by lia.
    rewrite andb_false_l, andb_false_r, andb_true_r. reflexivity.
  - rewrite (Z.ones_spec_high 16 i) by lia. rewrite andb_false_r, orb_false_r.
    destruct (Z.ltb_spec i 32); [|reflexivity].
    rewrite Z.ones_spec_low by lia. rewrite andb_true_r. reflexivity.
Qed.

Lemma swapped_range (v : Z) : 0 <= swapped v < 2 ^ 32.
Proof.
  apply uint32_of_bits. intros i Hi. rewrite swapped_bit by lia.
  destruct (Z.ltb_spec i 16); [lia|]. destruct (Z.ltb_spec i 32); [lia|]. reflexivity.
Qed.

Lemma swapped_swapped (v : Z) : 0 <= v < 2 ^ 32 -> swapped (swapped v) = v.
Proof.
  intros Hv. apply Z.bits_inj'. intros i Hi. rewrite swapped_bit by lia.
  destruct (Z.ltb_spec i 16).
  - rewrite swapped_bit by lia.
    destruct (Z.ltb_spec (i + 16) 16); [lia|]. destruct (Z.ltb_spec (i + 16) 32); [|lia].
    cbn [andb]. f_equal. lia.
  - destruct (Z.ltb_spec i 32).
    + rewrite swapped_bit by lia.
      destruct (Z.ltb_spec (i - 16) 16); [|lia]. cbn [andb]. f_equal. lia.
    + cbn [andb]. symmetry. apply (testbit_above v 32); lia.
Qed.

Lemma swapped_value (v : Z) :
  0 <= v < 2 ^ 32 -> swapped v = v mod 2 ^ 16 * 2 ^ 16 + v / 2 ^ 16.
Proof.
  intros Hv. unfold swapped. change 0xFFFF with (Z.ones 16). rewrite !Z.land_ones by lia.
  rewrite Z.shiftl_mul_pow2, Z.shiftr_div_pow2 by lia.
  assert (B := Z.mod_pos_bound v (2 ^ 16) ltac:(lia)).
  assert (Q : 0 <= v / 2 ^ 16 < 2 ^ 16).
  { split; [apply Z.div_pos; lia|]. apply Z.div_lt_upper_bound; lia. }
  rewrite uint32_small by lia. rewrite (Z.mod_small (v / 2 ^ 16)) by lia.
  rewrite <- Z.add_lor_land.
  replace (Z.land (v mod 2 ^ 16 * 2 ^ 16) (v / 2 ^ 16)) with 0; [lia|].
  symmetry. apply Z.bits_inj'. intros i Hi.
  rewrite Z.land_spec, Z.bits_0, <- Z.shiftl_mul_pow2, Z.shiftl_spec by lia.
  destruct (Z.lt_ge_cases i 16).
  - rewrite (Z.testbit_neg_r _ (i - 16)) by lia. reflexivity.
  - rewrite (testbit_above (v / 2 ^ 16) 16 i) by lia. apply andb_false_r.
Qed.

Lemma opSWAP_run (c : CPU) (opcode x : Z) :
  index (d c) (Z.land opcode 7) = Some x ->
  exists r s,
    store (d c) (Z.land opcode 7) (swapped x) = Some r /\
    logical_post (sr c) s (swapped x) 32 /\
    opSWAP opcode c =
    Some (tt, set_cyclesRemain (int (cyclesRemain c - 4))
                (set_cyclesRun (int (cyclesRun c + 4)) (set_sr s (set_d r c)))).
Proof.
  intros Hx.
  destruct (store_some (d c) (Z.land opcode 7) (swapped x) (land7_range opcode))
    as (r & Hr & Hi & _).
  destruct (setFlagsLogical_run (set_d r c) (swapped x) 32 ltac:(auto) (swapped_range x))
    as (s & Hs & Hpost).
  exists r, s. split; [exact Hr|]. split; [destruct c; exact Hpost|].
  unfold opSWAP, bind. rewrite (getD_some c _ x Hx). cbv beta iota.
  fold (swapped x). rewrite (setD_some c _ (swapped x) r Hr). cbv beta iota.
  rewrite (getD_some (set_d r c) _ (swapped x)) by (destruct c; exact Hi).
  cbv beta iota. rewrite Hs. cbv beta iota. destruct c; reflexivity.
Qed.

(** X19. SWAP on a 32-bit register value [v]: [opSWAP] writes
    (v mod 2^16) * 2^16 + v / 2^16 to the data register named by the
    low three bits of the opcode, sets N from bit 15 of [v] (the new
    bit 31) and Z exactly when [v] is 0, clears V and C, and a second
    [opSWAP] restores the register file. *)
Theorem opSWAP_involution (cpu : CPU) (opcode v : Z) :
  index (d cpu) (Z.land opcode 7) = Some v ->
  0 <= v < 2 ^ 32 ->
  exists cpu1 cpu2,
    opSWAP opcode cpu = Some (tt, cpu1) /\
    index (d cpu1) (Z.land opcode 7) = Some (v mod 2 ^ 16 * 2 ^ 16 + v / 2 ^ 16) /\
    Z.testbit (sr cpu1) 3 = Z.testbit v 15 /\
    Z.testbit (sr cpu1) 2 = (v =? 0) /\
    Z.testbit (sr cpu1) 1 = false /\
    Z.testbit (sr cpu1) 0 = false /\
    opSWAP opcode cpu1 = Some (tt, cpu2) /\
    d cpu2 = d cpu.
Proof.
  intros Hv Hrange.
  destruct (opSWAP_run cpu opcode v Hv) as (r1 & s1 & Hr1 & Hpost1 & Hrun1).
  destruct Hpost1 as (Hc & Hvf & Hz & Hneg & _).
  destruct (store_some (d cpu) (Z.land opcode 7) (swapped v) (land7_range opcode))
    as (r1' & Hr1' & Hi1 & _).
  assert (r1' = r1) by congruence. subst r1'.
  match type of Hrun1 with _ = Some (tt, ?c) => set (cpu1 := c) in * end.
  assert (Hd1 : d cpu1 = r1) by (subst cpu1; destruct cpu; reflexivity).
  assert (Hsr1 : sr cpu1 = s1) by (subst cpu1; destruct cpu; reflexivity).
  assert (Hx1 : index (d cpu1) (Z.land opcode 7) = Some (swapped v))
    by (rewrite Hd1; exact Hi1).
  destruct (opSWAP_run cpu1 opcode (swapped v) Hx1) as (r2 & s2 & Hr2 & _ & Hrun2).
  rewrite swapped_swapped in Hr2 by exact Hrange.
  assert (r2 = d cpu).
  { rewrite Hd1 in Hr2.
    assert (E := store_back (d cpu) r1 _ (swapped v) v Hv Hr1). congruence. }
  subst r2.
  eexists. eexists. split; [exact Hrun1|].
  split; [rewrite <- swapped_value by exact Hrange; exact Hx1|].
  rewrite Hsr1.
  split; [rewrite Hneg; change (32 - 1) with 31; rewrite swapped_bit by lia; reflexivity|].
  split.
  { rewrite Hz, Z.mod_small by apply swapped_range.
    destruct (Z.eqb_spec v 0) as [->|Hne]; [reflexivity|].
    destruct (Z.eqb_spec (swapped v) 0) as [E|E]; [|reflexivity].
    exfalso. apply Hne. rewrite <- (swapped_swapped v), E by exact Hrange. reflexivity. }
  split; [exact Hvf|]. split; [exact Hc|].
  split; [exact Hrun2|].
  destruct cpu1; reflexivity.
Qed.

End InstructionSemantics.

(** ** MOVEQ, branches and DBcc *)

Section BranchSemantics.

Context {H : Type} {MH : MemoryHandler H} {IS : IntSize}.

Local Abbreviation CPU := (@CPU H).

(** Fields of an opcode given as a sum. *)
Lemma field_shiftr (x k q : Z) :
  0 <= k -> q * 2 ^ k <= x < (q + 1) * 2 ^ k -> Z.shiftr x k = q.
Proof.
  intros Hk Hx. rewrite Z.shiftr_div_pow2 by exact Hk.
  symmetry. apply (Z.div_unique x (2 ^ k) q (x - q * 2 ^ k)); lia.
Qed.

Lemma field_land (x k r q : Z) :
  0 <= k -> 0 <= r < 2 ^ k -> x = q * 2 ^ k + r -> Z.land x (Z.ones k) = r.
Proof.
  intros Hk Hr Hx. rewrite Z.land_ones by exact Hk.
  symmetry. apply (Z.mod_unique_pos x (2 ^ k) q r); lia.
Qed.

(** X20. MOVEQ through the decoder.  For a data register [reg] and an
    8-bit immediate [data], the opcode 0x7000 + reg * 0x200 + data
    loads the register with the immediate sign-extended to 32 bits,
    sets N from bit 7 of the immediate and Z exactly when it is 0,
    clears V and C, keeps X and the rest of SR, leaves PC and the
    other registers alone and charges 4 cycles. *)
Theorem opMOVEQ_effect (cb : Callbacks) (cpu : CPU) (reg data : Z) :
  0 <= reg <= 7 -> 0 <= data <= 255 ->
  exists cpu',
    decodeAndExecute cb (0x7000 + reg * 0x200 + data) cpu = Some (tt, cpu') /\
    index (d cpu') reg = Some (signExtend8 data) /\
    (forall j, j <> reg -> index (d cpu') j = index (d cpu) j) /\
    Z.testbit (sr cpu') 3 = Z.testbit data 7 /\
    Z.testbit (sr cpu') 2 = (data =? 0) /\
    Z.testbit (sr cpu') 1 = false /\
    Z.testbit (sr cpu') 0 = false /\
    (forall i, 4 <= i -> Z.testbit (sr cpu') i = Z.testbit (sr cpu) i) /\
    a cpu' = a cpu /\ pc cpu' = pc cpu /\ memory cpu' = memory cpu /\
    cyclesRun cpu' = int (cyclesRun cpu + 4) /\
    cyclesRemain cpu' = int (cyclesRemain cpu - 4).
Proof.
  intros Hreg Hdata.
  set (opcode := 0x7000 + reg * 0x200 + data).
  assert (F12 : Z.shiftr opcode 12 = 7) by (apply field_shiftr; subst opcode; lia).
  assert (F9 : Z.land (Z.shiftr opcode 9) 7 = reg).
  { rewrite (field_shiftr opcode 9 (0x38 + reg)) by (subst opcode; lia).
    apply (field_land _ 3 reg 7); lia. }
  assert (F0 : Z.land opcode 0xFF = data).
  { apply (field_land _ 8 data (0x70 + 2 * reg)); subst opcode; lia. }
  assert (F8 : (Z.land opcode 0x0100 =? 0) = true).
  { assert (E : nonzero (Z.land opcode (2 ^ 8)) = false).
    { rewrite nonzero_land_pow2 by lia. apply Z.testbit_false; [lia|].
      rewrite <- Z.shiftr_div_pow2 by lia.
      rewrite (field_shiftr opcode 8 (0x70 + 2 * reg)) by (subst opcode; lia).
      replace (0x70 + 2 * reg) with ((0x38 + reg) * 2) by lia. apply Z_mod_mult. }
    unfold nonzero in E. change (2 ^ 8) with 0x0100 in E.
    destruct (Z.land opcode 256 =? 0); [reflexivity|discriminate]. }
  assert (Hr : 0 <= signExtend8 data < 2 ^ 32).
  { apply uint32_of_bits. intros i Hi. rewrite signExtend8_bit by lia.
    destruct (Z.ltb_spec i 8); [lia|]. destruct (Z.ltb_spec i 32); [lia|]. reflexivity. }
  destruct (store_some (d cpu) reg (signExtend8 data) Hreg) as (r & Hst & Hi & Ho).
  destruct (setFlagsLogical_run (set_d r cpu) (signExtend8 data) 32 ltac:(auto) Hr)
    as (s & Hs & Hc & Hv & Hz & Hn & Hrest).
  exists (set_cyclesRemain (int (cyclesRemain cpu - 4))
            (set_cyclesRun (int (cyclesRun cpu + 4)) (set_sr s (set_d r cpu)))).
  split.
  { unfold decodeAndExecute. rewrite F12. unfold decodeMOVEQ. rewrite F8.
    unfold opMOVEQ, bind. rewrite F9, F0.
    rewrite (setD_some cpu reg _ r Hst). cbv beta iota. rewrite Hs. cbv beta iota.
    destruct cpu; reflexivity. }
  replace (sr (set_d r cpu)) with (sr cpu) in * by (destruct cpu; reflexivity).
  destruct cpu as [ty rd ra pc0 sr0 usp0 isp0 msp0 sfc0 dfc0 vbr0 cacr0 caar0
                   st hl cr cm irq vq pa pd ppc0 ir0 mem].
  cbn [d a pc sr memory cyclesRun cyclesRemain set_d set_sr set_cyclesRun
       set_cyclesRemain cpuType usp isp msp sfc dfc vbr cacr caar stopped halted
       irqLevel virq prefetchAddr prefetchData ppc ir] in *.
  split; [exact Hi|]. split; [exact Ho|].
  split.
  { rewrite Hn. change (32 - 1) with 31. rewrite signExtend8_bit by lia. reflexivity. }
  split.
  { rewrite Hz, Z.mod_small by exact Hr.
    destruct (Z.eqb_spec data 0) as [->|Hne]; [reflexivity|].
    destruct (Z.eqb_spec (signExtend8 data) 0) as [E|E]; [|reflexivity].
    exfalso. apply Hne. apply Z.bits_inj'. intros i Hi0. rewrite Z.bits_0.
    destruct (Z.lt_ge_cases i 8).
    - assert (B := signExtend8_bit data i ltac:(lia) Hi0).
      rewrite E, Z.bits_0 in B. destruct (Z.ltb_spec i 8); [|lia]. congruence.
    - apply (testbit_above data 8); lia. }
  split; [exact Hv|]. split; [exact Hc|]. split; [exact Hrest|].
  repeat split.
Qed.

(** ** Branches *)

Lemma uint32_branch (p disp : Z) : uint32 (sint32 (sint32 p + disp)) = uint32 (p + disp).
Proof.
  rewrite uint32_sint32. unfold uint32.
  rewrite <- (Zplus_mod_idemp_l (sint32 p)). fold (uint32 (sint32 p)).
  rewrite uint32_sint32. unfold uint32. rewrite Zplus_mod_idemp_l. reflexivity.
Qed.

Lemma sint32_small (x : Z) : - 2 ^ 31 <= x < 2 ^ 31 -> sint32 x = x.
Proof. intros Hx. unfold sint32. rewrite Z.mod_small by lia. lia. Qed.

Lemma sint8_range (x : Z) : - 2 ^ 7 <= sint8 x < 2 ^ 7.
Proof. unfold sint8. assert (B := Z.mod_pos_bound (x + 2 ^ 7) (2 ^ 8)). lia. Qed.

Lemma sint16_range (x : Z) : - 2 ^ 15 <= sint16 x < 2 ^ 15.
Proof. unfold sint16. assert (B := Z.mod_pos_bound (x + 2 ^ 15) (2 ^ 16)). lia. Qed.

Lemma sint8_zero (x : Z) : 0 <= x <= 255 -> (sint8 x =? 0) = (x =? 0).
Proof.
  intros Hx. unfold sint8.
  destruct (Z.eqb_spec x 0) as [->|Hne]; [reflexivity|].
  destruct (Z.lt_ge_cases x 128).
  - rewrite Z.mod_small by lia. apply Z.eqb_neq. lia.
  - replace ((x + 2 ^ 7) mod 2 ^ 8) with (x - 128).
    + apply Z.eqb_neq. lia.
    + apply (Z.mod_unique_pos _ _ 1); lia.
Qed.

Lemma testCondition_pure (cond : Z) (cpu : CPU) :
  exists b, testCondition cond cpu = Some (b, cpu).
Proof. unfold testCondition, bind, gets, ret. eexists. reflexivity. Qed.

Lemma readImmediate16_run (cpu : CPU) (h : H) (w : Z) :
  memory cpu = Some h -> Read16 h (pc cpu) = Some w ->
  readImmediate16 cpu = Some (w, set_pc (uint32 (pc cpu + 2)) cpu).
Proof.
  intros Hm Hw. unfold readImmediate16, memRead, bind, gets, lift, modify, ret.
  rewrite Hm. cbv beta iota. rewrite Hm, Hw. reflexivity.
Qed.

Lemma uint32_idem_l (x y : Z) : uint32 (uint32 x + y) = uint32 (x + y).
Proof. unfold uint32. apply Zplus_mod_idemp_l. Qed.

(** X21. BRA and Bcc through the decoder (opcode
    0x6000 + cond * 0x100 + disp8, cond other than 1).  [pc] is the
    address after the opcode word.  With an 8-bit displacement other
    than 0 the branch needs no memory access and goes to
    pc + int8(disp8); with disp8 = 0 the displacement is the word [w]
    at [pc], read by [readImmediate16], and the branch goes to
    pc + 2 + int16(w): the displacement is added to the address after
    the extension word.  BRA always branches, Bcc when
    [testCondition] holds; a branch taken charges 10 cycles, one not
    taken 8 and leaves [pc] after the extension word. *)
Theorem branch_targets (cb : Callbacks) (cpu : CPU) (h : H) (cond disp8 w : Z) :
  0 <= cond <= 15 -> cond <> 1 -> 0 <= disp8 <= 255 ->
  (disp8 = 0 -> memory cpu = Some h /\ Read16 h (pc cpu) = Some w /\ 0 <= w < 2 ^ 16) ->
  exists taken cpu',
    (cond = 0 -> taken = true) /\
    (cond <> 0 -> testCondition cond cpu = Some (taken, cpu)) /\
    decodeAndExecute cb (0x6000 + cond * 0x100 + disp8) cpu = Some (tt, cpu') /\
    pc cpu' =
      (if taken
       then if disp8 =? 0 then uint32 (pc cpu + 2 + sint16 w)
            else uint32 (pc cpu + sint8 disp8)
       else if disp8 =? 0 then uint32 (pc cpu + 2) else pc cpu) /\
    cyclesRun cpu' = int (cyclesRun cpu + (if taken then 10 else 8)) /\
    d cpu' = d cpu /\ a cpu' = a cpu /\ sr cpu' = sr cpu /\ memory cpu' = memory cpu.
Proof.
  intros Hcond Hc1 Hd8 Hword.
  set (opcode := 0x6000 + cond * 0x100 + disp8).
  assert (F12 : Z.shiftr opcode 12 = 6) by (apply field_shiftr; subst opcode; lia).
  assert (F8 : Z.land (Z.shiftr opcode 8) 0x0F = cond).
  { rewrite (field_shiftr opcode 8 (0x60 + cond)) by (subst opcode; lia).
    apply (field_land _ 4 cond 6); lia. }
  assert (F0 : Z.land opcode 0xFF = disp8).
  { apply (field_land _ 8 disp8 (0x60 + cond)); subst opcode; lia. }
  assert (Hs8 : sint32 (sint8 disp8) = sint8 disp8).
  { apply sint32_small. assert (B := sint8_range disp8). lia. }
  assert (Hs16 : sint32 (sint16 w) = sint16 w).
  { apply sint32_small. assert (B := sint16_range w). lia. }
  assert (Hz : (sint32 (sint8 disp8) =? 0) = (disp8 =? 0)).
  { rewrite Hs8. apply sint8_zero. exact Hd8. }
  destruct (testCondition_pure cond cpu) as (b & Hb).
  assert (Hb' : forall p, testCondition cond (set_pc p cpu) = Some (b, set_pc p cpu)).
  { intros p. unfold testCondition, bind, gets, ret in Hb |- *.
    replace (sr (set_pc p cpu)) with (sr cpu) by (destruct cpu; reflexivity).
    inversion Hb as [E]. rewrite E. reflexivity. }
  assert (Hroute : decode6 opcode =
                   if cond =? 0 then opBRA (H:=H) opcode else opBcc opcode).
  { unfold decode6. cbv zeta. rewrite F8.
    destruct cond as [|p|p]; try lia; [reflexivity|].
    destruct p as [p|p|]; try reflexivity. lia. }
  exists (if cond =? 0 then true else b).
  unfold decodeAndExecute. rewrite F12, Hroute.
  destruct (Z.eqb_spec cond 0) as [E0|E0].
  - unfold opBRA. rewrite F0, Hz.
    destruct (Z.eqb_spec disp8 0) as [Ed|Ed].
    + destruct (Hword Ed) as (Hm & Hw & Hwr).
      unfold bind. rewrite (readImmediate16_run cpu h w Hm Hw). cbv beta iota.
      unfold ret, gets, modify. cbv beta iota. rewrite useCycles_run.
      eexists. split; [reflexivity|]. split; [intros; contradiction|].
      split; [reflexivity|].
      rewrite Hs16, uint32_branch.
      destruct cpu. cbn. rewrite uint32_idem_l. repeat split.
    + unfold bind, ret, gets, modify. cbv beta iota. rewrite useCycles_run.
      eexists. split; [reflexivity|]. split; [intros; contradiction|].
      split; [reflexivity|].
      rewrite Hs8, uint32_branch. destruct cpu. cbn. repeat split.
  - unfold opBcc. rewrite F0, F8, Hz.
    destruct (Z.eqb_spec disp8 0) as [Ed|Ed].
    + destruct (Hword Ed) as (Hm & Hw & Hwr).
      unfold bind. rewrite (readImmediate16_run cpu h w Hm Hw). cbv beta iota.
      unfold ret. rewrite Hb'. cbv beta iota.
      destruct b; unfold gets, modify; cbv beta iota; rewrite useCycles_run;
        (eexists; split; [intros; contradiction|]; split; [intros; first [exact Hb | reflexivity]|];
         split; [reflexivity|]);
        rewrite ?Hs16, ?uint32_branch; destruct cpu; cbn; rewrite ?uint32_idem_l;
        repeat split.
    + unfold bind, ret. cbv beta iota. rewrite Hb. cbv beta iota.
      destruct b; unfold gets, modify; cbv beta iota; rewrite useCycles_run;
        (eexists; split; [intros; contradiction|]; split; [intros; first [exact Hb | reflexivity]|];
         split; [reflexivity|]);
        rewrite ?Hs8, ?uint32_branch; destruct cpu; cbn; repeat split.
Qed.

Lemma land_ones16_eq (x : Z) : Z.land x 0xFFFF = x mod 2 ^ 16.
Proof. change 0xFFFF with (Z.ones 16). apply Z.land_ones. lia. Qed.

Lemma land_mod_mask (x m k : Z) :
  0 <= k -> 0 <= m < 2 ^ k -> Z.land x m = Z.land (x mod 2 ^ k) m.
Proof.
  intros Hk Hm. rewrite <- Z.land_ones by exact Hk. rewrite <- Z.land_assoc.
  f_equal. apply Z.bits_inj'. intros i Hi. rewrite Z.land_spec.
  destruct (Z.lt_ge_cases i k).
  - rewrite Z.ones_spec_low by lia. reflexivity.
  - rewrite (testbit_above m k i) by lia. rewrite andb_false_r. reflexivity.
Qed.

Lemma uint32_cong (x y z : Z) : uint32 x = uint32 y -> uint32 (x + z) = uint32 (y + z).
Proof.
  unfold uint32. intros E.
  rewrite <- (Zplus_mod_idemp_l x), E, Zplus_mod_idemp_l. reflexivity.
Qed.

Lemma sint32_shift (x : Z) : exists k, sint32 x = x + k * 2 ^ 32.
Proof.
  exists (- ((x + 2 ^ 31) / 2 ^ 32)). unfold sint32.
  rewrite Z.mod_eq by lia. lia.
Qed.

Lemma uint32_shift (x : Z) : exists k, uint32 x = x + k * 2 ^ 32.
Proof.
  exists (- (x / 2 ^ 32)). unfold uint32. rewrite Z.mod_eq by lia. lia.
Qed.

Lemma uint32_dbcc (p disp : Z) :
  uint32 (sint32 (sint32 (sint32 (uint32 (p + 2)) + disp) - 2)) = uint32 (p + disp).
Proof.
  destruct (uint32_shift (p + 2)) as (k1 & ->).
  destruct (sint32_shift (p + 2 + k1 * 2 ^ 32)) as (k2 & ->).
  destruct (sint32_shift (p + 2 + k1 * 2 ^ 32 + k2 * 2 ^ 32 + disp)) as (k3 & ->).
  destruct (sint32_shift (p + 2 + k1 * 2 ^ 32 + k2 * 2 ^ 32 + disp + k3 * 2 ^ 32 - 2))
    as (k4 & ->).
  replace (p + 2 + k1 * 2 ^ 32 + k2 * 2 ^ 32 + disp + k3 * 2 ^ 32 - 2 + k4 * 2 ^ 32)
    with (p + disp + (k1 + k2 + k3 + k4) * 2 ^ 32) by lia.
  unfold uint32. apply Z_mod_plus_full.
Qed.

(** X22. DBcc through the decoder (opcode
    0x50C8 + cond * 0x100 + reg), with the displacement word [w] at
    [pc].  When the condition holds nothing is counted: the registers
    are unchanged and [pc] is after the extension word (12 cycles).
    Otherwise the low word of the data register is decremented modulo
    2^16, its high word is kept, and the loop branches to
    pc + int16(w), relative to the extension word (10 cycles), unless
    the counter was 0, now 0xFFFF: then execution falls through
    (12 cycles). *)
Theorem dbcc_counts (cb : Callbacks) (cpu : CPU) (h : H) (cond reg w cnt : Z) :
  0 <= cond <= 15 -> 0 <= reg <= 7 ->
  memory cpu = Some h -> Read16 h (pc cpu) = Some w -> 0 <= w < 2 ^ 16 ->
  index (d cpu) reg = Some cnt -> 0 <= cnt < 2 ^ 32 ->
  exists b cpu',
    testCondition cond cpu = Some (b, cpu) /\
    decodeAndExecute cb (0x50C8 + cond * 0x100 + reg) cpu = Some (tt, cpu') /\
    a cpu' = a cpu /\ sr cpu' = sr cpu /\ memory cpu' = memory cpu /\
    if b then
      d cpu' = d cpu /\ pc cpu' = uint32 (pc cpu + 2) /\
      cyclesRun cpu' = int (cyclesRun cpu + 12)
    else
      exists new,
        index (d cpu') reg = Some new /\
        new mod 2 ^ 16 = (cnt - 1) mod 2 ^ 16 /\
        (forall i, 16 <= i -> Z.testbit new i = Z.testbit cnt i) /\
        (forall j, j <> reg -> index (d cpu') j = index (d cpu) j) /\
        if cnt mod 2 ^ 16 =? 0
        then pc cpu' = uint32 (pc cpu + 2) /\
             cyclesRun cpu' = int (cyclesRun cpu + 12)
        else pc cpu' = uint32 (pc cpu + sint16 w) /\
             cyclesRun cpu' = int (cyclesRun cpu + 10).
Proof.
  intros Hcond Hreg Hm Hw Hwr Hcnt Hrange.
  set (opcode := 0x50C8 + cond * 0x100 + reg).
  assert (F12 : Z.shiftr opcode 12 = 5) by (apply field_shiftr; subst opcode; lia).
  assert (F8 : Z.land (Z.shiftr opcode 8) 0x0F = cond).
  { rewrite (field_shiftr opcode 8 (0x50 + cond)) by (subst opcode; lia).
    apply (field_land _ 4 cond 5); lia. }
  assert (F0 : Z.land opcode 7 = reg).
  { apply (field_land _ 3 reg (0xA19 + cond * 0x20)); subst opcode; lia. }
  assert (FC : Z.land opcode 0x00C0 = 0x00C0 /\ Z.land opcode 0x0038 = 0x0008).
  { assert (E : opcode mod 2 ^ 8 = 0xC8 + reg).
    { symmetry. apply (Z.mod_unique_pos _ _ (0x50 + cond)); subst opcode; lia. }
    rewrite (land_mod_mask opcode 0x00C0 8), (land_mod_mask opcode 0x0038 8), E by lia.
    split; cases8 reg; reflexivity. }
  destruct FC as (FC & F38).
  assert (Hs16 : sint32 (sint16 w) = sint16 w).
  { apply sint32_small. assert (B := sint16_range w). lia. }
  destruct (testCondition_pure cond cpu) as (b & Hb).
  assert (Hb' : forall p, testCondition cond (set_pc p cpu) = Some (b, set_pc p cpu)).
  { intros p. unfold testCondition, bind, gets, ret in Hb |- *.
    replace (sr (set_pc p cpu)) with (sr cpu) by (destruct cpu; reflexivity).
    inversion Hb as [E]. rewrite E. reflexivity. }
  set (new := Z.lor (Z.land cnt 0xFFFF0000) (Z.land (uint32 (cnt - 1)) 0xFFFF)).
  assert (Hnew : new = Z.lor (Z.land cnt (Z.shiftl (Z.ones (32 - 16)) 16))
                             (Z.land (uint32 (cnt - 1)) (Z.ones 16))) by reflexivity.
  assert (Hlow : new mod 2 ^ 16 = (cnt - 1) mod 2 ^ 16).
  { rewrite Hnew, merge_low_mod by lia. apply uint32_mod. auto. }
  destruct (store_some (d cpu) reg new Hreg) as (r & Hst & Hi & Ho).
  exists b. unfold decodeAndExecute. rewrite F12. unfold decode5. rewrite FC, F38.
  change (0x00C0 =? 0x00C0) with true. change (0x0008 =? 0x0008) with true. cbv iota.
  unfold opDBcc. rewrite F8, F0. unfold bind.
  rewrite (readImmediate16_run cpu h w Hm Hw). cbv beta iota. rewrite Hb'. cbv beta iota.
  destruct b; cbn [negb]; cbv iota.
  - rewrite useCycles_run. eexists. split; [exact Hb|]. split; [reflexivity|].
    destruct cpu; cbn. repeat split.
  - rewrite (getD_some (set_pc _ cpu) reg cnt) by (destruct cpu; exact Hcnt).
    cbv beta iota. fold new.
    rewrite (setD_some (set_pc _ cpu) reg new r) by (destruct cpu; exact Hst).
    cbv beta iota.
    rewrite (getD_some (set_d r _) reg new) by (destruct cpu; exact Hi).
    cbv beta iota. rewrite land_ones16_eq, Hlow.
    assert (Hexp : ((cnt - 1) mod 2 ^ 16 =? 0xFFFF) = (cnt mod 2 ^ 16 =? 0)).
    { assert (B := Z.mod_pos_bound cnt (2 ^ 16) ltac:(lia)).
      assert (E := Z.div_mod cnt (2 ^ 16) ltac:(lia)).
      destruct (Z.eqb_spec (cnt mod 2 ^ 16) 0) as [E0|E0].
      - apply Z.eqb_eq. symmetry.
        apply (Z.mod_unique_pos _ _ (cnt / 2 ^ 16 - 1)); lia.
      - apply Z.eqb_neq. intros C.
        assert (C' : (cnt - 1) mod 2 ^ 16 = cnt mod 2 ^ 16 - 1).
        { symmetry. apply (Z.mod_unique_pos _ _ (cnt / 2 ^ 16)); lia. }
        lia. }
    rewrite Hexp.
    destruct (cnt mod 2 ^ 16 =? 0); cbn [negb]; cbv iota;
      unfold gets, modify; cbv beta iota; rewrite useCycles_run;
      (eexists; split; [exact Hb|]; split; [reflexivity|]);
      (split; [destruct cpu; reflexivity|]); (split; [destruct cpu; reflexivity|]);
      (split; [destruct cpu; reflexivity|]);
      exists new; (split; [destruct cpu; exact Hi|]); (split; [exact Hlow|]);
      (split; [intros i Hi16; rewrite Hnew, merge_low_bit by lia;
               destruct (Z.ltb_spec i 16); [lia|];
               destruct (Z.ltb_spec i 32); [reflexivity|];
               symmetry; apply (testbit_above cnt 32); lia|]);
      (split; [destruct cpu; exact Ho|]).
    + destruct cpu; cbn. repeat split.
    + rewrite Hs16. destruct cpu; cbn. split; [|reflexivity]. apply uint32_dbcc.
Qed.

End BranchSemantics.

(** ** Round trips through the stack *)

Section StackRoundTrips.

Context {H : Type} {MH : MemoryHandler H} {IS : IntSize}.

Local Abbreviation CPU := (@CPU H).

Lemma uint32_sub_then_add (x y z : Z) : uint32 (uint32 (x - y) + z) = uint32 (x - (y - z)).
Proof. rewrite uint32_idem_l. f_equal. lia. Qed.

(** X23. An interrupt followed by RTE.  With a handler that returns at
    [sp - 6] and [sp - 4] the word and the long that [handleInterrupt]
    has pushed there, the opcode 0x4E73 executed in the state the
    interrupt leaves restores PC, SR (mask and S bit included) and the
    stack pointer; the data and address registers were never touched.
    [irqLevel] is also as before, so the interrupt is still pending
    when the handler returns.  The two steps charge 44 and 20 cycles. *)
Theorem interrupt_then_RTE (cb : Callbacks) (cpu : CPU) (level : Z)
    (h h1 h2 : H) (newpc : Z) :
  memory cpu = Some h ->
  1 <= level <= 7 ->
  intAckCallback cb = None ->
  let sp := e7 (a cpu) in
  let vectorAddr :=
    if CPU68010 <=? cpuType cpu then uint32 (vbr cpu + (0x18 + level) * 4)
    else (0x18 + level) * 4 in
  0 <= sp < 2 ^ 32 ->
  Write32 h (uint32 (sp - 4)) (pc cpu) = Some h1 ->
  Write16 h1 (uint32 (sp - 6)) (sr cpu) = Some h2 ->
  Read32 h2 vectorAddr = Some newpc ->
  Read16 h2 (uint32 (sp - 6)) = Some (sr cpu) ->
  Read32 h2 (uint32 (sp - 4)) = Some (pc cpu) ->
  exists cpu1 cpu2,
    handleInterrupt cb level cpu = Some (tt, cpu1) /\
    pc cpu1 = newpc /\
    decodeAndExecute cb 0x4E73 cpu1 = Some (tt, cpu2) /\
    pc cpu2 = pc cpu /\ sr cpu2 = sr cpu /\ a cpu2 = a cpu /\ d cpu2 = d cpu /\
    usp cpu2 = usp cpu /\ memory cpu2 = Some h2 /\
    irqLevel cpu2 = irqLevel cpu /\
    cyclesRun cpu2 = int (int (cyclesRun cpu + 44) + 20).
Proof.
  intros Hmem Hl Hcb sp vectorAddr Hsp HW1 HW2 HR HR16 HR32.
  subst sp vectorAddr.
  destruct cpu as [ty rd ra pc0 sr0 usp0 isp0 msp0 sfc0 dfc0 vbr0 cacr0 caar0
                   st hl cr cm irq vq pa pd ppc0 ir0 mem].
  destruct ra as [a0 a1 a2 a3 a4 a5 a6 a7].
  destruct cb as [ack rcb hcb].
  cbn [memory a pc sr e7 cpuType vbr intAckCallback d usp irqLevel cyclesRun] in *.
  subst mem ack.
  change (decodeAndExecute {| intAckCallback := None; resetCallback := rcb;
                              instrHookCallback := hcb |} 0x4E73)
    with (opRTE (H:=H)).
  unfold handleInterrupt, opRTE.
  cbn [intAckCallback]. change (IntAckAutovector =? IntAckAutovector) with true.
  cbv iota zeta.
  rewrite (uint32_small (0x18 + level)) by lia.
  exec. rewrite HW1. exec.
  rewrite uint32_sub_l. change (4 + 2) with 6. rewrite HW2. exec.
  rewrite uint32_add_r.
  rewrite (uint32_small ((24 + level) * 4)) by lia.
  rewrite HR. exec.
  eexists. eexists. split; [reflexivity|]. split; [reflexivity|].
  exec. rewrite HR16. exec.
  rewrite uint32_sub_then_add. change (6 - 2) with 4. rewrite HR32. exec.
  rewrite uint32_sub_then_add. change (4 - 4) with 0. rewrite Z.sub_0_r.
  rewrite (uint32_small a7) by exact Hsp.
  split; [reflexivity|]. repeat split.
Qed.

(** X24. BSR followed by RTS, through the decoder.  The opcode
    0x6100 + disp8 (disp8 from 1 to 255) pushes [pc], the address
    after the opcode word, and branches to pc + int8(disp8); with a
    handler that returns at [sp - 4] the long just written, the opcode
    0x4E75 executed next brings back that [pc] and the stack pointer.
    The two steps charge 18 and 16 cycles. *)
Theorem bsr_then_rts (cb : Callbacks) (cpu : CPU) (h h1 : H) (disp8 : Z) :
  memory cpu = Some h ->
  1 <= disp8 <= 255 ->
  let sp := e7 (a cpu) in
  0 <= sp < 2 ^ 32 ->
  Write32 h (uint32 (sp - 4)) (pc cpu) = Some h1 ->
  Read32 h1 (uint32 (sp - 4)) = Some (pc cpu) ->
  exists cpu1 cpu2,
    decodeAndExecute cb (0x6100 + disp8) cpu = Some (tt, cpu1) /\
    pc cpu1 = uint32 (pc cpu + sint8 disp8) /\
    index (a cpu1) 7 = Some (uint32 (sp - 4)) /\
    memory cpu1 = Some h1 /\
    decodeAndExecute cb 0x4E75 cpu1 = Some (tt, cpu2) /\
    pc cpu2 = pc cpu /\ a cpu2 = a cpu /\ d cpu2 = d cpu /\ sr cpu2 = sr cpu /\
    memory cpu2 = Some h1 /\
    cyclesRun cpu2 = int (int (cyclesRun cpu + 18) + 16).
Proof.
  intros Hmem Hd8 sp Hsp HW HR. subst sp.
  set (opcode := 0x6100 + disp8).
  assert (F12 : Z.shiftr opcode 12 = 6) by (apply field_shiftr; subst opcode; lia).
  assert (F8 : Z.land (Z.shiftr opcode 8) 0x0F = 1).
  { rewrite (field_shiftr opcode 8 0x61) by (subst opcode; lia). reflexivity. }
  assert (F0 : Z.land opcode 0xFF = disp8).
  { apply (field_land _ 8 disp8 0x61); subst opcode; lia. }
  assert (Hs8 : sint32 (sint8 disp8) = sint8 disp8).
  { apply sint32_small. assert (B := sint8_range disp8). lia. }
  assert (Hz : (sint32 (sint8 disp8) =? 0) = false).
  { rewrite Hs8, sint8_zero by lia. apply Z.eqb_neq. lia. }
  assert (Hroute : decodeAndExecute cb opcode = opBSR (H:=H) opcode).
  { unfold decodeAndExecute. rewrite F12. unfold decode6. cbv zeta. rewrite F8.
    reflexivity. }
  rewrite Hroute. change (decodeAndExecute cb 0x4E75) with (opRTS (H:=H)).
  unfold opBSR, opRTS. rewrite F0, Hz, Hs8.
  destruct cpu as [ty rd ra pc0 sr0 usp0 isp0 msp0 sfc0 dfc0 vbr0 cacr0 caar0
                   st hl cr cm irq vq pa pd ppc0 ir0 mem].
  destruct ra as [a0 a1 a2 a3 a4 a5 a6 a7].
  cbn [memory a pc sr e7 d cyclesRun] in *. subst mem.
  exec. rewrite HW. exec.
  eexists. eexists. split; [reflexivity|].
  split; [apply uint32_branch|]. split; [reflexivity|]. split; [reflexivity|].
  exec. rewrite HR. exec.
  rewrite uint32_sub_then_add. change (4 - 4) with 0. rewrite Z.sub_0_r.
  rewrite (uint32_small a7) by exact Hsp.
  split; [reflexivity|]. repeat split.
Qed.

(** X25. LINK followed by UNLK, on the two handlers (the decoder does
    not reach them).  For an address register other than A7 and the
    displacement word [w] at [pc], [opLINK] pushes An, loads An with
    the new stack pointer sp - 4 and adds int16(w) to A7; with a
    handler that returns at [sp - 4] the long just written, [opUNLK] on
    the same register then restores An and A7. *)
Theorem link_then_unlk (cpu : CPU) (h h1 : H) (reg w an : Z) :
  0 <= reg <= 6 ->
  memory cpu = Some h ->
  Read16 h (pc cpu) = Some w ->
  index (a cpu) reg = Some an ->
  let sp := e7 (a cpu) in
  0 <= sp < 2 ^ 32 ->
  Write32 h (uint32 (sp - 4)) an = Some h1 ->
  Read32 h1 (uint32 (sp - 4)) = Some an ->
  exists cpu1 cpu2,
    opLINK (0x4E50 + reg) cpu = Some (tt, cpu1) /\
    index (a cpu1) reg = Some (uint32 (sp - 4)) /\
    index (a cpu1) 7 = Some (uint32 (sp - 4 + sint16 w)) /\
    pc cpu1 = uint32 (pc cpu + 2) /\
    opUNLK (0x4E58 + reg) cpu1 = Some (tt, cpu2) /\
    a cpu2 = a cpu /\ d cpu2 = d cpu /\ pc cpu2 = pc cpu1 /\ memory cpu2 = Some h1.
Proof.
  intros Hreg Hmem Hw Han sp Hsp HW HR. subst sp.
  assert (Hs16 : sint32 (sint16 w) = sint16 w).
  { apply sint32_small. assert (B := sint16_range w). lia. }
  assert (Hsum : forall x, uint32 (sint32 (sint32 (uint32 x) + sint16 w))
                           = uint32 (x + sint16 w)).
  { intros x. rewrite uint32_branch, uint32_idem_l. reflexivity. }
  destruct cpu as [ty rd ra pc0 sr0 usp0 isp0 msp0 sfc0 dfc0 vbr0 cacr0 caar0
                   st hl cr cm irq vq pa pd ppc0 ir0 mem].
  destruct ra as [a0 a1 a2 a3 a4 a5 a6 a7].
  cbn [memory a pc sr e7 d] in *. subst mem.
  assert (C : reg = 0 \/ reg = 1 \/ reg = 2 \/ reg = 3 \/ reg = 4 \/ reg = 5 \/ reg = 6)
    by lia.
  unfold opLINK, opUNLK.
  destruct C as [->|[->|[->|[->|[->|[->| ->]]]]]];
    cbn [index e0 e1 e2 e3 e4 e5 e6] in Han; inversion Han; subst;
    zeval; exec; rewrite Hw; exec; rewrite HW; exec; rewrite Hs16, Hsum;
    (eexists; eexists; split; [reflexivity|]);
    (split; [reflexivity|]); (split; [reflexivity|]); (split; [reflexivity|]);
    exec; rewrite HR; exec;
    rewrite uint32_sub_then_add; change (4 - 4) with 0; rewrite Z.sub_0_r;
    rewrite (uint32_small a7) by exact Hsp;
    (split; [reflexivity|]); repeat split.
Qed.

End StackRoundTrips.

(** ** Read-modify-write on a memory operand *)

Section ReadModifyWrite.

Context {H : Type} {MH : MemoryHandler H} {IS : IntSize}.

Local Abbreviation CPU := (@CPU H).

Lemma not_byte (v : Z) :
  0 <= v <= 255 -> uint8 (Z.land (uint32 (Z.lnot v)) 0xFF) = 255 - v.
Proof.
  intros Hv.
  replace (Z.land (uint32 (Z.lnot v)) 0xFF) with (uint32 (Z.lnot v) mod 2 ^ 8)
    by (symmetry; apply (Z.land_ones _ 8); lia).
  unfold uint8. rewrite Zmod_mod. unfold uint32.
  rewrite Z.mod_mod_divide by (exists (2 ^ 24); reflexivity).
  unfold Z.lnot. symmetry. apply (Z.mod_unique_pos _ _ (- 1)); lia.
Qed.

Lemma not_byte_bit7 (v : Z) :
  0 <= v <= 255 -> Z.testbit (uint32 (Z.lnot v)) 7 = negb (Z.testbit v 7).
Proof.
  intros Hv. rewrite testbit_uint32. rewrite Z.lnot_spec by lia. reflexivity.
Qed.

Lemma not_byte_zero (v : Z) :
  0 <= v <= 255 -> (uint32 (Z.lnot v) mod 2 ^ 8 =? 0) = (v =? 255).
Proof.
  intros Hv. unfold uint32.
  rewrite Z.mod_mod_divide by (exists (2 ^ 24); reflexivity).
  replace (Z.lnot v mod 2 ^ 8) with (255 - v).
  - destruct (Z.eqb_spec v 255); destruct (Z.eqb_spec (255 - v) 0); try reflexivity; lia.
  - unfold Z.lnot. apply (Z.mod_unique_pos _ _ (- 1)); lia.
Qed.

(** X26. A read-modify-write instruction on (An)+ steps the register
    twice.  NOT.B (An)+ (opcode 0x4618 + reg) through the decoder:
    [opNOT] reads the byte [v] at An with [readEA], which advances An,
    and writes 255 - v with [writeEA], which takes the advanced An as
    its address and advances it again.  So the complement lands one
    step after the operand, which is left as it was, and An ends two
    steps further (a step is 1, and 2 for A7).  N and Z are those of
    the complement. *)
Theorem not_postincrement_steps_twice (cb : Callbacks) (cpu : CPU) (h h' : H)
    (reg addr v : Z) :
  0 <= reg <= 7 ->
  memory cpu = Some h ->
  index (a cpu) reg = Some addr ->
  let step := if reg =? 7 then 2 else 1 in
  Read8 h addr = Some v -> 0 <= v <= 255 ->
  Write8 h (uint32 (addr + step)) (255 - v) = Some h' ->
  exists cpu',
    decodeAndExecute cb (0x4618 + reg) cpu = Some (tt, cpu') /\
    memory cpu' = Some h' /\
    index (a cpu') reg = Some (uint32 (addr + 2 * step)) /\
    (forall j, j <> reg -> index (a cpu') j = index (a cpu) j) /\
    d cpu' = d cpu /\ pc cpu' = pc cpu /\
    Z.testbit (sr cpu') 3 = negb (Z.testbit v 7) /\
    Z.testbit (sr cpu') 2 = (v =? 255) /\
    cyclesRun cpu' = int (cyclesRun cpu + 4).
Proof.
  intros Hreg Hmem Haddr step Hr Hv Hw. subst step.
  assert (Hres : 0 <= uint32 (Z.lnot v) < 2 ^ 32) by (apply Z.mod_pos_bound; lia).
  destruct cpu as [ty rd ra pc0 sr0 usp0 isp0 msp0 sfc0 dfc0 vbr0 cacr0 caar0
                   st hl cr cm irq vq pa pd ppc0 ir0 mem].
  destruct ra as [a0 a1 a2 a3 a4 a5 a6 a7].
  cbn [memory a pc sr d cyclesRun] in *. subst mem.
  revert Hw.
  cases8 reg; cbn [index e0 e1 e2 e3 e4 e5 e6 e7] in Haddr; inversion Haddr; subst;
    zeval; cbv iota; intros Hw;
    match goal with
    | |- context [decodeAndExecute cb ?op] =>
      change (decodeAndExecute cb op) with (opNOT (H:=H) op)
    end;
    unfold opNOT, getSize; steps; unfold readEA, writeEA, eaStep; steps;
    rewrite Hr; steps;
    match goal with
    | |- context [setFlagsLogical ?r ?z ?c] =>
      destruct (setFlagsLogical_run c r z ltac:(auto) Hres)
        as (s' & Hrun & _ & _ & Hz & Hn & _);
      rewrite Hrun
    end;
    steps; rewrite not_byte by exact Hv;
    rewrite Hw; steps;
    (eexists; split; [reflexivity|]); (split; [reflexivity|]);
    rewrite uint32_idem_l;
    (split; [f_equal; f_equal; lia|]);
    (split; [intros j Hj; destruct j as [|p|p]; try reflexivity;
             repeat (destruct p as [p|p|]; try reflexivity); contradiction|]);
    (split; [reflexivity|]); (split; [reflexivity|]);
    (split; [rewrite Hn; apply not_byte_bit7; exact Hv|]);
    (split; [rewrite Hz; apply not_byte_zero; exact Hv|]); reflexivity.
Qed.

End ReadModifyWrite.

(** ** A CPU without memory handler *)

Section NilMemory.

Context {H : Type} {MH : MemoryHandler H} {IS : IntSize}.

Local Abbreviation CPU := (@CPU H).

Lemma rn_ret {A : Type} (x : A) : returnsNil (@ret H A x).
Proof. intros cpu Hm. exists x, cpu. split; [reflexivity|exact Hm]. Qed.

Lemma rn_bind {A B : Type} (m : @M H A) (k : A -> @M H B) :
  returnsNil m -> (forall x, returnsNil (k x)) -> returnsNil (bind m k).
Proof.
  intros Hm Hk cpu Hnil. destruct (Hm cpu Hnil) as (x & c1 & E1 & N1).
  destruct (Hk x c1 N1) as (y & c2 & E2 & N2).
  exists y, c2. unfold bind. rewrite E1. split; assumption.
Qed.

Lemma rn_gets {A : Type} (f : CPU -> A) : returnsNil (gets f).
Proof. intros cpu Hm. exists (f cpu), cpu. split; [reflexivity|exact Hm]. Qed.

Lemma rn_modify (f : CPU -> CPU) :
  (forall c, memory (f c) = memory c) -> returnsNil (modify f).
Proof.
  intros Hf cpu Hm. exists tt, (f cpu). split; [reflexivity|]. rewrite Hf. exact Hm.
Qed.

Lemma rn_lift {A : Type} (x : A) : returnsNil (@lift H A (Some x)).
Proof. apply rn_ret. Qed.

Lemma rn_getD (i : Z) : 0 <= i <= 7 -> returnsNil (@getD H i).
Proof.
  intros Hi cpu Hm. destruct (index_some (d cpu) i Hi) as (x & E).
  exists x, cpu. split; [apply getD_some; exact E|exact Hm].
Qed.

Lemma rn_getA (i : Z) : 0 <= i <= 7 -> returnsNil (@getA H i).
Proof.
  intros Hi cpu Hm. destruct (index_some (a cpu) i Hi) as (x & E).
  exists x, cpu. split; [apply getA_some; exact E|exact Hm].
Qed.

Lemma rn_setD (i v : Z) : 0 <= i <= 7 -> returnsNil (@setD H i v).
Proof.
  intros Hi cpu Hm. destruct (store_some (d cpu) i v Hi) as (r & E & _).
  exists tt, (set_d r cpu). split; [apply setD_some; exact E|].
  destruct cpu; exact Hm.
Qed.

Lemma rn_setA (i v : Z) : 0 <= i <= 7 -> returnsNil (@setA H i v).
Proof.
  intros Hi cpu Hm. destruct (store_some (a cpu) i v Hi) as (r & E & _).
  exists tt, (set_a r cpu). split; [apply setA_some; exact E|].
  destruct cpu; exact Hm.
Qed.

Lemma rn_useCycles (n : Z) : returnsNil (@useCycles H IS n).
Proof.
  intros cpu Hm. eexists. eexists. split; [apply useCycles_run|].
  destruct cpu; exact Hm.
Qed.

Lemma rn_nil_branch {A : Type} (x : A) (k : @M H A) :
  returnsNil (bind (gets memory)
                (fun mem => match mem with None => ret x | Some _ => k end)).
Proof.
  intros cpu Hm. exists x, cpu. split; [|exact Hm].
  unfold bind, gets. rewrite Hm. reflexivity.
Qed.

Lemma rn_readMem (address size : Z) : returnsNil (@readMem H MH address size).
Proof. apply rn_nil_branch. Qed.

Lemma rn_writeMem (address value size : Z) : returnsNil (@writeMem H MH address value size).
Proof. apply rn_nil_branch. Qed.

Lemma rn_readImmediate16 : returnsNil (@readImmediate16 H MH).
Proof. apply rn_nil_branch. Qed.

Lemma rn_readImmediate32 : returnsNil (@readImmediate32 H MH).
Proof. apply rn_nil_branch. Qed.

Lemma rn_popWord : returnsNil (@popWord H MH).
Proof. apply rn_nil_branch. Qed.

Lemma rn_popLong : returnsNil (@popLong H MH).
Proof. apply rn_nil_branch. Qed.

Lemma rn_pushLong (v : Z) : returnsNil (@pushLong H MH v).
Proof.
  unfold pushLong. apply rn_bind; [apply rn_getA; lia|]. intros sp.
  apply rn_bind; [apply rn_setA; lia|]. intros _.
  intros cpu Hm. exists tt, cpu. split; [|exact Hm].
  unfold bind, gets. rewrite Hm. reflexivity.
Qed.

Lemma rn_testCondition (cond : Z) : returnsNil (@testCondition H cond).
Proof.
  intros cpu Hm. destruct (testCondition_pure cond cpu) as (b & E).
  exists b, cpu. split; assumption.
Qed.

(** The steps that only assign SR. *)
Ltac rn_sr := apply rn_modify; intros c; destruct c; reflexivity.

Ltac rn_step :=
  first
    [ apply rn_ret
    | apply rn_gets
    | apply rn_lift
    | apply rn_useCycles
    | apply rn_readMem
    | apply rn_writeMem
    | apply rn_readImmediate16
    | apply rn_readImmediate32
    | apply rn_popWord
    | apply rn_popLong
    | apply rn_pushLong
    | apply rn_testCondition
    | apply rn_getD; first [apply land7_range | lia]
    | apply rn_getA; first [apply land7_range | lia]
    | apply rn_setD; first [apply land7_range | lia]
    | apply rn_setA; first [apply land7_range | lia]
    | rn_sr
    | apply rn_bind; [|intros ?]
    | match goal with
      | |- returnsNil (if ?b then _ else _) => destruct b
      | |- returnsNil (match ?x with _ => _ end) => destruct x
      | |- returnsNil (let '(_, _) := ?x in _) => destruct x
      end ].

Ltac rn := repeat rn_step.

Lemma rn_setFlagsLogical (result size : Z) : returnsNil (@setFlagsLogical H result size).
Proof. unfold setFlagsLogical. rn. Qed.

Lemma rn_setFlagsAdd (dest src result size : Z) :
  returnsNil (@setFlagsAdd H dest src result size).
Proof. unfold setFlagsAdd. rn; apply rn_setFlagsLogical. Qed.

Lemma rn_setFlagsSub (dest src result size : Z) :
  returnsNil (@setFlagsSub H dest src result size).
Proof. unfold setFlagsSub. rn; apply rn_setFlagsLogical. Qed.

Lemma rn_eaIndex (ext : Z) : returnsNil (@eaIndex H ext).
Proof. unfold eaIndex. cbv zeta. rn. Qed.

Lemma rn_readEA (mode reg size : Z) :
  0 <= reg <= 7 -> returnsNil (@readEA H MH mode reg size).
Proof. intros Hreg. unfold readEA. cbv zeta. rn; apply rn_eaIndex. Qed.

Lemma rn_writeEA (mode reg size value : Z) :
  0 <= reg <= 7 -> returnsNil (@writeEA H MH mode reg size value).
Proof. intros Hreg. unfold writeEA. cbv zeta. rn; apply rn_eaIndex. Qed.

Lemma rn_controlAddress (eaMode eaReg : Z) :
  0 <= eaReg <= 7 -> returnsNil (@controlAddress H MH eaMode eaReg).
Proof. intros Hreg. unfold controlAddress. cbv zeta. rn; apply rn_eaIndex. Qed.

Lemma rn_getSize {A : Type} (opcode shift : Z) (k : Z -> @M H A) :
  0 <= shift -> (forall size, returnsNil (k size)) ->
  returnsNil (bind (lift (getSize opcode shift)) k).
Proof.
  intros Hs Hk. unfold getSize. destruct (Z.ltb_spec shift 0); [lia|].
  apply rn_bind; [apply rn_lift|exact Hk].
Qed.

(** One more step for the instruction handlers: the accessors of
    addressing.go and the flag setters. *)
Ltac rn_op_step :=
  first
    [ apply rn_getSize; [lia|intros ?]
    | apply rn_setFlagsLogical
    | apply rn_setFlagsAdd
    | apply rn_setFlagsSub
    | apply rn_readEA; first [apply land7_range | lia]
    | apply rn_writeEA; first [apply land7_range | lia]
    | apply rn_controlAddress; first [apply land7_range | lia]
    | rn_step ].

Ltac rn_op := cbv zeta; repeat rn_op_step.

Lemma rn_opIllegal (opcode : Z) : returnsNil (@opIllegal H IS opcode).
Proof. unfold opIllegal. rn_op. Qed.

Lemma rn_opMOVEQ (opcode : Z) : returnsNil (@opMOVEQ H IS opcode).
Proof. unfold opMOVEQ. rn_op. Qed.

Lemma rn_opMOVE (opcode : Z) : returnsNil (@opMOVE H MH IS opcode).
Proof. unfold opMOVE. rn_op. Qed.

Lemma rn_opMOVEA (opcode : Z) : returnsNil (@opMOVEA H MH IS opcode).
Proof. unfold opMOVEA. rn_op. Qed.

Lemma rn_opADD (opcode : Z) : returnsNil (@opADD H MH IS opcode).
Proof. unfold opADD. rn_op. Qed.

Lemma rn_opADDA (opcode : Z) : returnsNil (@opADDA H MH IS opcode).
Proof. unfold opADDA. rn_op. Qed.

Lemma rn_opADDI (opcode : Z) : returnsNil (@opADDI H MH IS opcode).
Proof. unfold opADDI. rn_op. Qed.

Lemma rn_opADDQ (opcode : Z) : returnsNil (@opADDQ H MH IS opcode).
Proof. unfold opADDQ. rn_op. Qed.

Lemma rn_opSUB (opcode : Z) : returnsNil (@opSUB H MH IS opcode).
Proof. unfold opSUB. rn_op. Qed.

Lemma rn_opSUBA (opcode : Z) : returnsNil (@opSUBA H MH IS opcode).
Proof. unfold opSUBA. rn_op. Qed.

Lemma rn_opSUBI (opcode : Z) : returnsNil (@opSUBI H MH IS opcode).
Proof. unfold opSUBI. rn_op. Qed.

Lemma rn_opSUBQ (opcode : Z) : returnsNil (@opSUBQ H MH IS opcode).
Proof. unfold opSUBQ. rn_op. Qed.

Lemma rn_opAND (opcode : Z) : returnsNil (@opAND H MH IS opcode).
Proof. unfold opAND. rn_op. Qed.

Lemma rn_opANDI (opcode : Z) : returnsNil (@opANDI H MH IS opcode).
Proof. unfold opANDI. rn_op. Qed.

Lemma rn_opOR (opcode : Z) : returnsNil (@opOR H MH IS opcode).
Proof. unfold opOR. rn_op. Qed.

Lemma rn_opORI (opcode : Z) : returnsNil (@opORI H MH IS opcode).
Proof. unfold opORI. rn_op. Qed.

Lemma rn_opEOR (opcode : Z) : returnsNil (@opEOR H MH IS opcode).
Proof. unfold opEOR. rn_op. Qed.

Lemma rn_opEORI (opcode : Z) : returnsNil (@opEORI H MH IS opcode).
Proof. unfold opEORI. rn_op. Qed.

Lemma rn_opNOT (opcode : Z) : returnsNil (@opNOT H MH IS opcode).
Proof. unfold opNOT. rn_op. Qed.

Lemma rn_opCLR (opcode : Z) : returnsNil (@opCLR H MH IS opcode).
Proof. unfold opCLR. rn_op. Qed.

Lemma rn_opNEG (opcode : Z) : returnsNil (@opNEG H MH IS opcode).
Proof. unfold opNEG. rn_op. Qed.

Lemma rn_opCMP (opcode : Z) : returnsNil (@opCMP H MH IS opcode).
Proof. unfold opCMP. rn_op. Qed.

Lemma rn_opCMPA (opcode : Z) : returnsNil (@opCMPA H MH IS opcode).
Proof. unfold opCMPA. rn_op. Qed.

Lemma rn_opCMPI (opcode : Z) : returnsNil (@opCMPI H MH IS opcode).
Proof. unfold opCMPI. rn_op. Qed.

Lemma rn_opTST (opcode : Z) : returnsNil (@opTST H MH IS opcode).
Proof. unfold opTST. rn_op. Qed.

Lemma rn_opJMP (opcode : Z) : returnsNil (@opJMP H MH IS opcode).
Proof. unfold opJMP. rn_op. Qed.

Lemma rn_opJSR (opcode : Z) : returnsNil (@opJSR H MH IS opcode).
Proof. unfold opJSR. rn_op. Qed.

Lemma rn_opRTS : returnsNil (@opRTS H MH IS).
Proof. unfold opRTS. rn_op. Qed.

Lemma rn_opBRA (opcode : Z) : returnsNil (@opBRA H MH IS opcode).
Proof. unfold opBRA. rn_op. Qed.

Lemma rn_opBcc (opcode : Z) : returnsNil (@opBcc H MH IS opcode).
Proof. unfold opBcc. rn_op. Qed.

Lemma rn_opBSR (opcode : Z) : returnsNil (@opBSR H MH IS opcode).
Proof. unfold opBSR. rn_op. Qed.

Lemma rn_opDBcc (opcode : Z) : returnsNil (@opDBcc H MH IS opcode).
Proof. unfold opDBcc. rn_op. Qed.

Lemma rn_opScc (opcode : Z) : returnsNil (@opScc H MH IS opcode).
Proof. unfold opScc. rn_op. Qed.

Lemma rn_opLEA (opcode : Z) : returnsNil (@opLEA H MH IS opcode).
Proof. unfold opLEA. rn_op. Qed.

Lemma rn_opPEA (opcode : Z) : returnsNil (@opPEA H MH IS opcode).
Proof. unfold opPEA. rn_op. Qed.

Lemma rn_opEXG (opcode : Z) : returnsNil (@opEXG H IS opcode).
Proof. unfold opEXG. rn_op. Qed.

Lemma rn_opSWAP (opcode : Z) : returnsNil (@opSWAP H IS opcode).
Proof. unfold opSWAP. rn_op. Qed.

Lemma rn_opEXT (opcode : Z) : returnsNil (@opEXT H IS opcode).
Proof. unfold opEXT. rn_op. Qed.

Lemma rn_opSTOP : returnsNil (@opSTOP H MH IS).
Proof. unfold opSTOP. rn_op. Qed.

Lemma rn_opRTE : returnsNil (@opRTE H MH IS).
Proof. unfold opRTE. rn_op. Qed.

Lemma rn_opRTR : returnsNil (@opRTR H MH IS).
Proof. unfold opRTR. rn_op. Qed.

Lemma rn_opTRAPV : returnsNil (@opTRAPV H IS).
Proof. unfold opTRAPV. rn_op. Qed.

Lemma rn_opLINK (opcode : Z) : returnsNil (@opLINK H MH IS opcode).
Proof. unfold opLINK. rn_op. Qed.

Lemma rn_opUNLK (opcode : Z) : returnsNil (@opUNLK H MH IS opcode).
Proof. unfold opUNLK. rn_op. Qed.

Lemma rn_opMOVEUSP (opcode : Z) : returnsNil (@opMOVEUSP H IS opcode).
Proof. unfold opMOVEUSP. rn_op. Qed.

Lemma rn_opORItoCCR (opcode : Z) : returnsNil (@opORItoCCR H MH IS opcode).
Proof. unfold opORItoCCR. rn_op. Qed.

Lemma rn_opANDItoCCR (opcode : Z) : returnsNil (@opANDItoCCR H MH IS opcode).
Proof. unfold opANDItoCCR. rn_op. Qed.

Lemma rn_opEORItoCCR (opcode : Z) : returnsNil (@opEORItoCCR H MH IS opcode).
Proof. unfold opEORItoCCR. rn_op. Qed.

Lemma rn_opRESET (cb : Callbacks) :
  resetCallback cb = None -> returnsNil (@opRESET H IS cb).
Proof. intros Hcb. unfold opRESET. rewrite Hcb. rn_op. Qed.

Create HintDb rn_ops.

Local Hint Resolve
  rn_opIllegal rn_opMOVEQ rn_opMOVE rn_opMOVEA rn_opADD rn_opADDA
  rn_opADDI rn_opADDQ rn_opSUB rn_opSUBA rn_opSUBI rn_opSUBQ
  rn_opAND rn_opANDI rn_opOR rn_opORI rn_opEOR rn_opEORI
  rn_opNOT rn_opCLR rn_opNEG rn_opCMP rn_opCMPA rn_opCMPI
  rn_opTST rn_opJMP rn_opJSR rn_opRTS rn_opBRA rn_opBcc
  rn_opBSR rn_opDBcc rn_opScc rn_opLEA rn_opPEA rn_opEXG
  rn_opSWAP rn_opEXT rn_opSTOP rn_opRTE rn_opRTR rn_opTRAPV
  rn_opLINK rn_opUNLK rn_opMOVEUSP rn_opORItoCCR rn_opANDItoCCR rn_opEORItoCCR : rn_ops.

Lemma rn_stub (n : Z) : returnsNil (@useCycles H IS n).
Proof. apply rn_useCycles. Qed.

Ltac rn_decode :=
  repeat match goal with
         | |- returnsNil (if ?b then _ else _) => destruct b
         | |- returnsNil (match ?x with _ => _ end) => destruct x
         end;
  first [ solve [auto with rn_ops] | apply rn_stub | apply rn_ret ].

Lemma rn_decode0 (opcode : Z) : returnsNil (@decode0 H MH IS opcode).
Proof. unfold decode0. rn_decode. Qed.

Lemma rn_decodeMOVE (opcode : Z) : returnsNil (@decodeMOVE H MH IS opcode).
Proof. unfold decodeMOVE. cbv zeta. rn_decode. Qed.

Lemma rn_decode4 (cb : Callbacks) (opcode : Z) :
  resetCallback cb = None -> returnsNil (@decode4 H MH IS cb opcode).
Proof.
  intros Hcb. unfold decode4.
  destruct (opcode =? 0x4E70); [apply rn_opRESET; exact Hcb|].
  rn_decode.
Qed.

Lemma rn_decode5 (opcode : Z) : returnsNil (@decode5 H MH IS opcode).
Proof. unfold decode5. rn_decode. Qed.

Lemma rn_decode6 (opcode : Z) : returnsNil (@decode6 H MH IS opcode).
Proof. unfold decode6. cbv zeta. rn_decode. Qed.

Lemma rn_decodeMOVEQ (opcode : Z) : returnsNil (@decodeMOVEQ H IS opcode).
Proof. unfold decodeMOVEQ. rn_decode. Qed.

Lemma rn_decode8 (opcode : Z) : returnsNil (@decode8 H MH IS opcode).
Proof. unfold decode8. rn_decode. Qed.

Lemma rn_decode9D (opcode : Z) : returnsNil (@decode9D H MH IS opcode).
Proof. unfold decode9D. cbv zeta. rn_decode. Qed.

Lemma rn_decodeB (opcode : Z) : returnsNil (@decodeB H MH IS opcode).
Proof. unfold decodeB. rn_decode. Qed.

Lemma rn_decodeC (opcode : Z) : returnsNil (@decodeC H MH IS opcode).
Proof. unfold decodeC. rn_decode. Qed.

Lemma rn_decodeE (opcode : Z) : returnsNil (@decodeE H IS opcode).
Proof. unfold decodeE. rn_decode. Qed.

(** X27. Without memory handler no opcode makes the decoder panic.
    For every integer given as opcode and every CPU state with
    [memory = nil], when no reset callback is registered,
    [decodeAndExecute] returns: every register index that the
    handlers compute is within 0..7, and every memory access is
    guarded by the nil test; the CPU still has no handler afterwards. *)
Theorem decodeAndExecute_without_memory (cb : Callbacks) (opcode : Z) (cpu : CPU) :
  resetCallback cb = None ->
  memory cpu = None ->
  exists cpu',
    decodeAndExecute cb opcode cpu = Some (tt, cpu') /\ memory cpu' = None.
Proof.
  intros Hcb Hm.
  assert (R : returnsNil (decodeAndExecute cb opcode)).
  { unfold decodeAndExecute.
    destruct (Z.shiftr opcode 12) as [|p|p];
      [apply rn_decode0| |apply rn_opIllegal].
    repeat (destruct p as [p|p|];
            try first [ apply rn_opIllegal | apply rn_decodeMOVE
                      | apply rn_decode4; exact Hcb | apply rn_decode5
                      | apply rn_decode6 | apply rn_decodeMOVEQ | apply rn_decode8
                      | apply rn_decode9D | apply rn_decodeB | apply rn_decodeC
                      | apply rn_decodeE | apply rn_decode0 ]). }
  destruct (R cpu Hm) as ([] & cpu' & E & N). exists cpu'. split; assumption.
Qed.

End NilMemory.

(** ** Group 4 of the decoder, STOP *)

Section MoreDecoder.

Context {H : Type} {MH : MemoryHandler H} {IS : IntSize}.

Local Abbreviation CPU := (@CPU H).

(** X28. Where group 4 sends the one-operand instructions whose size
    is in bits 7-6.  With [ea] the six bits of the effective address:
    the byte forms 0x4000 + ea, 0x4200 + ea, 0x4400 + ea, 0x4600 + ea
    run [opNEGX], [opCLR], [opNEG], [opNOT]; the word forms
    (0x4040, 0x4240, 0x4440, 0x4640, and TST.W 0x4A40, plus ea) run
    [opEXT] for mode 0, [opSWAP] for mode 1 and [opIllegal] otherwise;
    the long forms (0x4080, 0x4280, 0x4480, 0x4680 plus ea) run the
    MOVEM-to-registers stub; TST.B (0x4A00 + ea) runs [opIllegal] and
    TST.L (0x4A80 + ea) the MOVEM-to-memory stub.  For the opcodes of
    the byte forms [getSize] gives 8: the word and long encodings of
    CLR, NEG and NOT do not reach [opCLR], [opNEG], [opNOT], and no
    TST encoding reaches [opTST]. *)
Theorem decode4_unary_sizes (cb : Callbacks) (mode reg base : Z) :
  0 <= mode <= 7 -> 0 <= reg <= 7 ->
  base = 0x4000 \/ base = 0x4200 \/ base = 0x4400 \/ base = 0x4600 ->
  let ea := 8 * mode + reg in
  decodeAndExecute cb (base + ea) =
    (if base =? 0x4000 then opNEGX (base + ea)
     else if base =? 0x4200 then opCLR (base + ea)
     else if base =? 0x4400 then opNEG (base + ea)
     else opNOT (base + ea)) /\
  decodeAndExecute cb (base + 0x40 + ea) =
    (if mode =? 0 then opEXT (base + 0x40 + ea)
     else if mode =? 1 then opSWAP (base + 0x40 + ea)
     else opIllegal (base + 0x40 + ea)) /\
  decodeAndExecute cb (base + 0x80 + ea) = opMOVEMtoReg (base + 0x80 + ea) /\
  decodeAndExecute cb (0x4A00 + ea) = opIllegal (0x4A00 + ea) /\
  decodeAndExecute cb (0x4A40 + ea) =
    (if mode =? 0 then opEXT (0x4A40 + ea)
     else if mode =? 1 then opSWAP (0x4A40 + ea)
     else opIllegal (0x4A40 + ea)) /\
  decodeAndExecute cb (0x4A80 + ea) = opMOVEMtoMem (0x4A80 + ea) /\
  getSize (base + ea) 6 = Some 8.
Proof.
  intros Hmode Hreg Hbase ea. subst ea.
  split; [destruct Hbase as [->|[->|[->| ->]]]; cases8 mode; cases8 reg; reflexivity|].
  split; [destruct Hbase as [->|[->|[->| ->]]]; cases8 mode; cases8 reg; reflexivity|].
  split; [destruct Hbase as [->|[->|[->| ->]]]; cases8 mode; cases8 reg; reflexivity|].
  split; [cases8 mode; cases8 reg; reflexivity|].
  split; [cases8 mode; cases8 reg; reflexivity|].
  split; [cases8 mode; cases8 reg; reflexivity|].
  destruct Hbase as [->|[->|[->| ->]]]; cases8 mode; cases8 reg; reflexivity.
Qed.

(** X29. STOP through the decoder (opcode 0x4E72), whatever the S bit:
    SR is replaced by the immediate word at [pc], all sixteen bits, no
    privilege is checked, [stopped] is set, [pc] moves past the
    immediate and 4 cycles are charged.  Nothing but [Reset] clears
    [stopped]: a later [Execute] returns 0 at once and leaves the CPU
    as it is, counters apart, even with an interrupt pending. *)
Theorem stop_unprivileged (cb : Callbacks) (cpu : CPU) (h : H) (w : Z) :
  memory cpu = Some h ->
  Read16 h (pc cpu) = Some w ->
  exists cpu',
    decodeAndExecute cb 0x4E72 cpu = Some (tt, cpu') /\
    sr cpu' = w /\ stopped cpu' = true /\
    pc cpu' = uint32 (pc cpu + 2) /\
    a cpu' = a cpu /\ d cpu' = d cpu /\ usp cpu' = usp cpu /\
    irqLevel cpu' = irqLevel cpu /\
    cyclesRun cpu' = int (cyclesRun cpu + 4) /\
    forall fuel n,
      Execute fuel cb n cpu' = Returned 0 (set_cyclesRun 0 (set_cyclesRemain n cpu')).
Proof.
  intros Hm Hw.
  assert (Hroute : decodeAndExecute cb 0x4E72 = opSTOP (H:=H)) by reflexivity.
  rewrite Hroute. clear Hroute.
  unfold opSTOP, bind. rewrite (readImmediate16_run cpu h w Hm Hw).
  unfold modify. cbv beta iota. rewrite useCycles_run.
  eexists. split; [reflexivity|].
  destruct cpu as [ty rd ra pc0 sr0 usp0 isp0 msp0 sfc0 dfc0 vbr0 cacr0 caar0
                   st hl cr cm irq vq pa pd ppc0 ir0 mem].
  cbn [memory] in Hm. subst mem. exec.
  repeat split. intros fuel n. unfold Execute. exec.
  destruct fuel; cbn [executeLoop]; unfold running; exec;
    destruct (0 <? n); reflexivity.
Qed.

End MoreDecoder.

(** ** ADD between data registers *)

Section Arithmetic.

Context {H : Type} {MH : MemoryHandler H} {IS : IntSize}.

Local Abbreviation CPU := (@CPU H).

Lemma maskValue_mod (v size : Z) :
  size = 8 \/ size = 16 \/ size = 32 -> 0 <= v < 2 ^ 32 ->
  maskValue v size = v mod 2 ^ size.
Proof.
  intros Hsize Hv. destruct Hsize as [-> | [-> | ->]]; unfold maskValue.
  - apply (land_low_bits v 8). lia.
  - apply (land_low_bits v 16). lia.
  - symmetry. apply Z.mod_small. exact Hv.
Qed.

Lemma readEA_data (c : CPU) (reg size v : Z) :
  index (d c) reg = Some v -> readEA 0 reg size c = Some (maskValue v size, c).
Proof.
  intros Hv. unfold readEA, bind, ret. rewrite (getD_some c reg v Hv). reflexivity.
Qed.

Lemma testbit_low_mod (x y n i : Z) :
  0 <= i < n -> x mod 2 ^ n = y mod 2 ^ n -> Z.testbit x i = Z.testbit y i.
Proof.
  intros Hi E. rewrite <- (Z.mod_pow2_bits_low x n i), <- (Z.mod_pow2_bits_low y n i) by lia.
  rewrite E. reflexivity.
Qed.

(** X30. ADD Dy,Dx through the decoder (opcode
    0xD000 + rx * 0x200 + sz * 0x40 + ry, sz = 0, 1, 2 for the sizes
    8, 16, 32).  The low [size] bits of Dx become those of the sum, its
    upper bits and the other data registers are kept; X is the carry
    out of the addition at that size, N the sign bit of the sum, Z set
    exactly when the sum is 0 at that size, while V and C are always
    left 0; PC, the address registers and the memory are untouched and
    4 cycles are charged. *)
Theorem add_data_registers (cb : Callbacks) (cpu : CPU) (rx ry sz vx vy : Z) :
  0 <= rx <= 7 -> 0 <= ry <= 7 -> 0 <= sz <= 2 ->
  index (d cpu) rx = Some vx -> index (d cpu) ry = Some vy ->
  0 <= vx < 2 ^ 32 -> 0 <= vy < 2 ^ 32 ->
  let size := 8 * 2 ^ sz in
  exists cpu' new,
    decodeAndExecute cb (0xD000 + rx * 0x200 + sz * 0x40 + ry) cpu = Some (tt, cpu') /\
    index (d cpu') rx = Some new /\
    new mod 2 ^ size = (vx + vy) mod 2 ^ size /\
    (forall i, size <= i < 32 -> Z.testbit new i = Z.testbit vx i) /\
    (forall j, j <> rx -> index (d cpu') j = index (d cpu) j) /\
    Z.testbit (sr cpu') 4 = (2 ^ size <=? vx mod 2 ^ size + vy mod 2 ^ size) /\
    Z.testbit (sr cpu') 3 = Z.testbit (vx + vy) (size - 1) /\
    Z.testbit (sr cpu') 2 = ((vx + vy) mod 2 ^ size =? 0) /\
    Z.testbit (sr cpu') 1 = false /\
    Z.testbit (sr cpu') 0 = false /\
    (forall i, 5 <= i -> Z.testbit (sr cpu') i = Z.testbit (sr cpu) i) /\
    a cpu' = a cpu /\ pc cpu' = pc cpu /\ memory cpu' = memory cpu /\
    cyclesRun cpu' = int (cyclesRun cpu + 4).
Proof.
  intros Hrx Hry Hsz Hvx Hvy Hxr Hyr size.
  set (opcode := 0xD000 + rx * 0x200 + sz * 0x40 + ry).
  assert (Csz : sz = 0 \/ sz = 1 \/ sz = 2) by lia.
  assert (Hsize : size = 8 \/ size = 16 \/ size = 32).
  { subst size. destruct Csz as [->|[->| ->]]; auto. }
  assert (Hroute : decodeAndExecute cb opcode = opADD (H:=H) opcode).
  { subst opcode. destruct Csz as [->|[->| ->]]; cases8 rx; cases8 ry; reflexivity. }
  assert (F9 : Z.land (Z.shiftr opcode 9) 7 = rx).
  { subst opcode. destruct Csz as [->|[->| ->]]; cases8 rx; cases8 ry; reflexivity. }
  assert (F8 : Z.land (Z.shiftr opcode 8) 1 = 0).
  { subst opcode. destruct Csz as [->|[->| ->]]; cases8 rx; cases8 ry; reflexivity. }
  assert (F3 : Z.land (Z.shiftr opcode 3) 7 = 0).
  { subst opcode. destruct Csz as [->|[->| ->]]; cases8 rx; cases8 ry; reflexivity. }
  assert (F0 : Z.land opcode 7 = ry).
  { subst opcode. destruct Csz as [->|[->| ->]]; cases8 rx; cases8 ry; reflexivity. }
  assert (F6 : getSize opcode 6 = Some size).
  { subst opcode size. destruct Csz as [->|[->| ->]]; cases8 rx; cases8 ry; reflexivity. }
  clearbody opcode size. clear Csz Hsz sz.
  assert (Hp : 0 < 2 ^ size) by (destruct Hsize as [-> | [-> | ->]]; lia).
  assert (Hdx : maskValue vx size = vx mod 2 ^ size) by (apply maskValue_mod; assumption).
  assert (Hdy : maskValue vy size = vy mod 2 ^ size) by (apply maskValue_mod; assumption).
  assert (Bx := Z.mod_pos_bound vx (2 ^ size) Hp).
  assert (By := Z.mod_pos_bound vy (2 ^ size) Hp).
  set (dest := vx mod 2 ^ size) in *. set (src := vy mod 2 ^ size) in *.
  assert (Hsum : (dest + src) mod 2 ^ size = (vx + vy) mod 2 ^ size).
  { subst dest src. symmetry. apply Zplus_mod. }
  destruct (setFlagsAdd_run cpu dest src (uint32 (dest + src)) size Hsize Bx By eq_refl)
    as (v & s' & Hflags & Hc & Hv & Hz & Hn & Hrest).
  assert (Hres : 0 <= uint32 (dest + src) < 2 ^ 32) by (apply Z.mod_pos_bound; lia).
  destruct (writeEA_data_run (set_sr s' cpu) rx size (uint32 (dest + src)) vx
              Hrx Hsize Hres ltac:(destruct cpu; exact Hvx))
    as (c2 & new & Hwr & Hnew & Hlow & Hup & Hoth & Hback & _).
  exists (set_cyclesRemain (int (cyclesRemain c2 - 4))
            (set_cyclesRun (int (cyclesRun c2 + 4)) c2)), new.
  assert (Hc2 : c2 = set_d (d c2) (set_sr s' cpu)).
  { clear - Hback. destruct c2, cpu.
    simpl in Hback |- *. inversion Hback. reflexivity. }
  split.
  { rewrite Hroute. unfold opADD. cbv zeta. rewrite F9, F8, F3, F0, F6.
    unfold lift. unfold bind at 1. unfold ret at 1. cbv beta iota.
    change (0 =? 0) with true. cbv iota.
    unfold bind. rewrite (readEA_data cpu ry size vy Hvy). cbv beta iota.
    rewrite (getD_some cpu rx vx Hvx). cbv beta iota.
    rewrite Hdx, Hdy. fold dest src. rewrite Hflags. cbv beta iota.
    rewrite Hwr. cbv beta iota. apply useCycles_run. }
  rewrite Hc2. destruct cpu as [ty rd ra pc0 sr0 usp0 isp0 msp0 sfc0 dfc0 vbr0 cacr0
                                caar0 st hl cr cm irq vq pa pd ppc0 ir0 mem].
  cbn [d a pc sr memory cyclesRun cyclesRemain set_d set_sr set_cyclesRun
       set_cyclesRemain] in *.
  split; [rewrite Hc2 in Hnew; exact Hnew|].
  split; [rewrite Hlow, uint32_mod by exact Hsize; exact Hsum|].
  split; [exact Hup|].
  split; [rewrite Hc2 in Hoth; exact Hoth|].
  split; [rewrite Hrest by lia; rewrite carry_overflow_bits by lia; reflexivity|].
  split.
  { rewrite Hn, testbit_uint32.
    destruct (Z.ltb_spec (size - 1) 32); [|destruct Hsize as [-> | [-> | ->]]; lia].
    apply (testbit_low_mod _ _ size); [destruct Hsize as [-> | [-> | ->]]; lia|exact Hsum]. }
  split; [rewrite Hz, uint32_mod by exact Hsize; rewrite Hsum; reflexivity|].
  split; [exact Hv|]. split; [exact Hc|].
  split.
  { intros i Hi. rewrite Hrest by lia. rewrite carry_overflow_bits by lia.
    destruct (Z.eqb_spec i 4); destruct (Z.eqb_spec i 1); destruct (Z.eqb_spec i 0);
      try lia; reflexivity. }
  repeat split.
Qed.

End Arithmetic.

(** ** Instances on the scenarios *)

Lemma SetVIRQ_selects_highest_witness :
  exists (cpu' : CPU) (lines : Array8 bool),
    SetVIRQ 3 true bareCPU = Some (tt, cpu') /\
    store (virq bareCPU) 3 true = Some lines /\
    virq cpu' = lines /\
    (irqLevel cpu' = 0 /\ (forall i : Z, 1 <= i <= 7 -> index lines i = Some false) \/
     1 <= irqLevel cpu' <= 7 /\
     index lines (irqLevel cpu') = Some true /\
     (forall i : Z, irqLevel cpu' < i <= 7 -> index lines i = Some false)) /\
    GetVIRQ 3 cpu' = Some (true, cpu') /\
    set_irqLevel (irqLevel bareCPU) (set_virq (virq bareCPU) cpu') = bareCPU.
Proof.
  apply (SetVIRQ_selects_highest bareCPU 3 true).
  - lia.
Defined.

Lemma interrupt_stays_pending_witness :
  irqLevel irqTakenCPU = 1 /\
  (1 <= 6 -> checkInterrupts noCallbacks irqTakenCPU = Some (tt, irqTakenCPU)) /\
  (1 = 7 -> checkInterrupts noCallbacks irqTakenCPU = handleInterrupt noCallbacks 7 irqTakenCPU).
Proof.
  apply (interrupt_stays_pending noCallbacks irqCPU irqTakenCPU 1).
  - lia.
  - reflexivity.
  - vm_compute; reflexivity.
Defined.

Lemma Reset_idempotent_witness :
  Reset (resetCPU 0x7042) = Some (tt, resetCPU 0x7042) /\
  memory (resetCPU 0x7042) = memory (programCPU 0x7042) /\
  cpuType (resetCPU 0x7042) = cpuType (programCPU 0x7042) /\
  virq (resetCPU 0x7042) = virq (programCPU 0x7042) /\
  irqLevel (resetCPU 0x7042) = 0 /\
  sr (resetCPU 0x7042) = 0x2700 /\ ppc (resetCPU 0x7042) = pc (resetCPU 0x7042).
Proof.
  apply (Reset_idempotent (programCPU 0x7042) (resetCPU 0x7042)).
  - vm_compute; reflexivity.
Defined.

Lemma pushLong_popLong_witness :
  bind (pushLong 0x400) (fun _ : unit => popLong) irqCPU =
  Some (0x400, set_memory (Some irqMemory1) irqCPU).
Proof.
  apply (pushLong_popLong irqCPU 0x400 irqMemory irqMemory1).
  - reflexivity.
  - vm_compute; split; [discriminate | reflexivity].
  - vm_compute; reflexivity.
  - vm_compute; reflexivity.
Defined.

Lemma pushLong_popLong_no_memory_witness :
  exists regs : Array8 Z,
    store (a bareCPU) 7 (uint32 (e7 (a bareCPU) - 4)) = Some regs /\
    bind (pushLong 0x400) (fun _ : unit => popLong) bareCPU = Some (0, set_a regs bareCPU).
Proof.
  apply (pushLong_popLong_no_memory bareCPU 0x400).
  - reflexivity.
Defined.

Lemma Execute_not_running_witness :
  Execute 5 noCallbacks 0 irqCPU = Returned 0 (set_cyclesRun 0 (set_cyclesRemain 0 irqCPU)).
Proof.
  apply (Execute_not_running irqCPU 5%nat noCallbacks 0 irqMemory).
  - reflexivity.
  - right; right; lia.
Defined.

Lemma Execute_without_interrupt_witness :
  exists cpu' : CPU,
    Execute 3 noCallbacks 10 (resetCPU 0x7042) = Returned (4 * ((10 + 3) / 4)) cpu' /\
    10 <= 4 * ((10 + 3) / 4) < 10 + 4 /\
    cyclesRemain cpu' = 10 - 4 * ((10 + 3) / 4) /\
    pc cpu' = uint32 (pc (resetCPU 0x7042) + 2 * ((10 + 3) / 4)) /\
    a cpu' = a (resetCPU 0x7042) /\
    sr cpu' = sr (resetCPU 0x7042) /\ memory cpu' = memory (resetCPU 0x7042).
Proof.
  apply (Execute_without_interrupt (resetCPU 0x7042) 3%nat 10 (force (programMemory 0x7042) SimpleMemory.empty)).
  - vm_compute; reflexivity.
  - reflexivity.
  - reflexivity.
  - reflexivity.
  - vm_compute; split; [discriminate | reflexivity].
  - vm_compute; split; [reflexivity | discriminate].
  - intros k Hk; change ((10 + 3) / 4) with 3 in Hk;
    assert (C : k = 0 \/ k = 1 \/ k = 2) by lia;
    destruct C as [->|[->| ->]]; vm_compute; discriminate.
  - vm_compute; apply le_n.
Defined.

Lemma SimpleMemory_Write32_Read32_witness :
  exists m' : SimpleMemory.t,
    SimpleMemory.Write32 SimpleMemory.empty 0x300 0x12345678 = Some m' /\
    SimpleMemory.Read32 m' 0x300 = Some 0x12345678 /\
    SimpleMemory.Read32 m' (uint32 (0x300 + 0x100000)) = Some 0x12345678 /\
    SimpleMemory.Read8 m' 0x300 = Some (0x12345678 / 2 ^ 24) /\
    SimpleMemory.Read8 m' (0x300 + 1) = Some ((0x12345678 / 2 ^ 16) mod 2 ^ 8) /\
    SimpleMemory.Read8 m' (0x300 + 2) = Some ((0x12345678 / 2 ^ 8) mod 2 ^ 8) /\
    SimpleMemory.Read8 m' (0x300 + 3) = Some (0x12345678 mod 2 ^ 8) /\
    (forall j : Z,
     j < Z.land 0x300 0xFFFFF \/ Z.land 0x300 0xFFFFF + 3 < j -> m' j = SimpleMemory.empty j).
Proof.
  apply (SimpleMemory_Write32_Read32 SimpleMemory.empty 0x300 0x12345678).
  - lia.
  - vm_compute; discriminate.
Defined.

Lemma signExtend_bits_witness :
  (forall i : Z,
   0 <= i ->
   Z.testbit (signExtend8 128) i =
   (if i <? 8 then Z.testbit 128 i else (i <? 32) && Z.testbit 128 7)) /\
  (forall i : Z,
   0 <= i ->
   Z.testbit (signExtend16 128) i =
   (if i <? 16 then Z.testbit 128 i else (i <? 32) && Z.testbit 128 15)) /\
  signExtend8 128 = uint32 (sint32 (sint8 128)) /\
  signExtend16 128 = uint32 (sint32 (sint16 128)).
Proof.
  apply (signExtend_bits 0x80).
  - lia.
Defined.

Lemma arithmetic_flags_X_N_Z_witness :
  (exists cpu' : CPU,
     setFlagsAdd 128 128 (uint32 (128 + 128)) 8 bareCPU = Some (tt, cpu') /\
     Z.testbit (sr cpu') 4 = (2 ^ 8 <=? 128 + 128) /\
     Z.testbit (sr cpu') 3 = Z.testbit (128 + 128) (8 - 1) /\
     Z.testbit (sr cpu') 2 = ((128 + 128) mod 2 ^ 8 =? 0) /\
     (forall i : Z, 5 <= i -> Z.testbit (sr cpu') i = Z.testbit (sr bareCPU) i) /\
     set_sr (sr bareCPU) cpu' = bareCPU) /\
  exists cpu' : CPU,
    setFlagsSub 128 128 (uint32 (128 - 128)) 8 bareCPU = Some (tt, cpu') /\
    Z.testbit (sr cpu') 4 = (128 <? 128) /\
    Z.testbit (sr cpu') 3 = Z.testbit (128 - 128) (8 - 1) /\
    Z.testbit (sr cpu') 2 = (128 =? 128) /\
    (forall i : Z, 5 <= i -> Z.testbit (sr cpu') i = Z.testbit (sr bareCPU) i) /\
    set_sr (sr bareCPU) cpu' = bareCPU.
Proof.
  apply (arithmetic_flags_X_N_Z bareCPU 0x80 0x80 8).
  - left; reflexivity.
  - lia.
  - lia.
Defined.

Lemma data_register_write_read_witness :
  exists (cpu' : CPU) (new : Z),
    writeEA 0 0 8 0x1FF dataCPU = Some (tt, cpu') /\
    index (d cpu') 0 = Some new /\
    new mod 2 ^ 8 = 0x1FF mod 2 ^ 8 /\
    (forall i : Z, 8 <= i < 32 -> Z.testbit new i = Z.testbit 0x12345680 i) /\
    (forall j : Z, j <> 0 -> index (d cpu') j = index (d dataCPU) j) /\
    set_d (d dataCPU) cpu' = dataCPU /\ readEA 0 0 8 cpu' = Some (0x1FF mod 2 ^ 8, cpu').
Proof.
  apply (data_register_write_read dataCPU 0 8 0x1FF 0x12345680).
  - lia.
  - left; reflexivity.
  - lia.
  - reflexivity.
Defined.

Lemma line_A_F_only_charged_witness :
  decodeAndExecute noCallbacks 0xA000 bareCPU =
  Some
    (tt,
     set_cyclesRemain (int (cyclesRemain bareCPU - 4))
       (set_cyclesRun (int (cyclesRun bareCPU + 4)) bareCPU)).
Proof.
  apply (line_A_F_only_charged noCallbacks bareCPU 0xA000).
  - left; lia.
Defined.


Lemma decode4_control_flow_witness :
  decodeAndExecute (H:=SimpleMemory.t) noCallbacks (0x4EC0 + (8 * 2 + 0)) =
  (if Z.even 2 then opUNLK (0x4EC0 + (8 * 2 + 0)) else opMOVEUSP (0x4EC0 + (8 * 2 + 0))) /\
  decodeAndExecute (H:=SimpleMemory.t) noCallbacks (0x4E80 + (8 * 2 + 0)) = opMOVEMtoMem (0x4E80 + (8 * 2 + 0)) /\
  decodeAndExecute (H:=SimpleMemory.t) noCallbacks (0x41C0 + 0 * 0x200 + (8 * 2 + 0)) =
  (if 2 =? 1
   then opDBcc (0x41C0 + 0 * 0x200 + (8 * 2 + 0))
   else opScc (0x41C0 + 0 * 0x200 + (8 * 2 + 0))) /\
  (2 <= 2 ->
   decodeAndExecute (H:=SimpleMemory.t) noCallbacks (0x4840 + (8 * 2 + 0)) = opIllegal (0x4840 + (8 * 2 + 0))) /\
  decodeAndExecute (H:=SimpleMemory.t) noCallbacks (0x4E50 + 0) = opIllegal (0x4E50 + 0) /\
  decodeAndExecute (H:=SimpleMemory.t) noCallbacks (0x4E58 + 0) = opIllegal (0x4E58 + 0) /\
  decodeAndExecute (H:=SimpleMemory.t) noCallbacks (0x4E60 + 0) = opIllegal (0x4E60 + 0) /\
  decodeAndExecute (H:=SimpleMemory.t) noCallbacks (0x4E68 + 0) = opIllegal (0x4E68 + 0) /\
  decodeAndExecute (H:=SimpleMemory.t) noCallbacks (0x4E40 + 0) = opEXT (0x4E40 + 0) /\
  decodeAndExecute (H:=SimpleMemory.t) noCallbacks (0x4E48 + 0) = opSWAP (0x4E48 + 0).
Proof.
  apply (@decode4_control_flow SimpleMemory.t _ _ noCallbacks 2 0 0).
  - lia.
  - lia.
  - lia.
Defined.

Lemma opEXG_involution_witness :
  exists cpu1 cpu2 : CPU,
    decodeAndExecute noCallbacks (0xC100 + 0 * 0x200 + 64 + 1) dataCPU = Some (tt, cpu1) /\
    decodeAndExecute noCallbacks (0xC100 + 0 * 0x200 + 64 + 1) cpu1 = Some (tt, cpu2) /\
    d cpu2 = d dataCPU /\
    a cpu2 = a dataCPU /\
    (64 = 64 ->
     index (d cpu1) 0 = index (d dataCPU) 1 /\
     index (d cpu1) 1 = index (d dataCPU) 0 /\ a cpu1 = a dataCPU) /\
    (64 = 72 ->
     index (a cpu1) 0 = index (a dataCPU) 1 /\
     index (a cpu1) 1 = index (a dataCPU) 0 /\ d cpu1 = d dataCPU) /\
    (64 = 136 ->
     index (d cpu1) 0 = index (a dataCPU) 1 /\ index (a cpu1) 1 = index (d dataCPU) 0).
Proof.
  apply (opEXG_involution noCallbacks dataCPU 0 1 0x40).
  - lia.
  - lia.
  - left; reflexivity.
Defined.

Lemma opSWAP_involution_witness :
  exists cpu1 cpu2 : CPU,
    opSWAP 0x4840 dataCPU = Some (tt, cpu1) /\
    index (d cpu1) (Z.land 0x4840 7) = Some (0x12345680 mod 2 ^ 16 * 2 ^ 16 + 0x12345680 / 2 ^ 16) /\
    Z.testbit (sr cpu1) 3 = Z.testbit 0x12345680 15 /\
    Z.testbit (sr cpu1) 2 = (0x12345680 =? 0) /\
    Z.testbit (sr cpu1) 1 = false /\
    Z.testbit (sr cpu1) 0 = false /\ opSWAP 0x4840 cpu1 = Some (tt, cpu2) /\ d cpu2 = d dataCPU.
Proof.
  apply (opSWAP_involution dataCPU 0x4840 0x12345680).
  - reflexivity.
  - lia.
Defined.

Lemma opMOVEQ_effect_witness :
  exists cpu' : CPU,
    decodeAndExecute noCallbacks (0x7000 + 0 * 0x200 + 66) bareCPU = Some (tt, cpu') /\
    index (d cpu') 0 = Some (signExtend8 66) /\
    (forall j : Z, j <> 0 -> index (d cpu') j = index (d bareCPU) j) /\
    Z.testbit (sr cpu') 3 = Z.testbit 66 7 /\
    Z.testbit (sr cpu') 2 = (66 =? 0) /\
    Z.testbit (sr cpu') 1 = false /\
    Z.testbit (sr cpu') 0 = false /\
    (forall i : Z, 4 <= i -> Z.testbit (sr cpu') i = Z.testbit (sr bareCPU) i) /\
    a cpu' = a bareCPU /\
    pc cpu' = pc bareCPU /\
    memory cpu' = memory bareCPU /\
    cyclesRun cpu' = int (cyclesRun bareCPU + 4) /\
    cyclesRemain cpu' = int (cyclesRemain bareCPU - 4).
Proof.
  apply (opMOVEQ_effect noCallbacks bareCPU 0 0x42).
  - lia.
  - lia.
Defined.

Lemma branch_targets_witness :
  exists (taken : bool) (cpu' : CPU),
    (0 = 0 -> taken = true) /\
    (0 <> 0 -> testCondition 0 (resetCPU 0x7042) = Some (taken, resetCPU 0x7042)) /\
    decodeAndExecute noCallbacks (0x6000 + 0 * 0x100 + 0) (resetCPU 0x7042) = Some (tt, cpu') /\
    pc cpu' =
    (if taken
     then
      if 0 =? 0
      then uint32 (pc (resetCPU 0x7042) + 2 + sint16 0x7042)
      else uint32 (pc (resetCPU 0x7042) + sint8 0)
     else if 0 =? 0 then uint32 (pc (resetCPU 0x7042) + 2) else pc (resetCPU 0x7042)) /\
    cyclesRun cpu' = int (cyclesRun (resetCPU 0x7042) + (if taken then 10 else 8)) /\
    d cpu' = d (resetCPU 0x7042) /\
    a cpu' = a (resetCPU 0x7042) /\
    sr cpu' = sr (resetCPU 0x7042) /\ memory cpu' = memory (resetCPU 0x7042).
Proof.
  apply (branch_targets noCallbacks (resetCPU 0x7042) (force (programMemory 0x7042) SimpleMemory.empty) 0 0 0x7042).
  - lia.
  - lia.
  - lia.
  - intros _; split; [vm_compute; reflexivity | split; [vm_compute; reflexivity | lia]].
Defined.

Lemma dbcc_counts_witness :
  exists (b : bool) (cpu' : CPU),
    testCondition 1 (resetCPU 0x7042) = Some (b, resetCPU 0x7042) /\
    decodeAndExecute noCallbacks (0x50C8 + 1 * 0x100 + 0) (resetCPU 0x7042) = Some (tt, cpu') /\
    a cpu' = a (resetCPU 0x7042) /\
    sr cpu' = sr (resetCPU 0x7042) /\
    memory cpu' = memory (resetCPU 0x7042) /\
    (if b
     then
      d cpu' = d (resetCPU 0x7042) /\
      pc cpu' = uint32 (pc (resetCPU 0x7042) + 2) /\
      cyclesRun cpu' = int (cyclesRun (resetCPU 0x7042) + 12)
     else
      exists new : Z,
        index (d cpu') 0 = Some new /\
        new mod 2 ^ 16 = (0 - 1) mod 2 ^ 16 /\
        (forall i : Z, 16 <= i -> Z.testbit new i = Z.testbit 0 i) /\
        (forall j : Z, j <> 0 -> index (d cpu') j = index (d (resetCPU 0x7042)) j) /\
        (if 0 mod 2 ^ 16 =? 0
         then
          pc cpu' = uint32 (pc (resetCPU 0x7042) + 2) /\
          cyclesRun cpu' = int (cyclesRun (resetCPU 0x7042) + 12)
         else
          pc cpu' = uint32 (pc (resetCPU 0x7042) + sint16 0x7042) /\
          cyclesRun cpu' = int (cyclesRun (resetCPU 0x7042) + 10))).
Proof.
  apply (dbcc_counts noCallbacks (resetCPU 0x7042) (force (programMemory 0x7042) SimpleMemory.empty) 1 0 0x7042 0).
  - lia.
  - lia.
  - vm_compute; reflexivity.
  - vm_compute; reflexivity.
  - lia.
  - reflexivity.
  - lia.
Defined.

Lemma interrupt_then_RTE_witness :
  exists cpu1 cpu2 : CPU,
    handleInterrupt noCallbacks 1 irqCPU = Some (tt, cpu1) /\
    pc cpu1 = 0x500 /\
    decodeAndExecute noCallbacks 0x4E73 cpu1 = Some (tt, cpu2) /\
    pc cpu2 = pc irqCPU /\
    sr cpu2 = sr irqCPU /\
    a cpu2 = a irqCPU /\
    d cpu2 = d irqCPU /\
    usp cpu2 = usp irqCPU /\
    memory cpu2 = Some irqMemory2 /\
    irqLevel cpu2 = irqLevel irqCPU /\ cyclesRun cpu2 = int (int (cyclesRun irqCPU + 44) + 20).
Proof.
  apply (interrupt_then_RTE noCallbacks irqCPU 1 irqMemory irqMemory1 irqMemory2 0x500).
  - reflexivity.
  - lia.
  - reflexivity.
  - vm_compute; split; [discriminate | reflexivity].
  - vm_compute; reflexivity.
  - vm_compute; reflexivity.
  - vm_compute; reflexivity.
  - vm_compute; reflexivity.
  - vm_compute; reflexivity.
Defined.

Lemma bsr_then_rts_witness :
  exists cpu1 cpu2 : CPU,
    decodeAndExecute noCallbacks (0x6100 + 2) irqCPU = Some (tt, cpu1) /\
    pc cpu1 = uint32 (pc irqCPU + sint8 2) /\
    index (a cpu1) 7 = Some (uint32 (e7 (a irqCPU) - 4)) /\
    memory cpu1 = Some irqMemory1 /\
    decodeAndExecute noCallbacks 0x4E75 cpu1 = Some (tt, cpu2) /\
    pc cpu2 = pc irqCPU /\
    a cpu2 = a irqCPU /\
    d cpu2 = d irqCPU /\
    sr cpu2 = sr irqCPU /\
    memory cpu2 = Some irqMemory1 /\ cyclesRun cpu2 = int (int (cyclesRun irqCPU + 18) + 16).
Proof.
  apply (bsr_then_rts noCallbacks irqCPU irqMemory irqMemory1 2).
  - reflexivity.
  - lia.
  - vm_compute; split; [discriminate | reflexivity].
  - vm_compute; reflexivity.
  - vm_compute; reflexivity.
Defined.

Lemma link_then_unlk_witness :
  exists cpu1 cpu2 : CPU,
    opLINK (0x4E50 + 6) irqCPU = Some (tt, cpu1) /\
    index (a cpu1) 6 = Some (uint32 (e7 (a irqCPU) - 4)) /\
    index (a cpu1) 7 = Some (uint32 (e7 (a irqCPU) - 4 + sint16 0x4E71)) /\
    pc cpu1 = uint32 (pc irqCPU + 2) /\
    opUNLK (0x4E58 + 6) cpu1 = Some (tt, cpu2) /\
    a cpu2 = a irqCPU /\ d cpu2 = d irqCPU /\ pc cpu2 = pc cpu1 /\ memory cpu2 = Some linkMemory.
Proof.
  apply (link_then_unlk irqCPU irqMemory linkMemory 6 0x4E71 0).
  - lia.
  - reflexivity.
  - vm_compute; reflexivity.
  - reflexivity.
  - vm_compute; split; [discriminate | reflexivity].
  - vm_compute; reflexivity.
  - vm_compute; reflexivity.
Defined.

Lemma not_postincrement_steps_twice_witness :
  exists cpu' : CPU,
    decodeAndExecute noCallbacks (0x4618 + 7) irqCPU = Some (tt, cpu') /\
    memory cpu' = Some notMemory /\
    index (a cpu') 7 = Some (uint32 (0x1000 + 2 * (if 7 =? 7 then 2 else 1))) /\
    (forall j : Z, j <> 7 -> index (a cpu') j = index (a irqCPU) j) /\
    d cpu' = d irqCPU /\
    pc cpu' = pc irqCPU /\
    Z.testbit (sr cpu') 3 = negb (Z.testbit 0 7) /\
    Z.testbit (sr cpu') 2 = (0 =? 255) /\ cyclesRun cpu' = int (cyclesRun irqCPU + 4).
Proof.
  apply (not_postincrement_steps_twice noCallbacks irqCPU irqMemory notMemory 7 0x1000 0).
  - lia.
  - reflexivity.
  - reflexivity.
  - vm_compute; reflexivity.
  - lia.
  - vm_compute; reflexivity.
Defined.

Lemma decodeAndExecute_without_memory_witness :
  exists cpu' : CPU,
    decodeAndExecute noCallbacks 0x4E75 bareCPU = Some (tt, cpu') /\ memory cpu' = None.
Proof.
  apply (decodeAndExecute_without_memory noCallbacks 0x4E75 bareCPU).
  - reflexivity.
  - reflexivity.
Defined.

Lemma decode4_unary_sizes_witness :
  decodeAndExecute (H:=SimpleMemory.t) noCallbacks (0x4200 + (8 * 0 + 0)) =
  (if 0x4200 =? 0x4000
   then opNEGX (0x4200 + (8 * 0 + 0))
   else
    if 0x4200 =? 0x4200
    then opCLR (0x4200 + (8 * 0 + 0))
    else if 0x4200 =? 0x4400 then opNEG (0x4200 + (8 * 0 + 0)) else opNOT (0x4200 + (8 * 0 + 0))) /\
  decodeAndExecute (H:=SimpleMemory.t) noCallbacks (0x4200 + 64 + (8 * 0 + 0)) =
  (if 0 =? 0
   then opEXT (0x4200 + 64 + (8 * 0 + 0))
   else
    if 0 =? 1 then opSWAP (0x4200 + 64 + (8 * 0 + 0)) else opIllegal (0x4200 + 64 + (8 * 0 + 0))) /\
  decodeAndExecute (H:=SimpleMemory.t) noCallbacks (0x4200 + 128 + (8 * 0 + 0)) =
  opMOVEMtoReg (0x4200 + 128 + (8 * 0 + 0)) /\
  decodeAndExecute (H:=SimpleMemory.t) noCallbacks (0x4A00 + (8 * 0 + 0)) = opIllegal (0x4A00 + (8 * 0 + 0)) /\
  decodeAndExecute (H:=SimpleMemory.t) noCallbacks (0x4A40 + (8 * 0 + 0)) =
  (if 0 =? 0
   then opEXT (0x4A40 + (8 * 0 + 0))
   else if 0 =? 1 then opSWAP (0x4A40 + (8 * 0 + 0)) else opIllegal (0x4A40 + (8 * 0 + 0))) /\
  decodeAndExecute (H:=SimpleMemory.t) noCallbacks (0x4A80 + (8 * 0 + 0)) = opMOVEMtoMem (0x4A80 + (8 * 0 + 0)) /\
  getSize (0x4200 + (8 * 0 + 0)) 6 = Some 8.
Proof.
  apply (@decode4_unary_sizes SimpleMemory.t _ _ noCallbacks 0 0 0x4200).
  - lia.
  - lia.
  - right; left; reflexivity.
Defined.

Lemma stop_unprivileged_witness :
  exists cpu' : CPU,
    decodeAndExecute noCallbacks 0x4E72 (resetCPU 0x7042) = Some (tt, cpu') /\
    sr cpu' = 0x7042 /\
    stopped cpu' = true /\
    pc cpu' = uint32 (pc (resetCPU 0x7042) + 2) /\
    a cpu' = a (resetCPU 0x7042) /\
    d cpu' = d (resetCPU 0x7042) /\
    usp cpu' = usp (resetCPU 0x7042) /\
    irqLevel cpu' = irqLevel (resetCPU 0x7042) /\
    cyclesRun cpu' = int (cyclesRun (resetCPU 0x7042) + 4) /\
    (forall (fuel : nat) (n : Z),
     Execute fuel noCallbacks n cpu' = Returned 0 (set_cyclesRun 0 (set_cyclesRemain n cpu'))).
Proof.
  apply (stop_unprivileged noCallbacks (resetCPU 0x7042) (force (programMemory 0x7042) SimpleMemory.empty) 0x7042).
  - vm_compute; reflexivity.
  - vm_compute; reflexivity.
Defined.

Lemma add_data_registers_witness :
  exists (cpu' : CPU) (new : Z),
    decodeAndExecute noCallbacks (0xD000 + 0 * 0x200 + 0 * 64 + 1) dataCPU = Some (tt, cpu') /\
    index (d cpu') 0 = Some new /\
    new mod 2 ^ (8 * 2 ^ 0) = (0x12345680 + 128) mod 2 ^ (8 * 2 ^ 0) /\
    (forall i : Z, 8 * 2 ^ 0 <= i < 32 -> Z.testbit new i = Z.testbit 0x12345680 i) /\
    (forall j : Z, j <> 0 -> index (d cpu') j = index (d dataCPU) j) /\
    Z.testbit (sr cpu') 4 =
    (2 ^ (8 * 2 ^ 0) <=? 0x12345680 mod 2 ^ (8 * 2 ^ 0) + 128 mod 2 ^ (8 * 2 ^ 0)) /\
    Z.testbit (sr cpu') 3 = Z.testbit (0x12345680 + 128) (8 * 2 ^ 0 - 1) /\
    Z.testbit (sr cpu') 2 = ((0x12345680 + 128) mod 2 ^ (8 * 2 ^ 0) =? 0) /\
    Z.testbit (sr cpu') 1 = false /\
    Z.testbit (sr cpu') 0 = false /\
    (forall i : Z, 5 <= i -> Z.testbit (sr cpu') i = Z.testbit (sr dataCPU) i) /\
    a cpu' = a dataCPU /\
    pc cpu' = pc dataCPU /\
    memory cpu' = memory dataCPU /\ cyclesRun cpu' = int (cyclesRun dataCPU + 4).
Proof.
  apply (add_data_registers noCallbacks dataCPU 0 1 0 0x12345680 0x80).
  - lia.
  - lia.
  - lia.
  - reflexivity.
  - reflexivity.
  - lia.
  - lia.
Defined.
